(** * USDB-Syncer video transcoder: command builders and loudness normalisation

    A shallow embedding of [codecs.py] (the nine codec handlers) and of
    [core/audio_normalizer.py] (two-pass loudnorm analysis, pass-2 filter,
    injection and orchestration), followed by the properties proved of them.

    Conventions of the embedding.
    - A Python [str] is a [string]; a [list[str]] command is a [list string].
    - A Python [int] is a [Z]; a Python [float] is a binary64 value, written
      as a [spec_float] (sign, mantissa, exponent; infinities and NaN).
    - A function that may raise returns a [result]; [Raise e] carries the
      exception.
    - A [pathlib.Path] is seen through the two observations the code makes
      of it, [str(p)] and [p.suffix].
    - Calls to [slog] and [_logger] only write log lines; they do not change
      any returned value and are left out. *)

From Stdlib Require Import ZArith QArith List String Ascii Bool Lia.
From Stdlib Require Import DecimalString DecimalZ.
From Stdlib Require Import SpecFloat.
Import ListNotations.
Set Warnings "-register-all".
Open Scope string_scope.
Open Scope Z_scope.
Open Scope list_scope.

(* ===================================================================== *)
(** * Python values and built-ins                                          *)
(* ===================================================================== *)

Module Py.

(** Exceptions raised by the modelled code or by the built-ins it calls. *)
Inductive exn : Type :=
| ValueError (msg : string)
| TypeError
| OverflowError
| RuntimeError (msg : string)
| OSError
| RecursionError.

Inductive result (A : Type) : Type :=
| Ok (a : A)
| Raise (e : exn).
Arguments Ok {A} a.
Arguments Raise {A} e.

Definition bind {A B} (r : result A) (k : A -> result B) : result B :=
  match r with
  | Ok a => k a
  | Raise e => Raise e
  end.

(** binary64 *)
Definition float := spec_float.
Definition prec64 : Z := 53.
Definition emax64 : Z := 1024.

(** [float(n)] for an [int] [n]: nearest binary64, ties to even;
    [OverflowError] when the rounded value does not fit. *)
Definition float_of_int (n : Z) : result float :=
  match n with
  | Z0 => Ok (S754_zero false)
  | Zpos p =>
      match binary_round prec64 emax64 false p 0 with
      | S754_finite s m e => Ok (S754_finite s m e)
      | _ => Raise OverflowError
      end
  | Zneg p =>
      match binary_round prec64 emax64 true p 0 with
      | S754_finite s m e => Ok (S754_finite s m e)
      | _ => Raise OverflowError
      end
  end.

(** [math.isfinite] *)
Definition isfinite (v : float) : bool :=
  match v with
  | S754_zero _ | S754_finite _ _ _ => true
  | S754_infinity _ | S754_nan => false
  end.

(** Exact comparison of two floats: an integer comparison of the two
    values brought to the smaller exponent; [None] when either is NaN. *)
Definition scaled (x : float) (k : Z) : Z :=
  match x with
  | S754_finite s m e => (if s then Zneg m else Zpos m) * 2 ^ (e - k)
  | _ => 0
  end.

Definition fexponent (x : float) : Z :=
  match x with
  | S754_finite _ _ e => e
  | _ => 0
  end.

Definition fcompare (a b : float) : option comparison :=
  match a, b with
  | S754_nan, _ | _, S754_nan => None
  | S754_infinity s1, S754_infinity s2 =>
      Some (if s1 then (if s2 then Eq else Lt) else (if s2 then Gt else Eq))
  | S754_infinity s, _ => Some (if s then Lt else Gt)
  | _, S754_infinity s => Some (if s then Gt else Lt)
  | _, _ =>
      let k := Z.min (fexponent a) (fexponent b) in
      Some (scaled a k ?= scaled b k)
  end.

(** [a < b] and [a > b] on floats (false when either side is NaN). *)
Definition flt (a b : float) : bool :=
  match fcompare a b with Some Lt => true | _ => false end.
Definition fgt (a b : float) : bool :=
  match fcompare a b with Some Gt => true | _ => false end.

(** [str(n)] for an [int]. *)
Definition str_int (n : Z) : string := NilZero.string_of_int (Z.to_int n).

(** [s.lower()], on the ASCII letters. *)
Definition lower_ascii (c : ascii) : ascii :=
  let n := nat_of_ascii c in
  if (Nat.leb 65 n && Nat.leb n 90)%bool then ascii_of_nat (n + 32) else c.

Fixpoint lower (s : string) : string :=
  match s with
  | EmptyString => EmptyString
  | String c r => String (lower_ascii c) (lower r)
  end.

(** [s.lstrip(c)] for a one-character set. *)
Fixpoint lstrip (c : ascii) (s : string) : string :=
  match s with
  | EmptyString => EmptyString
  | String a r => if Ascii.eqb a c then lstrip c r else s
  end.

(** [s.rstrip(c)] for a one-character set. *)
Fixpoint rstrip (c : ascii) (s : string) : string :=
  match s with
  | EmptyString => EmptyString
  | String a r =>
      match rstrip c r with
      | EmptyString => if Ascii.eqb a c then EmptyString else String a EmptyString
      | r' => String a r'
      end
  end.

(** [x in xs] for a tuple or set of strings. *)
Definition str_in (x : string) (xs : list string) : bool :=
  existsb (String.eqb x) xs.

(** [sep.join(xs)] *)
Definition join (sep : string) (xs : list string) : string := String.concat sep xs.

(** Truth value of a [str]: the empty string is false. *)
Definition truthy_str (s : string) : bool :=
  match s with EmptyString => false | _ => true end.

(** Truth value of an [Optional[int]]: [None] and [0] are false. *)
Definition truthy_opt_int (o : option Z) : bool :=
  match o with Some n => negb (n =? 0) | None => false end.

(** [s.strip()], with the ASCII white space, and [s[-n:]]. *)
Definition is_space (c : ascii) : bool :=
  let n := nat_of_ascii c in
  ((Nat.leb 9 n && Nat.leb n 13) || (Nat.leb 28 n && Nat.leb n 32))%bool.

Fixpoint lstrip_space (s : string) : string :=
  match s with
  | EmptyString => EmptyString
  | String a r => if is_space a then lstrip_space r else s
  end.

Fixpoint rstrip_space (s : string) : string :=
  match s with
  | EmptyString => EmptyString
  | String a r =>
      match rstrip_space r with
      | EmptyString => if is_space a then EmptyString else String a EmptyString
      | r' => String a r'
      end
  end.

Definition strip (s : string) : string := rstrip_space (lstrip_space s).

Definition last_chars (n : nat) (s : string) : string :=
  String.substring (String.length s - n) n s.

(** A value as [json.loads] returns it. A [dict] is kept as the list of its
    items; [dict_get] reads it. *)
Inductive pyobj : Type :=
| PyNone
| PyBool (b : bool)
| PyInt (n : Z)
| PyFloat (x : float)
| PyStr (s : string)
| PyList (l : list pyobj)
| PyDict (d : list (string * pyobj)).

Definition pydict : Type := list (string * pyobj).

Fixpoint dict_get (d : pydict) (key : string) : option pyobj :=
  match d with
  | [] => None
  | (k, v) :: r => if String.eqb k key then Some v else dict_get r key
  end.

(** [key in d] *)
Definition dict_has (d : pydict) (key : string) : bool :=
  match dict_get d key with Some _ => true | None => false end.

(** What [json.loads] does with a text: it returns the value it read, it
    raises [JSONDecodeError] for a text that is not JSON, or it raises
    another exception: a plain [ValueError] for an integer literal of more
    digits than the interpreter converts (4300 unless configured
    otherwise), [RecursionError] for a document nested too deep.
    [JSONDecodeError] is kept apart because the handlers of the code name
    it. *)
Inductive loaded : Type :=
| Loaded (value : pyobj)
| JSONDecodeError
| LoadsRaised (e : exn).

(** The built-ins whose results the code uses but whose algorithms belong
    to the interpreter: the shortest round-trip rendering [str(x)] of a
    float, the parser [float(s)] of a string ([None] is [ValueError]),
    and [json.loads]. *)
Class Builtins : Type := {
  float_str : float -> string;
  float_of_str : string -> option float;
  json_loads : string -> loaded
}.

End Py.
Import Py.

(* ===================================================================== *)
(** * codecs.py                                                           *)
(* ===================================================================== *)

(** [pathlib.Path], through [str(p)] and [p.suffix]. *)
Record Path : Type := {
  path_str : string;
  suffix : string
}.

(** The suffix of a file name as [PurePath.suffix] computes it: the part
    from the last dot, unless that dot is the first or the last character. *)
Fixpoint rfind_dot (s : string) (i : nat) (best : option nat) : option nat :=
  match s with
  | EmptyString => best
  | String c r => rfind_dot r (S i) (if Ascii.eqb c "."%char then Some i else best)
  end.

Fixpoint basename_from (s : string) (cur : string) : string :=
  match s with
  | EmptyString => cur
  | String c r => if Ascii.eqb c "/"%char then basename_from r r else basename_from r cur
  end.

Definition name_suffix (name : string) : string :=
  match rfind_dot name 0 None with
  | Some i =>
      if (Nat.ltb 0 i && Nat.ltb i (String.length name - 1))%bool
      then String.substring i (String.length name - i) name
      else ""
  | None => ""
  end.

(** A path given by its normalised POSIX string. *)
Definition posix_path (s : string) : Path :=
  {| path_str := s; suffix := name_suffix (basename_from s s) |}.

(** Modelled from the spec: the declaration of [VideoInfo] (module
    [video_analyzer]) is not part of the sources; these are the fields of
    the stream descriptor that the builders read. *)
Record VideoInfo : Type := {
  codec_name : string;
  pixel_format : string;
  profile : option string;
  has_audio : bool;
  audio_codec : option string
}.

(** Modelled from the spec: the declaration of [HardwareAccelerator]
    (module [hwaccel]) is not part of the sources; the builders only call
    its [get_decoder]. *)
Record HardwareAccelerator : Type := {
  get_decoder : VideoInfo -> option string
}.

(** Modelled from the spec: the declaration of [TranscoderConfig] (module
    [config]) is not part of the sources; the records below hold the fields
    the code reads, with the types at which it reads them. *)
Record H264Config : Type := {
  h264_preset : string;
  h264_profile : string;
  h264_crf : Z;
  h264_pixel_format : string
}.

Record VP8Config : Type := {
  vp8_crf : Z;
  vp8_cpu_used : Z
}.

Record HEVCConfig : Type := {
  hevc_preset : string;
  hevc_profile : string;
  hevc_crf : Z;
  hevc_pixel_format : string
}.

Record VP9Config : Type := {
  vp9_crf : Z;
  vp9_deadline : string;
  vp9_cpu_used : Z
}.

Record AV1Config : Type := {
  av1_crf : Z;
  av1_cpu_used : Z
}.

Record GeneralConfig : Type := {
  max_bitrate_kbps : option Z;
  max_resolution : option (Z * Z);
  max_fps : option Z;
  timeout_seconds : Z
}.

Record UsdbIntegrationConfig : Type := {
  use_usdb_resolution : bool
}.

Record AudioConfig : Type := {
  mp3_quality : Z;
  vorbis_quality : float;
  aac_vbr_mode : Z;
  opus_bitrate_kbps : Z;
  audio_normalization_enabled : bool;
  audio_normalization_method : string;
  audio_normalization_use_usdb_defaults : bool;
  get_usdb_target_loudness : float;
  audio_normalization_target : float;
  audio_normalization_true_peak : float;
  audio_normalization_lra : float
}.

Record TranscoderConfig : Type := {
  h264 : H264Config;
  vp8 : VP8Config;
  hevc : HEVCConfig;
  vp9 : VP9Config;
  av1 : AV1Config;
  general : GeneralConfig;
  usdb_integration : UsdbIntegrationConfig;
  audio : AudioConfig
}.

(** Modelled from the spec: [check_encoder_available] (module [utils]) is
    not part of the sources. It asks the installed media engine whether an
    encoder exists, so its answer belongs to the environment of a call and
    not to the arguments of the builder. *)
Record Env : Type := {
  check_encoder_available : string -> bool
}.

Inductive VideoCodec : Type := H264 | VP8 | HEVC | VP9 | AV1.
Inductive AudioCodec : Type := MP3 | Vorbis | AAC | Opus.

Record CodecCapabilities : Type := {
  name : string;
  display_name : string;
  container : string;
  supports_quicksync_encode : bool;
  supports_quicksync_decode : bool;
  unity_compatible : bool
}.

Definition capabilities (c : VideoCodec) : CodecCapabilities :=
  match c with
  | H264 => {| name := "h264"; display_name := "H.264/AVC"; container := "mp4";
               supports_quicksync_encode := true; supports_quicksync_decode := true;
               unity_compatible := true |}
  | VP8 => {| name := "vp8"; display_name := "VP8"; container := "webm";
              supports_quicksync_encode := false; supports_quicksync_decode := false;
              unity_compatible := true |}
  | HEVC => {| name := "hevc"; display_name := "HEVC/H.265"; container := "mp4";
               supports_quicksync_encode := true; supports_quicksync_decode := true;
               unity_compatible := true |}
  | VP9 => {| name := "vp9"; display_name := "VP9"; container := "webm";
              supports_quicksync_encode := true; supports_quicksync_decode := true;
              unity_compatible := false |}
  | AV1 => {| name := "av1"; display_name := "AV1"; container := "mkv";
              supports_quicksync_encode := true; supports_quicksync_decode := true;
              unity_compatible := false |}
  end.

(** [CodecHandler.get_hw_decoder] *)
Definition get_hw_decoder (video_info : VideoInfo)
    (accel : option HardwareAccelerator) : option string :=
  match accel with
  | None => None
  | Some a => get_decoder a video_info
  end.

(** [if hw_decode_enabled: if decoder := cls.get_hw_decoder(...): cmd.extend(...)] *)
Definition hw_decoder_args (video_info : VideoInfo)
    (accel : option HardwareAccelerator) (hw_decode_enabled : bool) : list string :=
  if hw_decode_enabled then
    match get_hw_decoder video_info accel with
    | Some decoder => if truthy_str decoder then ["-c:v"; decoder] else []
    | None => []
    end
  else [].

(** [hw_encode_enabled and accel is not None] *)
Definition use_hw_encoder (accel : option HardwareAccelerator)
    (hw_encode_enabled : bool) : bool :=
  hw_encode_enabled && match accel with Some _ => true | None => false end.

(** The optional caps: [-maxrate] and a buffer of twice that rate. *)
Definition rate_cap_args (cfg : TranscoderConfig) : list string :=
  if truthy_opt_int (max_bitrate_kbps (general cfg)) then
    match max_bitrate_kbps (general cfg) with
    | Some max_k => ["-maxrate"; (str_int max_k ++ "k")%string;
                    "-bufsize"; (str_int (max_k * 2) ++ "k")%string]
    | None => []
    end
  else [].

Definition scale_fit (max_w max_h : Z) : string :=
  "scale='min(iw," ++ str_int max_w ++ ")':'min(ih," ++ str_int max_h
    ++ ")':force_original_aspect_ratio=decrease".

Definition scale_pad (max_w max_h : Z) : string :=
  "scale=" ++ str_int max_w ++ ":" ++ str_int max_h
    ++ ":force_original_aspect_ratio=decrease,pad=" ++ str_int max_w ++ ":"
    ++ str_int max_h ++ ":(ow-iw)/2:(oh-ih)/2".

Definition fps_filter (cfg : TranscoderConfig) : list string :=
  if truthy_opt_int (max_fps (general cfg)) then
    match max_fps (general cfg) with
    | Some f => [("fps=fps=" ++ str_int f)%string]
    | None => []
    end
  else [].

Definition vf_args (vf : list string) : list string :=
  match vf with
  | [] => []
  | _ => ["-vf"; join "," vf]
  end.

(** The filter chain of the H.264, VP8 and HEVC handlers. *)
Definition vf_usdb (cfg : TranscoderConfig) : list string :=
  let vf :=
    match max_resolution (general cfg) with
    | Some (max_w, max_h) =>
        if use_usdb_resolution (usdb_integration cfg)
        then [scale_fit max_w max_h]
        else [scale_pad max_w max_h]
    | None => []
    end in
  vf ++ fps_filter cfg.

(** The filter chain of the VP9 and AV1 handlers. *)
Definition vf_fit (cfg : TranscoderConfig) : list string :=
  let vf :=
    match max_resolution (general cfg) with
    | Some (max_w, max_h) => [scale_fit max_w max_h]
    | None => []
    end in
  vf ++ fps_filter cfg.

Definition audio_codec_in (video_info : VideoInfo) (xs : list string) : bool :=
  match audio_codec video_info with
  | Some c => str_in c xs
  | None => false
  end.

Definition mp4_audio (video_info : VideoInfo) : list string :=
  if audio_codec_in video_info ["aac"; "mp3"; "alac"]
  then ["-c:a"; "copy"]
  else ["-c:a"; "aac"; "-b:a"; "192k"].

Definition webm_audio (video_info : VideoInfo) : list string :=
  if audio_codec_in video_info ["opus"; "vorbis"]
  then ["-c:a"; "copy"]
  else ["-c:a"; "libopus"; "-b:a"; "160k"].

Definition is_mp4_family (output_path : Path) : bool :=
  str_in (lower (suffix output_path)) [".mp4"; ".mov"].

Definition faststart_args (output_path : Path) : list string :=
  if is_mp4_family output_path then ["-movflags"; "+faststart"] else [].

(** [H264Handler.build_encode_command] *)
Definition H264_build_encode_command (input_path output_path : Path)
    (video_info : VideoInfo) (cfg : TranscoderConfig)
    (accel : option HardwareAccelerator)
    (hw_encode_enabled hw_decode_enabled : bool) : list string :=
  let h264_cfg := h264 cfg in
  let cmd := ["ffmpeg"; "-y"; "-hide_banner"] in
  let cmd := cmd ++ hw_decoder_args video_info accel hw_decode_enabled in
  let cmd := cmd ++ ["-i"; path_str input_path] in
  let cmd :=
    if use_hw_encoder accel hw_encode_enabled then
      cmd ++ ["-c:v"; "h264_qsv";
              "-preset"; h264_preset h264_cfg;
              "-profile:v"; h264_profile h264_cfg;
              "-global_quality"; str_int (h264_crf h264_cfg);
              "-look_ahead"; "1";
              "-pix_fmt"; "nv12"]
    else
      cmd ++ ["-c:v"; "libx264";
              "-preset"; h264_preset h264_cfg;
              "-profile:v"; h264_profile h264_cfg;
              "-crf"; str_int (h264_crf h264_cfg);
              "-pix_fmt"; h264_pixel_format h264_cfg] in
  let cmd := cmd ++ ["-vsync"; "cfr"] in
  let cmd := cmd ++ rate_cap_args cfg in
  let cmd := cmd ++ vf_args (vf_usdb cfg) in
  let cmd :=
    if has_audio video_info then cmd ++ mp4_audio video_info
    else cmd ++ ["-an"] in
  let cmd := cmd ++ faststart_args output_path in
  cmd ++ [path_str output_path].

(** [VP8Handler.build_encode_command] *)
Definition VP8_build_encode_command (input_path output_path : Path)
    (video_info : VideoInfo) (cfg : TranscoderConfig)
    (accel : option HardwareAccelerator)
    (hw_encode_enabled hw_decode_enabled : bool) : list string :=
  let vp8_cfg := vp8 cfg in
  let cmd := ["ffmpeg"; "-y"; "-hide_banner"] in
  let cmd := cmd ++ hw_decoder_args video_info accel hw_decode_enabled in
  let cmd := cmd ++ ["-i"; path_str input_path] in
  let cmd :=
    cmd ++ ["-c:v"; "libvpx";
            "-crf"; str_int (vp8_crf vp8_cfg);
            "-b:v"; "0";
            "-cpu-used"; str_int (vp8_cpu_used vp8_cfg);
            "-deadline"; "good";
            "-auto-alt-ref"; "1";
            "-lag-in-frames"; "16";
            "-pix_fmt"; "yuv420p";
            "-vsync"; "cfr"] in
  let cmd := cmd ++ rate_cap_args cfg in
  let cmd := cmd ++ vf_args (vf_usdb cfg) in
  let cmd :=
    if has_audio video_info then cmd ++ webm_audio video_info
    else cmd ++ ["-an"] in
  cmd ++ [path_str output_path].

(** [HEVCHandler.build_encode_command] *)
Definition HEVC_build_encode_command (input_path output_path : Path)
    (video_info : VideoInfo) (cfg : TranscoderConfig)
    (accel : option HardwareAccelerator)
    (hw_encode_enabled hw_decode_enabled : bool) : list string :=
  let hevc_cfg := hevc cfg in
  let cmd := ["ffmpeg"; "-y"; "-hide_banner"] in
  let cmd := cmd ++ hw_decoder_args video_info accel hw_decode_enabled in
  let cmd := cmd ++ ["-i"; path_str input_path] in
  let cmd :=
    if use_hw_encoder accel hw_encode_enabled then
      cmd ++ ["-c:v"; "hevc_qsv";
              "-preset"; hevc_preset hevc_cfg;
              "-profile:v"; hevc_profile hevc_cfg;
              "-global_quality"; str_int (hevc_crf hevc_cfg);
              "-rc_mode"; "icq";
              "-pix_fmt"; "nv12"]
    else
      cmd ++ ["-c:v"; "libx265";
              "-preset"; hevc_preset hevc_cfg;
              "-profile:v"; hevc_profile hevc_cfg;
              "-crf"; str_int (hevc_crf hevc_cfg);
              "-tag:v"; "hvc1";
              "-pix_fmt"; hevc_pixel_format hevc_cfg] in
  let cmd := cmd ++ ["-vsync"; "cfr"] in
  let cmd := cmd ++ rate_cap_args cfg in
  let cmd := cmd ++ vf_args (vf_usdb cfg) in
  let cmd :=
    if has_audio video_info then cmd ++ mp4_audio video_info
    else cmd ++ ["-an"] in
  let cmd := cmd ++ faststart_args output_path in
  cmd ++ [path_str output_path].

(** [VP9Handler.build_encode_command] *)
Definition VP9_build_encode_command (input_path output_path : Path)
    (video_info : VideoInfo) (cfg : TranscoderConfig)
    (accel : option HardwareAccelerator)
    (hw_encode_enabled hw_decode_enabled : bool) : list string :=
  let vp9_cfg := vp9 cfg in
  let cmd := ["ffmpeg"; "-y"; "-hide_banner"] in
  let cmd := cmd ++ hw_decoder_args video_info accel hw_decode_enabled in
  let cmd := cmd ++ ["-i"; path_str input_path] in
  let cmd :=
    if use_hw_encoder accel hw_encode_enabled then
      cmd ++ ["-c:v"; "vp9_qsv";
              "-global_quality"; str_int (vp9_crf vp9_cfg);
              "-pix_fmt"; "nv12"]
    else
      cmd ++ ["-c:v"; "libvpx-vp9";
              "-crf"; str_int (vp9_crf vp9_cfg);
              "-b:v"; "0";
              "-deadline"; vp9_deadline vp9_cfg;
              "-cpu-used"; str_int (vp9_cpu_used vp9_cfg);
              "-row-mt"; "1";
              "-tile-columns"; "2";
              "-g"; "240";
              "-pix_fmt"; "yuv420p"] in
  let cmd := cmd ++ ["-vsync"; "cfr"] in
  let cmd := cmd ++ rate_cap_args cfg in
  let cmd := cmd ++ vf_args (vf_fit cfg) in
  let cmd :=
    if has_audio video_info then cmd ++ webm_audio video_info
    else cmd ++ ["-an"] in
  cmd ++ [path_str output_path].

(** [AV1Handler.build_encode_command]; the software branch asks the
    environment which encoders exist. *)
Definition AV1_build_encode_command (env : Env) (input_path output_path : Path)
    (video_info : VideoInfo) (cfg : TranscoderConfig)
    (accel : option HardwareAccelerator)
    (hw_encode_enabled hw_decode_enabled : bool) : list string :=
  let av1_cfg := av1 cfg in
  let cmd := ["ffmpeg"; "-y"; "-hide_banner"] in
  let cmd := cmd ++ hw_decoder_args video_info accel hw_decode_enabled in
  let cmd := cmd ++ ["-i"; path_str input_path] in
  let cmd :=
    if use_hw_encoder accel hw_encode_enabled then
      cmd ++ ["-c:v"; "av1_qsv";
              "-rc_mode"; "icq";
              "-global_quality"; str_int (av1_crf av1_cfg);
              "-pix_fmt"; "nv12"]
    else if check_encoder_available env "libsvtav1" then
      cmd ++ ["-c:v"; "libsvtav1";
              "-crf"; str_int (av1_crf av1_cfg);
              "-preset"; str_int (av1_cpu_used av1_cfg);
              "-g"; "240";
              "-pix_fmt"; "yuv420p10le"]
    else if check_encoder_available env "libaom-av1" then
      cmd ++ ["-c:v"; "libaom-av1";
              "-crf"; str_int (av1_crf av1_cfg);
              "-cpu-used"; str_int (av1_cpu_used av1_cfg);
              "-g"; "240";
              "-pix_fmt"; "yuv420p10le"]
    else
      cmd ++ ["-c:v"; "av1"] in
  let cmd := cmd ++ ["-vsync"; "cfr"] in
  let cmd := cmd ++ rate_cap_args cfg in
  let cmd := cmd ++ vf_args (vf_fit cfg) in
  let cmd :=
    if has_audio video_info then
      if is_mp4_family output_path then cmd ++ mp4_audio video_info
      else cmd ++ webm_audio video_info
    else cmd ++ ["-an"] in
  let cmd := cmd ++ faststart_args output_path in
  cmd ++ [path_str output_path].

(** The arguments of a video handler's [build_encode_command]. *)
Record VideoArgs : Type := {
  v_input_path : Path;
  v_output_path : Path;
  v_video_info : VideoInfo;
  v_cfg : TranscoderConfig;
  v_accel : option HardwareAccelerator;
  v_hw_encode_enabled : bool;
  v_hw_decode_enabled : bool
}.

(** Dispatch on the handler class, as a call [handler.build_encode_command(...)]
    does once the handler has been looked up. *)
Definition video_build_encode_command (env : Env) (c : VideoCodec)
    (a : VideoArgs) : list string :=
  let run f :=
    f (v_input_path a) (v_output_path a) (v_video_info a) (v_cfg a) (v_accel a)
      (v_hw_encode_enabled a) (v_hw_decode_enabled a) in
  match c with
  | H264 => run H264_build_encode_command
  | VP8 => run VP8_build_encode_command
  | HEVC => run HEVC_build_encode_command
  | VP9 => run VP9_build_encode_command
  | AV1 => run (AV1_build_encode_command env)
  end.

(** [CODEC_REGISTRY], filled by the [@register_codec] decorators in the
    order of the class definitions, and [get_codec_handler]. *)
Definition register_codec (handler : VideoCodec)
    (registry : list (string * VideoCodec)) : list (string * VideoCodec) :=
  (name (capabilities handler), handler)
    :: filter (fun kv => negb (String.eqb (fst kv) (name (capabilities handler)))) registry.

Definition CODEC_REGISTRY : list (string * VideoCodec) :=
  register_codec AV1 (register_codec VP9 (register_codec HEVC
    (register_codec VP8 (register_codec H264 [])))).

Definition get_codec_handler (codec_name : string) : option VideoCodec :=
  option_map snd (find (fun kv => String.eqb (fst kv) codec_name) CODEC_REGISTRY).

(** ** Audio codecs *)

Record AudioCodecCapabilities : Type := {
  a_name : string;
  a_display_name : string;
  a_container : string;
  container_extensions : list string
}.

Definition audio_capabilities (c : AudioCodec) : AudioCodecCapabilities :=
  match c with
  | MP3 => {| a_name := "mp3"; a_display_name := "MP3 (LAME)"; a_container := "mp3";
              container_extensions := ["mp3"] |}
  | Vorbis => {| a_name := "vorbis"; a_display_name := "Ogg Vorbis"; a_container := "ogg";
                 container_extensions := ["ogg"] |}
  | AAC => {| a_name := "aac"; a_display_name := "AAC (M4A)"; a_container := "m4a";
              container_extensions := ["m4a"; "mp4"] |}
  | Opus => {| a_name := "opus"; a_display_name := "Opus"; a_container := "opus";
               container_extensions := ["opus"] |}
  end.

Definition range_message (name low high value : string) : string :=
  name ++ " must be between " ++ low ++ " and " ++ high ++ " (got " ++ value ++ ")".

(** [_ensure_int_in_range] *)
Definition _ensure_int_in_range (name : string) (value low high : Z) : result unit :=
  if (value <? low) || (value >? high)
  then Raise (ValueError (range_message name (str_int low) (str_int high) (str_int value)))
  else Ok tt.

(** [_ensure_float_in_range] *)
Definition _ensure_float_in_range {B : Builtins} (name : string)
    (value low high : float) : result unit :=
  if flt value low || fgt value high
  then Raise (ValueError (range_message name (float_str low) (float_str high) (float_str value)))
  else Ok tt.

(** [_audio_common_prefix] *)
Definition _audio_common_prefix (input_path : Path) : list string :=
  ["ffmpeg"; "-y"; "-hide_banner"; "-i"; path_str input_path;
   "-map"; "0:a:0?"; "-vn"; "-sn"; "-dn"].

(** [path.suffix.lower().lstrip(".")] *)
Definition extension (path : Path) : string :=
  lstrip "."%char (lower (suffix path)).

Definition extension_message (ext : string) : string :=
  "Unsupported output extension '." ++ ext ++ "' for audio codec".

(** [_audio_force_extension] *)
Definition _audio_force_extension (path : Path) (extensions : list string) : result unit :=
  let ext := extension path in
  if negb (str_in ext extensions)
  then Raise (ValueError (extension_message ext))
  else Ok tt.

(** -1.0 and 10.0 as binary64 values *)
Definition f_minus_1 : float := S754_finite true 4503599627370496 (-52).
Definition f_10 : float := S754_finite false 5629499534213120 (-49).

(** [validate_config] of each audio handler *)
Definition validate_config {B : Builtins} (c : AudioCodec) (cfg : TranscoderConfig) : result unit :=
  match c with
  | MP3 => _ensure_int_in_range "mp3_quality" (mp3_quality (audio cfg)) 0 9
  | Vorbis => _ensure_float_in_range "vorbis_quality" (vorbis_quality (audio cfg)) f_minus_1 f_10
  | AAC => _ensure_int_in_range "aac_vbr_mode" (aac_vbr_mode (audio cfg)) 1 5
  | Opus => _ensure_int_in_range "opus_bitrate_kbps" (opus_bitrate_kbps (audio cfg)) 6 510
  end.

(** [MP3AudioHandler.build_encode_command] *)
Definition MP3_build_encode_command {B : Builtins} (input_path output_path : Path)
    (cfg : TranscoderConfig) (stream_copy : bool) : result (list string) :=
  bind (validate_config MP3 cfg) (fun _ =>
  bind (_audio_force_extension output_path (container_extensions (audio_capabilities MP3))) (fun _ =>
  let cmd := _audio_common_prefix input_path in
  let cmd :=
    if stream_copy then cmd ++ ["-c:a"; "copy"]
    else cmd ++ ["-c:a"; "libmp3lame"; "-q:a"; str_int (mp3_quality (audio cfg))] in
  Ok (cmd ++ [path_str output_path]))).

(** [VorbisAudioHandler.build_encode_command] *)
Definition Vorbis_build_encode_command {B : Builtins} (input_path output_path : Path)
    (cfg : TranscoderConfig) (stream_copy : bool) : result (list string) :=
  bind (validate_config Vorbis cfg) (fun _ =>
  bind (_audio_force_extension output_path (container_extensions (audio_capabilities Vorbis))) (fun _ =>
  let cmd := _audio_common_prefix input_path in
  let cmd :=
    if stream_copy then cmd ++ ["-c:a"; "copy"]
    else cmd ++ ["-c:a"; "libvorbis"; "-q:a"; float_str (vorbis_quality (audio cfg))] in
  Ok (cmd ++ [path_str output_path]))).

(** [AACAudioHandler.build_encode_command] *)
Definition AAC_build_encode_command {B : Builtins} (input_path output_path : Path)
    (cfg : TranscoderConfig) (stream_copy : bool) : result (list string) :=
  bind (validate_config AAC cfg) (fun _ =>
  bind (_audio_force_extension output_path ["m4a"; "mp4"]) (fun _ =>
  let cmd := _audio_common_prefix input_path in
  let cmd :=
    if stream_copy then cmd ++ ["-c:a"; "copy"]
    else cmd ++ ["-c:a"; "aac"; "-vbr"; str_int (aac_vbr_mode (audio cfg))] in
  let cmd :=
    if str_in (lower (suffix output_path)) [".m4a"; ".mp4"; ".mov"]
    then cmd ++ ["-movflags"; "+faststart"]
    else cmd in
  Ok (cmd ++ [path_str output_path]))).

(** [OpusAudioHandler.build_encode_command] *)
Definition Opus_build_encode_command {B : Builtins} (input_path output_path : Path)
    (cfg : TranscoderConfig) (stream_copy : bool) : result (list string) :=
  bind (validate_config Opus cfg) (fun _ =>
  bind (_audio_force_extension output_path (container_extensions (audio_capabilities Opus))) (fun _ =>
  let cmd := _audio_common_prefix input_path in
  let cmd :=
    if stream_copy then cmd ++ ["-c:a"; "copy"]
    else cmd ++ ["-c:a"; "libopus"; "-b:a"; (str_int (opus_bitrate_kbps (audio cfg)) ++ "k")%string] in
  Ok (cmd ++ [path_str output_path]))).

(** The arguments of an audio handler's [build_encode_command]. *)
Record AudioArgs : Type := {
  a_input_path : Path;
  a_output_path : Path;
  a_cfg : TranscoderConfig;
  a_stream_copy : bool
}.

Definition audio_build_encode_command {B : Builtins} (c : AudioCodec)
    (a : AudioArgs) : result (list string) :=
  let run (f : Path -> Path -> TranscoderConfig -> bool -> result (list string)) :=
    f (a_input_path a) (a_output_path a) (a_cfg a) (a_stream_copy a) in
  match c with
  | MP3 => run MP3_build_encode_command
  | Vorbis => run Vorbis_build_encode_command
  | AAC => run AAC_build_encode_command
  | Opus => run Opus_build_encode_command
  end.

(** The extensions each audio handler passes to [_audio_force_extension]. *)
Definition accepted_extensions (c : AudioCodec) : list string :=
  match c with
  | AAC => ["m4a"; "mp4"]
  | _ => container_extensions (audio_capabilities c)
  end.

(** [AUDIO_CODEC_REGISTRY] and [get_audio_codec_handler] *)
Definition register_audio_codec (handler : AudioCodec)
    (registry : list (string * AudioCodec)) : list (string * AudioCodec) :=
  (a_name (audio_capabilities handler), handler)
    :: filter (fun kv => negb (String.eqb (fst kv) (a_name (audio_capabilities handler)))) registry.

Definition AUDIO_CODEC_REGISTRY : list (string * AudioCodec) :=
  register_audio_codec Opus (register_audio_codec AAC
    (register_audio_codec Vorbis (register_audio_codec MP3 []))).

Definition get_audio_codec_handler (codec_name : string) : option AudioCodec :=
  option_map snd (find (fun kv => String.eqb (fst kv) codec_name) AUDIO_CODEC_REGISTRY).

(* ===================================================================== *)
(** * core/audio_normalizer.py                                            *)
(* ===================================================================== *)

Record LoudnormTargets : Type := {
  integrated_lufs : float;
  true_peak_dbtp : option float;
  lra_lu : option float
}.

Record LoudnormMeasurements : Type := {
  measured_I : float;
  measured_TP : float;
  measured_LRA : float;
  measured_thresh : float;
  offset : float;
  raw : pydict
}.

(** [float(value)] on a value produced by [json.loads] or by [dict.get]. *)
Definition py_float {B : Builtins} (value : pyobj) : result float :=
  match value with
  | PyNone => Raise TypeError
  | PyBool b => Ok (if b then S754_finite false 1 0 else S754_zero false)
  | PyInt n => float_of_int n
  | PyFloat x => Ok x
  | PyStr s =>
      match float_of_str s with
      | Some x => Ok x
      | None => Raise (ValueError "could not convert string to float")
      end
  | PyList _ | PyDict _ => Raise TypeError
  end.

(** [_is_finite_number]: [TypeError] and [ValueError] are caught, any other
    exception of [float(value)] propagates. *)
Definition _is_finite_number {B : Builtins} (value : pyobj) : result bool :=
  match py_float value with
  | Ok v => Ok (isfinite v)
  | Raise TypeError => Ok false
  | Raise (ValueError _) => Ok false
  | Raise e => Raise e
  end.

(** [f"{value:.3f}"] for a finite float: the exact value times 1000 is
    rounded to the nearest integer, ties to even, and printed with three
    digits after the point. *)
Definition round_half_even (num den : Z) : Z :=
  let q := num / den in
  let r := num mod den in
  match 2 * r ?= den with
  | Lt => q
  | Gt => q + 1
  | Eq => if Z.even q then q else q + 1
  end.

Definition thousandths (m : positive) (e : Z) : Z :=
  if 0 <=? e then Zpos m * 2 ^ e * 1000
  else round_half_even (Zpos m * 1000) (2 ^ (- e)).

Definition pad3 (n : Z) : string :=
  if n <? 10 then "00" ++ str_int n
  else if n <? 100 then "0" ++ str_int n
  else str_int n.

Definition fixed3 (negative : bool) (n : Z) : string :=
  (if negative then "-" else "") ++ str_int (n / 1000) ++ "." ++ pad3 (n mod 1000).

Definition format_3f (value : float) : string :=
  match value with
  | S754_zero s => fixed3 s 0
  | S754_finite s m e => fixed3 s (thousandths m e)
  | S754_infinity s => if s then "-inf" else "inf"
  | S754_nan => "nan"
  end.

(** [_format_num] *)
Definition _format_num (value : float) : string :=
  if negb (isfinite value) then "0"
  else rstrip "."%char (rstrip "0"%char (format_3f value)).

(** [re.findall(r"\{[\s\S]*?\}", text)]: each match runs from an opening
    brace to the first closing brace after it, and the search resumes
    behind that closing brace. [inside] holds the text of the match in
    progress. *)
Fixpoint findall_blocks (text : string) (inside : option string) : list string :=
  match text with
  | EmptyString => []
  | String c r =>
      match inside with
      | None =>
          if Ascii.eqb c "{"%char then findall_blocks r (Some "{")
          else findall_blocks r None
      | Some blob =>
          if Ascii.eqb c "}"%char then (blob ++ "}")%string :: findall_blocks r None
          else findall_blocks r (Some (blob ++ String c "")%string)
      end
  end.

Definition has_loudnorm_keys (obj : pydict) : bool :=
  dict_has obj "input_i" && dict_has obj "input_tp"
  && dict_has obj "input_lra" && dict_has obj "input_thresh".

(** One round of the loop over the candidates: [json.loads] under a
    handler for [JSONDecodeError] only, so that any other exception of
    [json.loads] leaves the loop and the function. *)
Definition scan_blob {B : Builtins} (last_good : option pydict) (blob : string)
    : result (option pydict) :=
  match json_loads blob with
  | JSONDecodeError => Ok last_good
  | LoadsRaised e => Raise e
  | Loaded (PyDict obj) => Ok (if has_loudnorm_keys obj then Some obj else last_good)
  | Loaded _ => Ok last_good
  end.

(** The loop over the candidates, in order. *)
Fixpoint scan_candidates {B : Builtins} (candidates : list string)
    (last_good : option pydict) : result (option pydict) :=
  match candidates with
  | [] => Ok last_good
  | blob :: rest => bind (scan_blob last_good blob) (scan_candidates rest)
  end.

(** [_parse_loudnorm_json] *)
Definition _parse_loudnorm_json {B : Builtins} (stderr_text : string) : result pydict :=
  let candidates := findall_blocks stderr_text None in
  bind (scan_candidates candidates None) (fun last_good =>
  match last_good with
  | None => Raise (ValueError "Could not locate loudnorm JSON output in ffmpeg stderr")
  | Some obj => Ok obj
  end).

(** [obj.get(key)] *)
Definition obj_get (obj : pydict) (key : string) : pyobj :=
  match dict_get obj key with
  | Some v => v
  | None => PyNone
  end.

(** The dictionary [fields] of [_extract_measurements], in insertion order. *)
Definition measurement_fields (obj : pydict) : list (string * pyobj) :=
  [("measured_I", obj_get obj "input_i");
   ("measured_TP", obj_get obj "input_tp");
   ("measured_LRA", obj_get obj "input_lra");
   ("measured_thresh", obj_get obj "input_thresh");
   ("offset", obj_get obj "target_offset")].

(** [[name for name, val in fields.items() if not _is_finite_number(val)]] *)
Fixpoint bad_fields {B : Builtins} (fields : list (string * pyobj)) : result (list string) :=
  match fields with
  | [] => Ok []
  | (name, val) :: rest =>
      bind (_is_finite_number val) (fun ok =>
      bind (bad_fields rest) (fun bad =>
      Ok (if ok then bad else name :: bad)))
  end.

Definition invalid_message (bad : list string) : string :=
  "Invalid loudnorm measurement values: " ++ join ", " bad.

(** [_extract_measurements] *)
Definition _extract_measurements {B : Builtins} (obj : pydict) : result LoudnormMeasurements :=
  bind (bad_fields (measurement_fields obj)) (fun bad =>
  match bad with
  | _ :: _ => Raise (ValueError (invalid_message bad))
  | [] =>
      bind (py_float (obj_get obj "input_i")) (fun m_I =>
      bind (py_float (obj_get obj "input_tp")) (fun m_TP =>
      bind (py_float (obj_get obj "input_lra")) (fun m_LRA =>
      bind (py_float (obj_get obj "input_thresh")) (fun m_thresh =>
      bind (py_float (obj_get obj "target_offset")) (fun off =>
      Ok {| measured_I := m_I; measured_TP := m_TP; measured_LRA := m_LRA;
            measured_thresh := m_thresh; offset := off; raw := obj |})))))
  end).

(** The beginning shared by the pass-1 and pass-2 filter strings. *)
Definition loudnorm_targets_prefix (targets : LoudnormTargets) : string :=
  let filter_str := ("loudnorm=I=" ++ _format_num (integrated_lufs targets) ++ ":")%string in
  let filter_str :=
    match true_peak_dbtp targets with
    | Some tp => (filter_str ++ "TP=" ++ _format_num tp ++ ":")%string
    | None => filter_str
    end in
  match lra_lu targets with
  | Some lra => filter_str ++ "LRA=" ++ _format_num lra ++ ":"
  | None => filter_str
  end.

(** [build_loudnorm_pass2_filter] *)
Definition build_loudnorm_pass2_filter (targets : LoudnormTargets)
    (meas : LoudnormMeasurements) : string :=
  let filter_str := loudnorm_targets_prefix targets in
  filter_str
    ++ "measured_I=" ++ _format_num (measured_I meas) ++ ":"
    ++ "measured_TP=" ++ _format_num (measured_TP meas) ++ ":"
    ++ "measured_LRA=" ++ _format_num (measured_LRA meas) ++ ":"
    ++ "measured_thresh=" ++ _format_num (measured_thresh meas) ++ ":"
    ++ "offset=" ++ _format_num (offset meas).

(** [build_replaygain_filter] *)
Definition build_replaygain_filter : string := "replaygain".

(** [inject_audio_filter]; the slices [cmd[:out_idx]] and [cmd[out_idx:]]
    are [firstn] and [skipn]. *)
Definition inject_audio_filter (cmd : list string) (filter_str : string) : list string :=
  if (List.length cmd <? 2)%nat then cmd
  else
    let out_idx := (List.length cmd - 1)%nat in
    firstn out_idx cmd ++ ["-af"; filter_str] ++ skipn out_idx cmd.

(** ** Pass 1: the analysis process

    The external engine is seen through what the analyzer observes of it.
    One [read_event] is one round of the read loop: [line] is what
    [process.stderr.readline()] returned (the empty string when nothing was
    read), [poll] is what [process.poll()] returns in that round, and
    [clock] is the reading of [time.time()] that follows the read: the
    timeout check after a line, or the wall-clock reading behind the loop
    once the process has exited. Clock readings are rationals, in seconds.

    The progress lines logged from [parse_ffmpeg_progress],
    [time_to_seconds] and [format_seconds] (module [utils], not part of the
    sources, taken to return normally) are log output only. *)

Record read_event : Type := {
  line : string;
  poll : option Z;
  clock : Q
}.

Record ProcessRun : Type := {
  spawn_error : option exn;      (* [subprocess.Popen] raising *)
  stderr_pipe : bool;            (* [process.stderr] is there *)
  start_time : Q;
  reads : list read_event;
  exits_in_grace : bool          (* [process.wait(timeout=5)] returns *)
}.

(** What the analyzer does to the process. *)
Inductive proc_action : Type :=
| Terminate
| WaitAtMost (seconds : Z)
| Kill
| Wait.

Inductive loop_result : Type :=
| Exited (returncode : Z) (wall_clock : Q) (stderr_lines : list string)
| TimedOut (stderr_lines : list string)
| StillReading.

Definition Qgt_bool (a b : Q) : bool := negb (Qle_bool a b).

(** The [while True] loop; it ends by [break] when nothing was read and
    the process has exited, or by the timeout behind a line. When the
    events run out the loop is still waiting for the process. *)
Fixpoint read_loop (start : Q) (timeout_seconds : Z) (events : list read_event)
    (stderr_lines : list string) : loop_result :=
  match events with
  | [] => StillReading
  | ev :: rest =>
      if negb (truthy_str (line ev)) then
        match poll ev with
        | Some returncode => Exited returncode (clock ev) stderr_lines
        | None => read_loop start timeout_seconds rest stderr_lines
        end
      else
        let stderr_lines := stderr_lines ++ [line ev] in
        if Qgt_bool (clock ev - start) (inject_Z timeout_seconds)
        then TimedOut stderr_lines
        else read_loop start timeout_seconds rest stderr_lines
  end.

(** The timeout branch: [terminate], [wait(timeout=5)], and [kill] with a
    second [wait] when the first one expired. *)
Definition stop_process (run : ProcessRun) : list proc_action :=
  [Terminate; WaitAtMost 5] ++ (if exits_in_grace run then [] else [Kill; Wait]).

(** The command of pass 1. *)
Definition pass1_command (input_path : Path) (targets : LoudnormTargets) : list string :=
  let filter_str := (loudnorm_targets_prefix targets ++ "print_format=json")%string in
  ["ffmpeg"; "-hide_banner"; "-stats"; "-y"; "-i"; path_str input_path;
   "-map"; "0:a:0?"; "-vn"; "-sn"; "-dn"; "-af"; filter_str; "-f"; "null"; "-"].

Record Analysis : Type := {
  outcome : result LoudnormMeasurements;
  spawned : list string;
  actions : list proc_action;
  recorded : option (pyobj * Q)   (* [cache.record_analysis_performance] *)
}.

Definition timeout_message (timeout_seconds : Z) : string :=
  "ffmpeg loudnorm pass 1 timeout after " ++ str_int timeout_seconds ++ "s".

Definition failure_message (returncode : Z) (stderr_lines : list string) : string :=
  let stderr_text := String.concat "" stderr_lines in
  let tail := last_chars 1000 (strip stderr_text) in
  "ffmpeg loudnorm pass 1 failed (code " ++ str_int returncode ++ "): " ++ tail.

(** The truth value of an object. *)
Definition truthy (value : pyobj) : bool :=
  match value with
  | PyNone => false
  | PyBool b => b
  | PyInt n => negb (n =? 0)
  | PyFloat x => match x with S754_zero _ => false | _ => true end
  | PyStr s => truthy_str s
  | PyList l => match l with [] => false | _ => true end
  | PyDict d => match d with [] => false | _ => true end
  end.

(** [isinstance(value, (int, float))]; [bool] is a subclass of [int]. *)
Definition is_int_or_float (value : pyobj) : bool :=
  match value with
  | PyBool _ | PyInt _ | PyFloat _ => true
  | _ => false
  end.

(** [value > 5] for a number. *)
Definition greater_than_5 (value : pyobj) : bool :=
  match value with
  | PyBool b => (if b then 1 else 0) >? 5
  | PyInt n => n >? 5
  | PyFloat x => fgt x (S754_finite false 5 0)
  | _ => false
  end.

(** [duration and isinstance(duration, (int, float)) and duration > 5] *)
Definition records_duration (duration : pyobj) : bool :=
  truthy duration && is_int_or_float duration && greater_than_5 duration.

(** [analyze_loudnorm_two_pass]; [None] when the loop never ends. *)
Definition analyze_loudnorm_two_pass {B : Builtins} (run : ProcessRun)
    (input_path : Path) (targets : LoudnormTargets) (timeout_seconds : Z)
    (cache : bool) (duration_seconds : option float) : option Analysis :=
  let cmd := pass1_command input_path targets in
  let raised e acts :=
    {| outcome := Raise e; spawned := cmd; actions := acts; recorded := None |} in
  match spawn_error run with
  | Some e => Some (raised e [])
  | None =>
      if negb (stderr_pipe run)
      then Some (raised (RuntimeError "Failed to open stderr pipe for ffmpeg process") [])
      else
        match read_loop (start_time run) timeout_seconds (reads run) [] with
        | StillReading => None
        | TimedOut _ =>
            Some (raised (RuntimeError (timeout_message timeout_seconds)) (stop_process run))
        | Exited returncode wall_clock stderr_lines =>
            let wall_seconds := (wall_clock - start_time run)%Q in
            if negb (returncode =? 0)
            then Some (raised (RuntimeError (failure_message returncode stderr_lines)) [Wait])
            else
              let stderr_text := String.concat "" stderr_lines in
              match _parse_loudnorm_json stderr_text with
              | Raise e => Some (raised e [Wait])
              | Ok obj =>
                  match _extract_measurements obj with
                  | Raise e => Some (raised e [Wait])
                  | Ok meas =>
                      Some {| outcome := Ok meas; spawned := cmd; actions := [Wait];
                              recorded :=
                                if cache && records_duration (obj_get obj "duration")
                                then Some (obj_get obj "duration", wall_seconds)
                                else None |}
                  end
              end
        end
  end.

(** ** Orchestration *)

Section Orchestrator.

(** The analysis the orchestrator calls: input path, targets, timeout,
    cache, duration. It may raise, and it may never return. *)
Variable analyze :
  Path -> LoudnormTargets -> Z -> bool -> option float ->
  option (result LoudnormMeasurements).

(** The targets built from the configuration. *)
Definition loudnorm_targets (cfg : TranscoderConfig) : LoudnormTargets :=
  if audio_normalization_use_usdb_defaults (audio cfg) then
    {| integrated_lufs := get_usdb_target_loudness (audio cfg);
       true_peak_dbtp := None;
       lra_lu := None |}
  else
    {| integrated_lufs := audio_normalization_target (audio cfg);
       true_peak_dbtp := Some (audio_normalization_true_peak (audio cfg));
       lra_lu := Some (audio_normalization_lra (audio cfg)) |}.

(** The body of the [try] statement. *)
Definition normalization_attempt (base_cmd : list string) (input_path : Path)
    (cfg : TranscoderConfig) (precomputed_meas : option LoudnormMeasurements)
    (cache : bool) (duration_seconds : option float)
    : option (result (list string)) :=
  let method := audio_normalization_method (audio cfg) in
  if String.eqb method "loudnorm" then
    let targets := loudnorm_targets cfg in
    let measured :=
      match precomputed_meas with
      | Some meas => Some (Ok meas)
      | None =>
          let analysis_timeout := Z.min (timeout_seconds (general cfg)) 300 in
          analyze input_path targets analysis_timeout cache duration_seconds
      end in
    match measured with
    | None => None
    | Some (Raise e) => Some (Raise e)
    | Some (Ok meas) =>
        let pass2_filter := build_loudnorm_pass2_filter targets meas in
        Some (Ok (inject_audio_filter base_cmd pass2_filter))
    end
  else if String.eqb method "replaygain" then
    Some (Ok (inject_audio_filter base_cmd build_replaygain_filter))
  else Some (Ok base_cmd).

(** [maybe_apply_audio_normalization]: the two early returns, then the
    [try] statement whose handler catches every [Exception]. *)
Definition maybe_apply_audio_normalization (base_cmd : list string)
    (input_path : Path) (cfg : TranscoderConfig) (stream_copy : bool)
    (precomputed_meas : option LoudnormMeasurements)
    (cache : bool) (duration_seconds : option float)
    : option (result (list string)) :=
  if negb (audio_normalization_enabled (audio cfg)) then Some (Ok base_cmd)
  else if stream_copy then Some (Ok base_cmd)
  else
    match normalization_attempt base_cmd input_path cfg precomputed_meas
            cache duration_seconds with
    | None => None
    | Some (Ok cmd) => Some (Ok cmd)
    | Some (Raise _) => Some (Ok base_cmd)
    end.

End Orchestrator.

(** The analysis as the orchestrator sees it, on a given run of the process. *)
Definition analysis_of_run {B : Builtins} (run : ProcessRun) (input_path : Path)
    (targets : LoudnormTargets) (timeout_seconds : Z) (cache : bool)
    (duration_seconds : option float) : option (result LoudnormMeasurements) :=
  option_map outcome
    (analyze_loudnorm_two_pass run input_path targets timeout_seconds cache duration_seconds).

(* ===================================================================== *)
(** * A reference instance of the built-ins                               *)
(* ===================================================================== *)

(** The properties below hold for every instance of [Builtins]. To run the
    code on concrete inputs this module gives one instance, for the
    fragment the media engine prints and the configuration holds: decimal
    numerals, correctly rounded to binary64; flat JSON objects whose
    values are strings without escapes, numerals and the JSON constants,
    an integer numeral of more than 4300 digits being refused with the
    [ValueError] of the interpreter; floats printed in positional notation with the fewest decimals that
    read back as the same float. *)
Module Reference.

Definition is_digit (c : ascii) : bool :=
  let n := nat_of_ascii c in (Nat.leb 48 n && Nat.leb n 57)%bool.

Definition digit_value (c : ascii) : Z := Z.of_nat (nat_of_ascii c - 48).

(** Reads a run of digits: the number read so far, how many digits, the rest. *)
Fixpoint read_digits (s : string) (acc : Z) (count : Z) : Z * Z * string :=
  match s with
  | String c r =>
      if is_digit c then read_digits r (acc * 10 + digit_value c) (count + 1)
      else (acc, count, s)
  | EmptyString => (acc, count, s)
  end.

Definition read_sign (s : string) : bool * string :=
  match s with
  | String "-"%char r => (true, r)
  | String "+"%char r => (false, r)
  | _ => (false, s)
  end.

(** The nearest binary64 to [num / den], for positive [num] and [den]. *)
Definition float_of_ratio (negative : bool) (num den : Z) : float :=
  let k := Z.max 0 (64 + Z.log2 den - Z.log2 num) in
  let q := (num * 2 ^ k) / den in
  let r := (num * 2 ^ k) mod den in
  let loc :=
    if r =? 0 then loc_Exact else loc_Inexact (2 * r ?= den) in
  binary_round_aux prec64 emax64 negative q (- k) loc.

(** A decimal numeral: sign, digits, optional fraction, optional exponent. *)
Definition float_of_decimal (s : string) : option float :=
  let '(negative, s1) := read_sign s in
  let '(int_part, n_int, s2) := read_digits s1 0 0 in
  let '(mantissa, n_frac, s3) :=
    match s2 with
    | String "."%char r => read_digits r int_part 0
    | _ => (int_part, 0, s2)
    end in
  let has_point := match s2 with String "."%char _ => true | _ => false end in
  if (n_int + n_frac =? 0) then None
  else
    let exponent :=
      match s3 with
      | EmptyString => Some 0
      | String c r =>
          if (Ascii.eqb c "e"%char || Ascii.eqb c "E"%char)%bool then
            let '(eneg, r1) := read_sign r in
            let '(ev, n_e, r2) := read_digits r1 0 0 in
            if (0 <? n_e) && String.eqb r2 "" then Some (if eneg then - ev else ev)
            else None
          else None
      end in
    match exponent with
    | None => None
    | Some ex =>
        let p := ex - n_frac in
        if mantissa =? 0 then Some (S754_zero negative)
        else if 0 <=? p then Some (float_of_ratio negative (mantissa * 10 ^ p) 1)
        else Some (float_of_ratio negative mantissa (10 ^ (- p)))
    end.

(** [float(s)]: surrounding white space is dropped; [inf], [infinity] and
    [nan] are read in any case. *)
Definition float_of_str_ref (s : string) : option float :=
  let t := lower (strip s) in
  let '(negative, body) := read_sign t in
  if String.eqb body "inf" || String.eqb body "infinity" then Some (S754_infinity negative)
  else if String.eqb body "nan" then Some S754_nan
  else float_of_decimal t.

(** Positional rendering with [nd] decimals, exact value rounded to even. *)
Definition scaled_decimal (m : positive) (e : Z) (nd : Z) : Z :=
  if 0 <=? e then Zpos m * 2 ^ e * 10 ^ nd
  else round_half_even (Zpos m * 10 ^ nd) (2 ^ (- e)).

Fixpoint zeros (n : nat) : string :=
  match n with O => "" | S k => "0" ++ zeros k end.

Definition pad_left (width : nat) (s : string) : string :=
  zeros (width - String.length s) ++ s.

Definition format_fixed (nd : Z) (value : float) : string :=
  match value with
  | S754_zero s => (if s then "-0.0" else "0.0")
  | S754_finite s m e =>
      let n := scaled_decimal m e nd in
      (if s then "-" else "") ++ str_int (n / 10 ^ nd) ++ "."
        ++ (if nd =? 0 then "0" else pad_left (Z.to_nat nd) (str_int (n mod 10 ^ nd)))
  | S754_infinity s => if s then "-inf" else "inf"
  | S754_nan => "nan"
  end.

Definition same_float (a b : option float) : bool :=
  match a, b with
  | Some x, Some y => match fcompare x y with Some Eq => true | _ => false end
  | _, _ => false
  end.

Fixpoint shortest_fixed (fuel : nat) (nd : Z) (value : float) : string :=
  let s := format_fixed nd value in
  match fuel with
  | O => s
  | S k =>
      if same_float (float_of_decimal s) (Some value) then s
      else shortest_fixed k (nd + 1) value
  end.

Definition float_str_ref (value : float) : string :=
  match value with
  | S754_finite _ _ _ => shortest_fixed 20 0 value
  | _ => format_fixed 0 value
  end.

(** JSON white space *)
Definition is_json_space (c : ascii) : bool :=
  let n := nat_of_ascii c in
  (Nat.eqb n 32 || Nat.eqb n 9 || Nat.eqb n 10 || Nat.eqb n 13)%bool.

Fixpoint skip_space (s : string) : string :=
  match s with
  | String c r => if is_json_space c then skip_space r else s
  | EmptyString => s
  end.

Definition quote : ascii := ascii_of_nat 34.

(** The text of a string literal after its opening quote, and the rest. *)
Fixpoint read_string (s : string) (acc : string) : option (string * string) :=
  match s with
  | EmptyString => None
  | String c r =>
      if Ascii.eqb c quote then Some (acc, r)
      else if Ascii.eqb c "\"%char then None
      else read_string r (acc ++ String c "")
  end.

Definition is_word_char (c : ascii) : bool :=
  let n := nat_of_ascii c in
  (is_digit c || (Nat.leb 65 n && Nat.leb n 90) || (Nat.leb 97 n && Nat.leb n 122)
   || Ascii.eqb c "-"%char || Ascii.eqb c "+"%char || Ascii.eqb c "."%char)%bool.

Fixpoint read_word (s : string) (acc : string) : string * string :=
  match s with
  | String c r => if is_word_char c then read_word r (acc ++ String c "") else (acc, s)
  | EmptyString => (acc, s)
  end.

Definition is_integer_word (w : string) : option Z :=
  let '(negative, body) :=
    match w with
    | String "-"%char r => (true, r)
    | _ => (false, w)
    end in
  let '(n, count, rest) := read_digits body 0 0 in
  if (0 <? count) && String.eqb rest "" then Some (if negative then - n else n) else None.

(** What reading a piece of a document gives: the piece read, a text that
    is not JSON, or an exception of the interpreter other than
    [JSONDecodeError]. *)
Inductive reading (A : Type) : Type :=
| Read (a : A)
| Malformed
| Refused (e : exn).
Arguments Read {A} a.
Arguments Malformed {A}.
Arguments Refused {A} e.

(** The digits of an integer numeral, and the limit [int] puts on them. *)
Definition integer_digits (w : string) : Z :=
  let body :=
    match w with
    | String "-"%char r => r
    | _ => w
    end in
  snd (fst (read_digits body 0 0)).

Definition max_str_digits : Z := 4300.

Definition digit_limit_message (digits : Z) : string :=
  "Exceeds the limit (4300 digits) for integer string conversion: value has "
    ++ str_int digits ++ " digits; use sys.set_int_max_str_digits() to increase the limit".

Definition read_word_value (s : string) : reading (pyobj * string) :=
  let '(w, rest) := read_word s "" in
  if String.eqb w "true" then Read (PyBool true, rest)
  else if String.eqb w "false" then Read (PyBool false, rest)
  else if String.eqb w "null" then Read (PyNone, rest)
  else if String.eqb w "NaN" then Read (PyFloat S754_nan, rest)
  else if String.eqb w "Infinity" then Read (PyFloat (S754_infinity false), rest)
  else if String.eqb w "-Infinity" then Read (PyFloat (S754_infinity true), rest)
  else
    match is_integer_word w with
    | Some n =>
        if max_str_digits <? integer_digits w
        then Refused (ValueError (digit_limit_message (integer_digits w)))
        else Read (PyInt n, rest)
    | None =>
        match w with
        | String "+"%char _ | String "."%char _ => Malformed
        | _ =>
            match float_of_decimal w with
            | Some x => Read (PyFloat x, rest)
            | None => Malformed
            end
        end
    end.

Definition read_value (s : string) : reading (pyobj * string) :=
  match s with
  | String c r =>
      if Ascii.eqb c quote then
        match read_string r "" with
        | Some (text, rest) => Read (PyStr text, rest)
        | None => Malformed
        end
      else read_word_value s
  | EmptyString => Malformed
  end.

(** [d[key] = value] on the list of items. *)
Fixpoint dict_set (d : pydict) (key : string) (value : pyobj) : pydict :=
  match d with
  | [] => [(key, value)]
  | (k, v) :: r =>
      if String.eqb k key then (k, value) :: r else (k, v) :: dict_set r key value
  end.

(** The members of an object, after the opening brace. *)
Fixpoint read_members (fuel : nat) (s : string) (acc : pydict) : reading pydict :=
  match fuel with
  | O => Malformed
  | S k =>
      match skip_space s with
      | String c r =>
          if negb (Ascii.eqb c quote) then Malformed
          else
            match read_string r "" with
            | Some (key, r1) =>
                match skip_space r1 with
                | String ":"%char r2 =>
                    match read_value (skip_space r2) with
                    | Read (value, r3) =>
                        let acc := dict_set acc key value in
                        match skip_space r3 with
                        | String ","%char r4 => read_members k r4 acc
                        | String "}"%char r4 =>
                            if String.eqb (skip_space r4) "" then Read acc else Malformed
                        | _ => Malformed
                        end
                    | Malformed => Malformed
                    | Refused e => Refused e
                    end
                | _ => Malformed
                end
            | None => Malformed
            end
      | EmptyString => Malformed
      end
  end.

Definition json_loads_ref (s : string) : loaded :=
  match skip_space s with
  | String "{"%char r =>
      match skip_space r with
      | String "}"%char r1 =>
          if String.eqb (skip_space r1) "" then Loaded (PyDict []) else JSONDecodeError
      | _ =>
          match read_members (String.length s) r [] with
          | Read members => Loaded (PyDict members)
          | Malformed => JSONDecodeError
          | Refused e => LoadsRaised e
          end
      end
  | _ => JSONDecodeError
  end.

#[export] Instance builtins : Builtins := {
  float_str := float_str_ref;
  float_of_str := float_of_str_ref;
  json_loads := json_loads_ref
}.

End Reference.

(* ===================================================================== *)
(** * codecs.py, the predicates and tables                                *)
(* ===================================================================== *)

(** Truth value of an [Optional[str]]. *)
Definition truthy_opt_str (o : option string) : bool :=
  match o with Some s => truthy_str s | None => false end.

(** [is_compatible] of the five video handlers. *)
Definition is_compatible (c : VideoCodec) (video_info : VideoInfo) : bool :=
  match c with
  | H264 =>
      if negb (str_in (lower (codec_name video_info)) ["h264"; "avc"]) then false
      else if negb (String.eqb (pixel_format video_info) "yuv420p") then false
      else if truthy_opt_str (profile video_info)
              && negb (match profile video_info with
                       | Some p => str_in (lower p) ["baseline"; "main"; "high"]
                       | None => false
                       end)
      then false
      else true
  | VP8 => String.eqb (lower (codec_name video_info)) "vp8"
  | HEVC =>
      if negb (str_in (lower (codec_name video_info)) ["hevc"; "h265"]) then false
      else if negb (String.eqb (pixel_format video_info) "yuv420p") then false
      else true
  | VP9 => String.eqb (lower (codec_name video_info)) "vp9"
  | AV1 => String.eqb (lower (codec_name video_info)) "av1"
  end.

(** The dictionary [codec_to_decoder] of [CodecHandler.get_qsv_decoder]. *)
Definition codec_to_decoder : list (string * string) :=
  [("h264", "h264_qsv"); ("hevc", "hevc_qsv"); ("h265", "hevc_qsv");
   ("vp9", "vp9_qsv"); ("mpeg2video", "mpeg2_qsv"); ("vc1", "vc1_qsv");
   ("av1", "av1_qsv"); ("mjpeg", "mjpeg_qsv")].

Fixpoint table_get (table : list (string * string)) (key : string) : option string :=
  match table with
  | [] => None
  | (k, v) :: r => if String.eqb k key then Some v else table_get r key
  end.

(** [CodecHandler.get_qsv_decoder] *)
Definition get_qsv_decoder (video_info : VideoInfo) : option string :=
  table_get codec_to_decoder (lower (codec_name video_info)).

(** [AudioCodecHandler.is_container_compatible] *)
Definition is_container_compatible (c : AudioCodec) (path : Path) : bool :=
  let ext := lstrip "."%char (lower (suffix path)) in
  str_in ext (container_extensions (audio_capabilities c)).

(** Lookup in a registry, as [dict.get] does. *)
Definition registry_get {H : Type} (registry : list (string * H)) (key : string) : option H :=
  option_map snd (find (fun kv => String.eqb (fst kv) key) registry).

(* ===================================================================== *)
(** * audio_analyzer.py                                                   *)
(* ===================================================================== *)

Module AudioAnalyzer.

(** [int(s)] of a string belongs to the interpreter ([None] is
    [ValueError]). *)
Class IntBuiltins : Type := {
  int_of_str : string -> option Z
}.

(** What a step of the parser may raise: the exceptions of the built-ins,
    [AttributeError] for a method an object does not have, [KeyError]. *)
Inductive probe_error : Type :=
| AttributeError
| KeyError
| BuiltinError (e : exn).

Inductive attempt (A : Type) : Type :=
| Done (a : A)
| Failed (e : probe_error).
Arguments Done {A} a.
Arguments Failed {A} e.

Definition and_then {A C} (r : attempt A) (k : A -> attempt C) : attempt C :=
  match r with
  | Done a => k a
  | Failed e => Failed e
  end.

Record AudioInfo : Type := {
  codec_name : pyobj;
  codec_long_name : pyobj;
  container : string;
  duration_seconds : float;
  bitrate_kbps : option Z;
  channels : option Z;
  sample_rate_hz : option Z;
  has_audio : bool;
  has_video : bool
}.

(** [int(x)] of a float: the value truncated towards zero. *)
Definition truncate (negative : bool) (m : positive) (e : Z) : Z :=
  let magnitude := if 0 <=? e then Zpos m * 2 ^ e else Zpos m / 2 ^ (- e) in
  if negative then - magnitude else magnitude.

(** [int(value)] *)
Definition py_int {I : IntBuiltins} (value : pyobj) : attempt Z :=
  match value with
  | PyInt n => Done n
  | PyBool b => Done (if b then 1 else 0)
  | PyFloat x =>
      match x with
      | S754_zero _ => Done 0
      | S754_finite s m e => Done (truncate s m e)
      | S754_infinity _ => Failed (BuiltinError OverflowError)
      | S754_nan => Failed (BuiltinError (ValueError "cannot convert float NaN to integer"))
      end
  | PyStr s =>
      match int_of_str s with
      | Some n => Done n
      | None => Failed (BuiltinError (ValueError "invalid literal for int()"))
      end
  | PyNone | PyList _ | PyDict _ => Failed (BuiltinError TypeError)
  end.

(** [needle in hay] for strings. *)
Fixpoint substring_in (needle hay : string) : bool :=
  if String.prefix needle hay then true
  else match hay with
       | EmptyString => false
       | String _ r => substring_in needle r
       end.

Definition is_str (value : pyobj) (s : string) : bool :=
  match value with
  | PyStr t => String.eqb t s
  | _ => false
  end.

(** [key in container], for a string [key]. *)
Definition py_contains (container : pyobj) (key : string) : attempt bool :=
  match container with
  | PyDict d => Done (dict_has d key)
  | PyList l => Done (existsb (fun x => is_str x key) l)
  | PyStr s => Done (substring_in key s)
  | PyNone | PyBool _ | PyInt _ | PyFloat _ => Failed (BuiltinError TypeError)
  end.

(** [container[key]], for a string [key]. *)
Definition py_getitem (container : pyobj) (key : string) : attempt pyobj :=
  match container with
  | PyDict d =>
      match dict_get d key with
      | Some v => Done v
      | None => Failed KeyError
      end
  | _ => Failed (BuiltinError TypeError)
  end.

(** The objects a [for] loop draws from [streams]. *)
Definition py_iter (streams : pyobj) : attempt (list pyobj) :=
  match streams with
  | PyList l => Done l
  | PyDict d => Done (map (fun kv => PyStr (fst kv)) d)
  | PyStr s => Done (map (fun c => PyStr (String c "")) (list_ascii_of_string s))
  | PyNone | PyBool _ | PyInt _ | PyFloat _ => Failed (BuiltinError TypeError)
  end.

(** [d.get(key, default)] *)
Definition dict_get_default (d : pydict) (key : string) (default : pyobj) : pyobj :=
  match dict_get d key with
  | Some v => v
  | None => default
  end.

(** The loop over the streams: [stream.get] exists on a [dict] only. *)
Fixpoint scan_streams (streams : list pyobj) (audio_stream : option pydict)
    (has_video : bool) : attempt (option pydict * bool) :=
  match streams with
  | [] => Done (audio_stream, has_video)
  | stream :: rest =>
      match stream with
      | PyDict d =>
          let codec_type := obj_get d "codec_type" in
          let has_video := if is_str codec_type "video" then true else has_video in
          let audio_stream :=
            if is_str codec_type "audio"
               && match audio_stream with None => true | Some _ => false end
            then Some d else audio_stream in
          scan_streams rest audio_stream has_video
      | _ => Failed AttributeError
      end
  end.

(** A [try] block whose handler catches [ValueError] and [TypeError] and
    keeps the value the variable had. *)
Definition keep_on_value_or_type_error {A} (r : attempt A) (kept : A) : attempt A :=
  match r with
  | Done a => Done a
  | Failed (BuiltinError (ValueError _)) => Done kept
  | Failed (BuiltinError TypeError) => Done kept
  | Failed e => Failed e
  end.

Section Parser.

Context {B : Builtins} {I : IntBuiltins}.

Definition float_attempt (value : pyobj) : attempt float :=
  match py_float value with
  | Ok x => Done x
  | Raise e => Failed (BuiltinError e)
  end.

(** [duration] *)
Definition read_duration (format_info : pyobj) : attempt float :=
  and_then (py_contains format_info "duration") (fun present =>
  if present then
    keep_on_value_or_type_error
      (and_then (py_getitem format_info "duration") float_attempt)
      (S754_zero false)
  else Done (S754_zero false)).

(** [int(container[key]) // 1000] under its [try] *)
Definition read_kbps (container : pyobj) : attempt (option Z) :=
  keep_on_value_or_type_error
    (and_then (py_getitem container "bit_rate") (fun v =>
     and_then (py_int v) (fun n => Done (Some (n / 1000)))))
    None.

(** [bitrate] *)
Definition read_bitrate (audio_stream : pydict) (format_info : pyobj) : attempt (option Z) :=
  if dict_has audio_stream "bit_rate" then read_kbps (PyDict audio_stream)
  else
    and_then (py_contains format_info "bit_rate") (fun present =>
    if present then read_kbps format_info else Done None).

(** [channels] and [sample_rate] *)
Definition read_int_field (audio_stream : pydict) (key : string) : attempt (option Z) :=
  if dict_has audio_stream key then
    keep_on_value_or_type_error
      (and_then (py_getitem (PyDict audio_stream) key) (fun v =>
       and_then (py_int v) (fun n => Done (Some n))))
      None
  else Done None.

(** [_parse_ffprobe_output] *)
Definition _parse_ffprobe_output (data : pydict) (path : Path) : attempt (option AudioInfo) :=
  let streams := dict_get_default data "streams" (PyList []) in
  let format_info := dict_get_default data "format" (PyDict []) in
  and_then (py_iter streams) (fun stream_list =>
  and_then (scan_streams stream_list None false) (fun found =>
  match fst found with
  | None => Done None
  | Some audio_stream =>
      and_then (read_duration format_info) (fun duration =>
      and_then (read_bitrate audio_stream format_info) (fun bitrate =>
      and_then (read_int_field audio_stream "channels") (fun chans =>
      and_then (read_int_field audio_stream "sample_rate") (fun sample_rate =>
      let container := lower (lstrip "."%char (suffix path)) in
      Done (Some
        {| codec_name := dict_get_default audio_stream "codec_name" (PyStr "unknown");
           codec_long_name := dict_get_default audio_stream "codec_long_name" (PyStr "Unknown");
           container := container;
           duration_seconds := duration;
           bitrate_kbps := bitrate;
           channels := chans;
           sample_rate_hz := sample_rate;
           has_audio := true;
           has_video := snd found |})))))
  end)).

(** What [subprocess.run] did: it raised (the timeout of 30 seconds
    included), or the probe completed with an exit code and its output. *)
Inductive probe_run : Type :=
| ProbeRaised
| ProbeCompleted (returncode : Z) (stdout : string).

Definition ffprobe_command (path : Path) : list string :=
  ["ffprobe"; "-v"; "quiet"; "-print_format"; "json"; "-show_format"; "-show_streams";
   path_str path].

(** [analyze_audio]: every exception ends in [return None]; an output that
    is not an object has no [get]. *)
Definition analyze_audio (run : probe_run) (path : Path) : option AudioInfo :=
  match run with
  | ProbeRaised => None
  | ProbeCompleted returncode stdout =>
      if negb (returncode =? 0) then None
      else
        match json_loads stdout with
        | Loaded (PyDict data) =>
            match _parse_ffprobe_output data path with
            | Done info => info
            | Failed _ => None
            end
        | Loaded _ => None
        | JSONDecodeError => None
        | LoadsRaised _ => None
        end
  end.

End Parser.

(** [is_audio_only] and [is_video_with_audio] *)
Definition is_audio_only (info : AudioInfo) : bool :=
  has_audio info && negb (has_video info).

Definition is_video_with_audio (info : AudioInfo) : bool :=
  has_audio info && has_video info.

(** A reference [int(s)] for the decimal numerals the probe prints; a
    numeral of more digits than the interpreter converts is a
    [ValueError]. *)
Definition int_of_str_ref (s : string) : option Z :=
  let '(negative, body) := Reference.read_sign (strip s) in
  let '(n, count, rest) := Reference.read_digits body 0 0 in
  if (0 <? count) && (count <=? Reference.max_str_digits) && String.eqb rest ""
  then Some (if negative then - n else n) else None.

#[export] Instance int_builtins : IntBuiltins := {
  int_of_str := int_of_str_ref
}.

End AudioAnalyzer.

(* ===================================================================== *)
(** * Vocabulary of the properties, and sample inputs                     *)
(* ===================================================================== *)

(** Two environments give the same answers to the two probes of the AV1
    handler. *)
Definition probes_agree (env1 env2 : Env) : Prop :=
  check_encoder_available env1 "libsvtav1" = check_encoder_available env2 "libsvtav1"
  /\ check_encoder_available env1 "libaom-av1" = check_encoder_available env2 "libaom-av1".

(** The numeric parameter of an audio variant lies outside its range:
    quality index in 0..9 for MP3, quality in -1.0..10.0 for Vorbis, VBR
    mode in 1..5 for AAC, bitrate in 6..510 for Opus. *)
Definition out_of_range (c : AudioCodec) (cfg : TranscoderConfig) : Prop :=
  match c with
  | MP3 => mp3_quality (audio cfg) < 0 \/ 9 < mp3_quality (audio cfg)
  | Vorbis =>
      flt (vorbis_quality (audio cfg)) f_minus_1 = true
      \/ fgt (vorbis_quality (audio cfg)) f_10 = true
  | AAC => aac_vbr_mode (audio cfg) < 1 \/ 5 < aac_vbr_mode (audio cfg)
  | Opus => opus_bitrate_kbps (audio cfg) < 6 \/ 510 < opus_bitrate_kbps (audio cfg)
  end.

(** [a <= b] on floats, and membership of the Vorbis quality range. *)
Definition fle (a b : float) : bool :=
  match fcompare a b with Some Lt | Some Eq => true | _ => false end.

Definition in_vorbis_range (quality : float) : bool :=
  fle f_minus_1 quality && fle quality f_10.

(** The numeric parameter of an audio variant is a number of its interval:
    0..9 for the MP3 quality index, -1.0..10.0 for the Vorbis quality, 1..5
    for the AAC VBR mode, 6..510 for the Opus bitrate.  A NaN lies in no
    interval. *)
Definition within_range (c : AudioCodec) (cfg : TranscoderConfig) : bool :=
  match c with
  | MP3 => (0 <=? mp3_quality (audio cfg)) && (mp3_quality (audio cfg) <=? 9)
  | Vorbis => in_vorbis_range (vorbis_quality (audio cfg))
  | AAC => (1 <=? aac_vbr_mode (audio cfg)) && (aac_vbr_mode (audio cfg) <=? 5)
  | Opus => (6 <=? opus_bitrate_kbps (audio cfg)) && (opus_bitrate_kbps (audio cfg) <=? 510)
  end.

(** The output extension is one the variant accepts. *)
Definition extension_accepted (c : AudioCodec) (output_path : Path) : bool :=
  str_in (extension output_path) (accepted_extensions c).

(** The rendering the pass-2 filter is described with: three decimals,
    then trailing zeros and a trailing point stripped. *)
Definition render3 (value : float) : string :=
  rstrip "."%char (rstrip "0"%char (format_3f value)).

Definition optional_target (key : string) (target : option float) : string :=
  match target with
  | Some v => key ++ "=" ++ render3 v ++ ":"
  | None => ""
  end.

(** The pass-2 filter as described: the integrated-loudness target, the
    true-peak and loudness-range targets when given, then the five
    measured values, every number rendered by [render3]. *)
Definition described_pass2_filter (targets : LoudnormTargets)
    (meas : LoudnormMeasurements) : string :=
  "loudnorm=I=" ++ render3 (integrated_lufs targets) ++ ":"
    ++ optional_target "TP" (true_peak_dbtp targets)
    ++ optional_target "LRA" (lra_lu targets)
    ++ "measured_I=" ++ render3 (measured_I meas) ++ ":"
    ++ "measured_TP=" ++ render3 (measured_TP meas) ++ ":"
    ++ "measured_LRA=" ++ render3 (measured_LRA meas) ++ ":"
    ++ "measured_thresh=" ++ render3 (measured_thresh meas) ++ ":"
    ++ "offset=" ++ render3 (offset meas).

Definition finite_opt (target : option float) : bool :=
  match target with Some v => isfinite v | None => true end.

Definition all_finite (targets : LoudnormTargets) (meas : LoudnormMeasurements) : bool :=
  isfinite (integrated_lufs targets)
  && finite_opt (true_peak_dbtp targets) && finite_opt (lra_lu targets)
  && isfinite (measured_I meas) && isfinite (measured_TP meas)
  && isfinite (measured_LRA meas) && isfinite (measured_thresh meas)
  && isfinite (offset meas).

(** The qualifying blocks of a diagnostic text, in the order in which they
    appear: the candidates that [json.loads] reads as an object holding
    the four measurement keys. *)
Definition qualifying_block {B : Builtins} (blob : string) : option pydict :=
  match json_loads blob with
  | Loaded (PyDict obj) => if has_loudnorm_keys obj then Some obj else None
  | _ => None
  end.

Definition qualifying_blocks {B : Builtins} (text : string) : list pydict :=
  flat_map (fun blob => match qualifying_block blob with Some obj => [obj] | None => [] end)
    (findall_blocks text None).

(** The exception other than [JSONDecodeError] that [json.loads] raises on
    a candidate, if it raises one; and a list of candidates on none of
    which it does. *)
Definition refusal {B : Builtins} (blob : string) : option exn :=
  match json_loads blob with
  | LoadsRaised e => Some e
  | _ => None
  end.

Definition none_refused {B : Builtins} (blobs : list string) : Prop :=
  Forall (fun blob => refusal blob = None) blobs.

(** A field value is convertible to a finite number; its conversion
    overflows. *)
Definition converts_finite {B : Builtins} (value : pyobj) : bool :=
  match py_float value with
  | Ok v => isfinite v
  | Raise _ => false
  end.

Definition overflows {B : Builtins} (value : pyobj) : bool :=
  match py_float value with
  | Raise OverflowError => true
  | _ => false
  end.

(** The names of the fields that are not convertible to a finite number. *)
Definition invalid_names {B : Builtins} (fields : list (string * pyobj)) : list string :=
  map fst (filter (fun f => negb (converts_finite (snd f))) fields).

(** A round of the read loop delivered a line; the clock reading of a
    round lies beyond the bound; a round lets the loop go on (nothing read
    while the process is running, or a line read within the bound); the
    lines gathered from some rounds. *)
Definition is_line (ev : read_event) : bool := truthy_str (line ev).

Definition exceeded (start : Q) (timeout_seconds : Z) (ev : read_event) : bool :=
  Qgt_bool (clock ev - start) (inject_Z timeout_seconds).

Definition goes_on (start : Q) (timeout_seconds : Z) (ev : read_event) : bool :=
  if is_line ev then negb (exceeded start timeout_seconds ev)
  else match poll ev with None => true | Some _ => false end.

Definition lines_of (events : list read_event) : list string :=
  map line (filter is_line events).

Module Samples.

(** The float a decimal literal denotes. *)
Definition lit (s : string) : float :=
  match Reference.float_of_decimal s with
  | Some v => v
  | None => S754_nan
  end.

Definition f_5 : float := lit "5.0".
Definition f_minus_16 : float := lit "-16.0".

(** The targets and measurements of the scenario of the specification. *)
Definition targets_16 : LoudnormTargets :=
  {| integrated_lufs := lit "-16.0"; true_peak_dbtp := None; lra_lu := None |}.



Definition audio_cfg : AudioConfig :=
  {| mp3_quality := 2;
     vorbis_quality := f_5;
     aac_vbr_mode := 4;
     opus_bitrate_kbps := 160;
     audio_normalization_enabled := true;
     audio_normalization_method := "loudnorm";
     audio_normalization_use_usdb_defaults := true;
     get_usdb_target_loudness := f_minus_16;
     audio_normalization_target := f_minus_16;
     audio_normalization_true_peak := lit "-1.5";
     audio_normalization_lra := lit "11.0" |}.

Definition cfg_with (g : GeneralConfig) (au : AudioConfig) : TranscoderConfig :=
  {| h264 := {| h264_preset := "medium"; h264_profile := "high"; h264_crf := 18;
                h264_pixel_format := "yuv420p" |};
     vp8 := {| vp8_crf := 10; vp8_cpu_used := 1 |};
     hevc := {| hevc_preset := "medium"; hevc_profile := "main"; hevc_crf := 20;
                hevc_pixel_format := "yuv420p" |};
     vp9 := {| vp9_crf := 30; vp9_deadline := "good"; vp9_cpu_used := 2 |};
     av1 := {| av1_crf := 30; av1_cpu_used := 8 |};
     general := g;
     usdb_integration := {| use_usdb_resolution := false |};
     audio := au |}.

Definition general_cfg : GeneralConfig :=
  {| max_bitrate_kbps := Some 8000; max_resolution := Some (1920, 1080);
     max_fps := Some 60; timeout_seconds := 3600 |}.

Definition cfg : TranscoderConfig := cfg_with general_cfg audio_cfg.

Definition info : VideoInfo :=
  {| codec_name := "h264"; pixel_format := "yuv420p"; profile := Some "High";
     has_audio := true; audio_codec := Some "aac" |}.

Definition video_args : VideoArgs :=
  {| v_input_path := posix_path "in/song.avi";
     v_output_path := posix_path "out/song.mkv";
     v_video_info := info;
     v_cfg := cfg;
     v_accel := None;
     v_hw_encode_enabled := false;
     v_hw_decode_enabled := false |}.

(** Three environments: SVT-AV1 installed, the same with one more
    encoder, and no AV1 encoder at all. *)
Definition env_svt : Env :=
  {| check_encoder_available := fun n => String.eqb n "libsvtav1" |}.
Definition env_svt_x264 : Env :=
  {| check_encoder_available := fun n => String.eqb n "libsvtav1" || String.eqb n "libx264" |}.
Definition env_none : Env :=
  {| check_encoder_available := fun _ => false |}.

Definition opus_args (kbps : Z) : AudioArgs :=
  {| a_input_path := posix_path "in/song.flac";
     a_output_path := posix_path "out/song.opus";
     a_cfg := cfg_with general_cfg
       {| mp3_quality := 2; vorbis_quality := f_5; aac_vbr_mode := 4;
          opus_bitrate_kbps := kbps;
          audio_normalization_enabled := false;
          audio_normalization_method := "loudnorm";
          audio_normalization_use_usdb_defaults := true;
          get_usdb_target_loudness := f_minus_16;
          audio_normalization_target := f_minus_16;
          audio_normalization_true_peak := lit "-1.5";
          audio_normalization_lra := lit "11.0" |};
     a_stream_copy := false |}.

(** The same call with another input file of the same name, as a
    different [Path] object. *)
Definition opus_args' (kbps : Z) : AudioArgs :=
  {| a_input_path := {| path_str := "in/song.flac"; suffix := ".FLAC" |};
     a_output_path := a_output_path (opus_args kbps);
     a_cfg := a_cfg (opus_args kbps);
     a_stream_copy := false |}.

(** Diagnostic text as the engine prints it. *)
Definition q : string := String Reference.quote "".
Definition nl : string := String (ascii_of_nat 10) "".
Definition tab : string := String (ascii_of_nat 9) "".

Definition field (key value : string) : string :=
  tab ++ q ++ key ++ q ++ " : " ++ q ++ value ++ q.

Definition ln (s : string) : string := s ++ nl.

Definition loudnorm_block (i tp lra thresh off : string) : list string :=
  [ln "[Parsed_loudnorm_0 @ 0x5581] ";
   ln "{";
   ln (field "input_i" i ++ ",");
   ln (field "input_tp" tp ++ ",");
   ln (field "input_lra" lra ++ ",");
   ln (field "input_thresh" thresh ++ ",");
   ln (field "normalization_type" "dynamic" ++ ",");
   ln (field "target_offset" off);
   ln "}"].

Definition first_block : list string :=
  loudnorm_block "-10.00" "-1.00" "5.00" "-20.00" "1.00".
Definition second_block : list string :=
  loudnorm_block "-20.20" "-3.10" "7.40" "-30.20" "3.80".

(** Two qualifying blocks, then a block without the measurement keys. *)
Definition two_blocks_text : string :=
  String.concat ""
    (first_block ++ second_block ++ [ln ("{ " ++ q ++ "frame" ++ q ++ " : 12 }")]).

Definition obj_of (i tp lra thresh off : string) : pydict :=
  [("input_i", PyStr i); ("input_tp", PyStr tp); ("input_lra", PyStr lra);
   ("input_thresh", PyStr thresh); ("normalization_type", PyStr "dynamic");
   ("target_offset", PyStr off)].

Definition first_obj : pydict := obj_of "-10.00" "-1.00" "5.00" "-20.00" "1.00".
Definition second_obj : pydict := obj_of "-20.20" "-3.10" "7.40" "-30.20" "3.80".

(** A record with one field that is not a number and one that is missing. *)
Definition invalid_obj : pydict :=
  [("input_i", PyStr "-inf"); ("input_tp", PyStr "-3.10"); ("input_lra", PyStr "n/a");
   ("input_thresh", PyStr "-30.20")].

(** A record whose first field is an integer beyond the range of a float
    and whose second field is not a number. *)
Definition huge_obj : pydict :=
  [("input_i", PyInt (10 ^ 400)); ("input_tp", PyStr "abc"); ("input_lra", PyStr "7.40");
   ("input_thresh", PyStr "-30.20"); ("target_offset", PyStr "3.80")].

(** Rounds of the read loop: a line read at a given second, nothing read
    while the process runs, nothing read after the process has exited. *)
Definition line_at (seconds : Z) (text : string) : read_event :=
  {| line := text; poll := None; clock := inject_Z seconds |}.
Definition silence_at (seconds : Z) : read_event :=
  {| line := ""; poll := None; clock := inject_Z seconds |}.
Definition exit_at (seconds : Z) (returncode : Z) : read_event :=
  {| line := ""; poll := Some returncode; clock := inject_Z seconds |}.

Definition run_of (events : list read_event) : ProcessRun :=
  {| spawn_error := None; stderr_pipe := true; start_time := inject_Z 0;
     reads := events; exits_in_grace := false |}.

(** The engine prints its measurements within a second, is silent, and
    exits with code 0 after 1000 seconds. *)
Definition quiet_run : ProcessRun :=
  run_of (map (line_at 1) second_block ++ [silence_at 400; exit_at 1000 0]).

(** The engine prints a progress line after 301 seconds. *)
Definition slow_run : ProcessRun :=
  run_of [line_at 10 (ln "size=N/A time=00:00:05.00 bitrate=N/A speed=0.5x");
          silence_at 200;
          line_at 301 (ln "size=N/A time=00:02:30.00 bitrate=N/A speed=0.5x");
          exit_at 302 0].

(** The engine fails at once with exit code 1. *)
Definition failing_run : ProcessRun :=
  run_of [line_at 0 (ln "in/song.flac: No such file or directory"); exit_at 0 1].

(** The engine analyses the file in two seconds. *)
Definition good_run : ProcessRun :=
  run_of (map (line_at 2) second_block ++ [exit_at 2 0]).

Definition meas_of_second_block : LoudnormMeasurements :=
  {| measured_I := lit "-20.2"; measured_TP := lit "-3.1"; measured_LRA := lit "7.4";
     measured_thresh := lit "-30.2"; offset := lit "3.8"; raw := second_obj |}.

Definition base_cmd : list string :=
  ["ffmpeg"; "-y"; "-hide_banner"; "-i"; "in/song.flac"; "-map"; "0:a:0?";
   "-vn"; "-sn"; "-dn"; "-c:a"; "libopus"; "-b:a"; "160k"; "out/song.opus"].

Definition input : Path := posix_path "in/song.flac".

(** A Vorbis encode whose configured quality is NaN. *)
Definition vorbis_nan_args : AudioArgs :=
  {| a_input_path := posix_path "in/song.flac";
     a_output_path := posix_path "out/song.ogg";
     a_cfg := cfg_with general_cfg
       {| mp3_quality := 2; vorbis_quality := S754_nan; aac_vbr_mode := 4;
          opus_bitrate_kbps := 160;
          audio_normalization_enabled := false;
          audio_normalization_method := "loudnorm";
          audio_normalization_use_usdb_defaults := true;
          get_usdb_target_loudness := f_minus_16;
          audio_normalization_target := f_minus_16;
          audio_normalization_true_peak := lit "-1.5";
          audio_normalization_lra := lit "11.0" |};
     a_stream_copy := false |}.

(** A block in braces whose one value is an integer of 4301 digits, and a
    diagnostic text that holds it in front of the measurements of
    [second_block]. *)
Definition long_integer : string := "1" ++ Reference.zeros 4300.

Definition counter_block : string :=
  "{ " ++ q ++ "frame" ++ q ++ " : " ++ long_integer ++ " }".

Definition measured_block : string :=
  rstrip (ascii_of_nat 10) (String.concat "" (tl second_block)).

Definition counter_then_block_text : string :=
  ln counter_block ++ ln "[Parsed_loudnorm_0 @ 0x5581] " ++ ln measured_block.

End Samples.

(* ===================================================================== *)
(** * Further vocabulary and sample inputs                                *)
(* ===================================================================== *)

(** The arguments of a video builder with other hardware flags, another
    configuration, another stream descriptor. *)
Definition with_flags (a : VideoArgs) (hw_encode hw_decode : bool) : VideoArgs :=
  {| v_input_path := v_input_path a; v_output_path := v_output_path a;
     v_video_info := v_video_info a; v_cfg := v_cfg a; v_accel := v_accel a;
     v_hw_encode_enabled := hw_encode; v_hw_decode_enabled := hw_decode |}.

Definition with_cfg (a : VideoArgs) (cfg : TranscoderConfig) : VideoArgs :=
  {| v_input_path := v_input_path a; v_output_path := v_output_path a;
     v_video_info := v_video_info a; v_cfg := cfg; v_accel := v_accel a;
     v_hw_encode_enabled := v_hw_encode_enabled a;
     v_hw_decode_enabled := v_hw_decode_enabled a |}.

Definition with_info (a : VideoArgs) (info : VideoInfo) : VideoArgs :=
  {| v_input_path := v_input_path a; v_output_path := v_output_path a;
     v_video_info := info; v_cfg := v_cfg a; v_accel := v_accel a;
     v_hw_encode_enabled := v_hw_encode_enabled a;
     v_hw_decode_enabled := v_hw_decode_enabled a |}.

(** A configuration with other caps on bitrate and frame rate. *)
Definition with_caps (cfg : TranscoderConfig) (bitrate fps : option Z) : TranscoderConfig :=
  {| h264 := h264 cfg; vp8 := vp8 cfg; hevc := hevc cfg; vp9 := vp9 cfg; av1 := av1 cfg;
     general := {| max_bitrate_kbps := bitrate;
                   max_resolution := max_resolution (general cfg);
                   max_fps := fps;
                   timeout_seconds := timeout_seconds (general cfg) |};
     usdb_integration := usdb_integration cfg;
     audio := audio cfg |}.

(** The encoder each variant selects. *)
Definition encoder_name (env : Env) (c : VideoCodec) (a : VideoArgs) : string :=
  let hw := use_hw_encoder (v_accel a) (v_hw_encode_enabled a) in
  match c with
  | H264 => if hw then "h264_qsv" else "libx264"
  | VP8 => "libvpx"
  | HEVC => if hw then "hevc_qsv" else "libx265"
  | VP9 => if hw then "vp9_qsv" else "libvpx-vp9"
  | AV1 =>
      if hw then "av1_qsv"
      else if check_encoder_available env "libsvtav1" then "libsvtav1"
      else if check_encoder_available env "libaom-av1" then "libaom-av1"
      else "av1"
  end.

(** A character occurs in a string. *)
Fixpoint has_char (c : ascii) (s : string) : bool :=
  match s with
  | EmptyString => false
  | String a r => Ascii.eqb a c || has_char c r
  end.

(** The codec names each video handler accepts as already its own. *)
Definition own_codec_names (c : VideoCodec) : list string :=
  match c with
  | H264 => ["h264"; "avc"]
  | VP8 => ["vp8"]
  | HEVC => ["hevc"; "h265"]
  | VP9 => ["vp9"]
  | AV1 => ["av1"]
  end.

(** The digits of a three-digit fraction that remain when its trailing
    zeros are dropped. *)
Definition kept_digits (k : Z) : string := rstrip "0"%char (pad3 k).

(** A candidate of the search for blocks: an opening brace, a text without
    closing brace, a closing brace. *)
Definition is_block (blob : string) : Prop :=
  exists inner,
    blob = String "{"%char (inner ++ "}") /\ has_char "}"%char inner = false.

(** Streams of the probe output: an object, an audio stream, a video
    stream; the first audio stream of a list. *)
Definition is_dict (value : pyobj) : bool :=
  match value with PyDict _ => true | _ => false end.

Definition is_audio_stream (stream : pyobj) : bool :=
  match stream with
  | PyDict d => AudioAnalyzer.is_str (obj_get d "codec_type") "audio"
  | _ => false
  end.

Definition is_video_stream (stream : pyobj) : bool :=
  match stream with
  | PyDict d => AudioAnalyzer.is_str (obj_get d "codec_type") "video"
  | _ => false
  end.

Definition first_audio (streams : list pyobj) : option pydict :=
  match find is_audio_stream streams with
  | Some (PyDict d) => Some d
  | _ => None
  end.

(** The kilobits of a [bit_rate] value, when it reads as an integer. *)
Definition kbps_of {I : AudioAnalyzer.IntBuiltins} (value : pyobj) : option Z :=
  match AudioAnalyzer.py_int value with
  | AudioAnalyzer.Done n => Some (n / 1000)
  | AudioAnalyzer.Failed _ => None
  end.

Definition int_of {I : AudioAnalyzer.IntBuiltins} (value : pyobj) : option Z :=
  match AudioAnalyzer.py_int value with
  | AudioAnalyzer.Done n => Some n
  | AudioAnalyzer.Failed _ => None
  end.

(** The seconds of a [duration] value, [0.0] when it does not read as a
    float. *)
Definition duration_of {B : Builtins} (value : pyobj) : float :=
  match py_float value with
  | Ok x => x
  | Raise _ => S754_zero false
  end.

Module MoreSamples.

Definition qsv : HardwareAccelerator :=
  {| get_decoder := get_qsv_decoder |}.

Definition hw_args : VideoArgs :=
  {| v_input_path := posix_path "in/song.avi";
     v_output_path := posix_path "out/song.mp4";
     v_video_info := Samples.info;
     v_cfg := Samples.cfg;
     v_accel := Some qsv;
     v_hw_encode_enabled := true;
     v_hw_decode_enabled := true |}.

(** Stream copy into an Opus file, with a given bitrate configured. *)
Definition copy_args (kbps : Z) : AudioArgs :=
  {| a_input_path := a_input_path (Samples.opus_args kbps);
     a_output_path := a_output_path (Samples.opus_args kbps);
     a_cfg := a_cfg (Samples.opus_args kbps);
     a_stream_copy := true |}.

(** The output of the probe for a video file with one audio stream. *)
Definition video_stream : pydict :=
  [("index", PyInt 0); ("codec_name", PyStr "h264"); ("codec_type", PyStr "video")].

Definition audio_stream : pydict :=
  [("index", PyInt 1); ("codec_name", PyStr "aac"); ("codec_type", PyStr "audio");
   ("sample_rate", PyStr "44100"); ("channels", PyInt 2); ("bit_rate", PyStr "N/A")].

Definition probe_data : pydict :=
  [("streams", PyList [PyDict video_stream; PyDict audio_stream]);
   ("format", PyDict [("duration", PyStr "183.4"); ("bit_rate", PyStr "1411200")])].

Definition probe_info : AudioAnalyzer.AudioInfo :=
  {| AudioAnalyzer.codec_name := PyStr "aac";
     AudioAnalyzer.codec_long_name := PyStr "Unknown";
     AudioAnalyzer.container := "mp4";
     AudioAnalyzer.duration_seconds := Samples.lit "183.4";
     AudioAnalyzer.bitrate_kbps := None;
     AudioAnalyzer.channels := Some 2;
     AudioAnalyzer.sample_rate_hz := Some 44100;
     AudioAnalyzer.has_audio := true;
     AudioAnalyzer.has_video := true |}.

Definition probe_path : Path := posix_path "in/clip.MP4".

(** [json.loads] for the documents of the probe: arrays and objects
    within an object. *)
Definition reading_map {A C} (f : A -> C) (r : Reference.reading A) : Reference.reading C :=
  match r with
  | Reference.Read a => Reference.Read (f a)
  | Reference.Malformed => Reference.Malformed
  | Reference.Refused e => Reference.Refused e
  end.

Fixpoint read_json (fuel : nat) (s : string) : Reference.reading (pyobj * string) :=
  match fuel with
  | O => Reference.Malformed
  | S k =>
      match Reference.skip_space s with
      | String "["%char r =>
          match Reference.skip_space r with
          | String "]"%char r1 => Reference.Read (PyList [], r1)
          | _ => reading_map (fun found => (PyList (fst found), snd found)) (read_items k r [])
          end
      | String "{"%char r =>
          match Reference.skip_space r with
          | String "}"%char r1 => Reference.Read (PyDict [], r1)
          | _ => reading_map (fun found => (PyDict (fst found), snd found)) (read_pairs k r [])
          end
      | text => Reference.read_value text
      end
  end
with read_items (fuel : nat) (s : string) (acc : list pyobj)
    : Reference.reading (list pyobj * string) :=
  match fuel with
  | O => Reference.Malformed
  | S k =>
      match read_json k s with
      | Reference.Read (value, r) =>
          match Reference.skip_space r with
          | String ","%char r1 => read_items k r1 (acc ++ [value])
          | String "]"%char r1 => Reference.Read (acc ++ [value], r1)
          | _ => Reference.Malformed
          end
      | Reference.Malformed => Reference.Malformed
      | Reference.Refused e => Reference.Refused e
      end
  end
with read_pairs (fuel : nat) (s : string) (acc : pydict)
    : Reference.reading (pydict * string) :=
  match fuel with
  | O => Reference.Malformed
  | S k =>
      match Reference.skip_space s with
      | String c r =>
          if negb (Ascii.eqb c Reference.quote) then Reference.Malformed
          else
            match Reference.read_string r "" with
            | Some (key, r1) =>
                match Reference.skip_space r1 with
                | String ":"%char r2 =>
                    match read_json k r2 with
                    | Reference.Read (value, r3) =>
                        let acc := Reference.dict_set acc key value in
                        match Reference.skip_space r3 with
                        | String ","%char r4 => read_pairs k r4 acc
                        | String "}"%char r4 => Reference.Read (acc, r4)
                        | _ => Reference.Malformed
                        end
                    | Reference.Malformed => Reference.Malformed
                    | Reference.Refused e => Reference.Refused e
                    end
                | _ => Reference.Malformed
                end
            | None => Reference.Malformed
            end
      | EmptyString => Reference.Malformed
      end
  end.

Definition json_loads_nested (s : string) : loaded :=
  match read_json (S (String.length s)) s with
  | Reference.Read (value, rest) =>
      if String.eqb (Reference.skip_space rest) "" then Loaded value else JSONDecodeError
  | Reference.Malformed => JSONDecodeError
  | Reference.Refused e => LoadsRaised e
  end.

Definition probe_builtins : Builtins :=
  {| float_str := Reference.float_str_ref;
     float_of_str := Reference.float_of_str_ref;
     json_loads := json_loads_nested |}.

Definition quoted (s : string) : string := (Samples.q ++ s ++ Samples.q)%string.

Definition member (key value : string) : string := (quoted key ++ ": " ++ value)%string.

(** What the probe prints for [probe_data]. *)
Definition probe_text : string :=
  String.concat ""
    [Samples.ln "{";
     Samples.ln (quoted "streams" ++ ": [")%string;
     Samples.ln ("{ " ++ member "index" "0" ++ ", "
                 ++ member "codec_name" (quoted "h264") ++ ", "
                 ++ member "codec_type" (quoted "video") ++ " },")%string;
     Samples.ln ("{ " ++ member "index" "1" ++ ", "
                 ++ member "codec_name" (quoted "aac") ++ ", "
                 ++ member "codec_type" (quoted "audio") ++ ", "
                 ++ member "sample_rate" (quoted "44100") ++ ", "
                 ++ member "channels" "2" ++ ", "
                 ++ member "bit_rate" (quoted "N/A") ++ " }")%string;
     Samples.ln "],";
     Samples.ln (quoted "format" ++ ": { "
                 ++ member "duration" (quoted "183.4") ++ ", "
                 ++ member "bit_rate" (quoted "1411200") ++ " }")%string;
     Samples.ln "}"].

End MoreSamples.

(* ===================================================================== *)
(** * Properties of the command builders                                  *)
(* ===================================================================== *)

Ltac unfold_audio_builders :=
  cbv [audio_build_encode_command MP3_build_encode_command
       Vorbis_build_encode_command AAC_build_encode_command
       Opus_build_encode_command accepted_extensions] in *;
  cbn [audio_capabilities container_extensions] in *.

Section BuilderFacts.

Context {B : Builtins}.

(** Every video builder ends by appending the output path. *)
Lemma video_command_shape (env : Env) (c : VideoCodec) (a : VideoArgs) :
  exists front,
    video_build_encode_command env c a = front ++ [path_str (v_output_path a)].
Proof.
  destruct c; cbv [video_build_encode_command H264_build_encode_command
    VP8_build_encode_command HEVC_build_encode_command VP9_build_encode_command
    AV1_build_encode_command]; eexists; reflexivity.
Qed.

(** Every audio builder runs its two checks and then ends by appending the
    output path. *)
Lemma audio_build_unfold (c : AudioCodec) (a : AudioArgs) :
  exists front,
    audio_build_encode_command c a
    = bind (validate_config c (a_cfg a)) (fun _ =>
      bind (_audio_force_extension (a_output_path a) (accepted_extensions c)) (fun _ =>
      Ok (front ++ [path_str (a_output_path a)]))).
Proof.
  destruct c; unfold_audio_builders; eexists; reflexivity.
Qed.

(** An audio builder that returns has passed both checks. *)
Lemma audio_command_shape (c : AudioCodec) (a : AudioArgs) (cmd : list string) :
  audio_build_encode_command c a = Ok cmd ->
  validate_config c (a_cfg a) = Ok tt
  /\ _audio_force_extension (a_output_path a) (accepted_extensions c) = Ok tt
  /\ exists front, cmd = front ++ [path_str (a_output_path a)].
Proof.
  destruct (audio_build_unfold c a) as [front ->].
  destruct (validate_config c (a_cfg a)) as [[]|e]; cbn [bind]; [|discriminate].
  destruct (_audio_force_extension _ _) as [[]|e]; cbn [bind]; [|discriminate].
  intros Hok. injection Hok as <-. repeat split. now exists front.
Qed.

(** The two checks decide whether an audio builder returns. *)
Lemma audio_checks_pass (c : AudioCodec) (a : AudioArgs) :
  validate_config c (a_cfg a) = Ok tt ->
  _audio_force_extension (a_output_path a) (accepted_extensions c) = Ok tt ->
  exists cmd, audio_build_encode_command c a = Ok cmd.
Proof.
  intros Hv Hx. destruct (audio_build_unfold c a) as [front ->].
  rewrite Hv, Hx. eexists; reflexivity.
Qed.

Lemma audio_config_rejected (c : AudioCodec) (a : AudioArgs) (e : exn) :
  validate_config c (a_cfg a) = Raise e ->
  audio_build_encode_command c a = Raise e.
Proof.
  intros Hv. destruct (audio_build_unfold c a) as [front ->].
  now rewrite Hv.
Qed.

Lemma audio_extension_rejected (c : AudioCodec) (a : AudioArgs) (e : exn) :
  validate_config c (a_cfg a) = Ok tt ->
  _audio_force_extension (a_output_path a) (accepted_extensions c) = Raise e ->
  audio_build_encode_command c a = Raise e.
Proof.
  intros Hv Hx. destruct (audio_build_unfold c a) as [front ->].
  now rewrite Hv, Hx.
Qed.

End BuilderFacts.

(** ** The registries *)

Example registries_resolve_every_variant :
  map get_codec_handler ["h264"; "vp8"; "hevc"; "vp9"; "av1"]
    = [Some H264; Some VP8; Some HEVC; Some VP9; Some AV1]
  /\ map get_audio_codec_handler ["mp3"; "vorbis"; "aac"; "opus"]
     = [Some MP3; Some Vorbis; Some AAC; Some Opus]
  /\ get_codec_handler "mp3" = None
  /\ get_audio_codec_handler "h264" = None.
Proof.
  repeat split.
Qed.

(** ** The builders on sample inputs *)

Example h264_software_command :
  video_build_encode_command Samples.env_none H264 Samples.video_args
  = ["ffmpeg"; "-y"; "-hide_banner"; "-i"; "in/song.avi"; "-c:v"; "libx264";
     "-preset"; "medium"; "-profile:v"; "high"; "-crf"; "18"; "-pix_fmt"; "yuv420p";
     "-vsync"; "cfr"; "-maxrate"; "8000k"; "-bufsize"; "16000k"; "-vf";
     "scale=1920:1080:force_original_aspect_ratio=decrease,pad=1920:1080:(ow-iw)/2:(oh-ih)/2,fps=fps=60";
     "-c:a"; "copy"; "out/song.mkv"].
Proof. vm_compute. reflexivity. Qed.

Example av1_svt_command :
  video_build_encode_command Samples.env_svt AV1 Samples.video_args
  = ["ffmpeg"; "-y"; "-hide_banner"; "-i"; "in/song.avi"; "-c:v"; "libsvtav1";
     "-crf"; "30"; "-preset"; "8"; "-g"; "240"; "-pix_fmt"; "yuv420p10le";
     "-vsync"; "cfr"; "-maxrate"; "8000k"; "-bufsize"; "16000k"; "-vf";
     "scale='min(iw,1920)':'min(ih,1080)':force_original_aspect_ratio=decrease,fps=fps=60";
     "-c:a"; "libopus"; "-b:a"; "160k"; "out/song.mkv"].
Proof. vm_compute. reflexivity. Qed.

Example av1_generic_command :
  video_build_encode_command Samples.env_none AV1 Samples.video_args
  = ["ffmpeg"; "-y"; "-hide_banner"; "-i"; "in/song.avi"; "-c:v"; "av1";
     "-vsync"; "cfr"; "-maxrate"; "8000k"; "-bufsize"; "16000k"; "-vf";
     "scale='min(iw,1920)':'min(ih,1080)':force_original_aspect_ratio=decrease,fps=fps=60";
     "-c:a"; "libopus"; "-b:a"; "160k"; "out/song.mkv"].
Proof. vm_compute. reflexivity. Qed.

(** ** The final token *)

(** C5. Every command a video builder produces, and every command an audio
    builder produces when its checks pass, has the output path as its
    last token (whatever default [last] is given, so the command is not
    empty). *)
Theorem last_token_is_output_path :
  (forall (env : Env) (c : VideoCodec) (a : VideoArgs) (d : string),
     last (video_build_encode_command env c a) d = path_str (v_output_path a))
  /\ (forall (B : Builtins) (c : AudioCodec) (a : AudioArgs) (cmd : list string) (d : string),
        audio_build_encode_command c a = Ok cmd ->
        last cmd d = path_str (a_output_path a)).
Proof.
  split.
  - intros env c a d.
    destruct (video_command_shape env c a) as [front ->].
    apply last_last.
  - intros B c a cmd d Hok.
    destruct (audio_command_shape c a cmd Hok) as (_ & _ & front & ->).
    apply last_last.
Qed.

Lemma last_token_is_output_path_witness :
  audio_build_encode_command (B := Reference.builtins) Opus (Samples.opus_args 160)
    = Ok ["ffmpeg"; "-y"; "-hide_banner"; "-i"; "in/song.flac"; "-map"; "0:a:0?";
          "-vn"; "-sn"; "-dn"; "-c:a"; "libopus"; "-b:a"; "160k"; "out/song.opus"]
  /\ last ["ffmpeg"; "-y"; "-hide_banner"; "-i"; "in/song.flac"; "-map"; "0:a:0?";
           "-vn"; "-sn"; "-dn"; "-c:a"; "libopus"; "-b:a"; "160k"; "out/song.opus"] ""
     = "out/song.opus".
Proof.
  split; [reflexivity|].
  apply (proj2 last_token_is_output_path Reference.builtins Opus (Samples.opus_args 160)).
  reflexivity.
Defined.

(** ** Determinism *)

Lemma hw_branch_ignores_env (env1 env2 : Env) (a : VideoArgs) :
  use_hw_encoder (v_accel a) (v_hw_encode_enabled a) = true ->
  video_build_encode_command env1 AV1 a = video_build_encode_command env2 AV1 a.
Proof.
  intros Hhw.
  cbv [video_build_encode_command AV1_build_encode_command].
  rewrite Hhw. reflexivity.
Qed.

(** C1, as the code has it. Two invocations of a builder with identical
    arguments return identical token sequences provided the encoder probe
    [check_encoder_available] answers alike in both; the probe is read by
    the AV1 variant only, and only when the hardware encoder is not
    selected, so every other invocation is a function of its arguments
    alone. The audio variants read no more of their arguments than the
    text of the input path, the output path, the audio section of the
    configuration and the stream-copy flag. *)
Theorem build_encode_command_deterministic :
  (forall (env1 env2 : Env) (c : VideoCodec) (a : VideoArgs),
     (c = AV1 -> use_hw_encoder (v_accel a) (v_hw_encode_enabled a) = false ->
      probes_agree env1 env2) ->
     video_build_encode_command env1 c a = video_build_encode_command env2 c a)
  /\ (forall (B : Builtins) (c : AudioCodec) (a a' : AudioArgs),
        path_str (a_input_path a) = path_str (a_input_path a') ->
        a_output_path a = a_output_path a' ->
        audio (a_cfg a) = audio (a_cfg a') ->
        a_stream_copy a = a_stream_copy a' ->
        audio_build_encode_command c a = audio_build_encode_command c a').
Proof.
  split.
  - intros env1 env2 c a Hprobe.
    destruct c; try reflexivity.
    destruct (use_hw_encoder (v_accel a) (v_hw_encode_enabled a)) eqn:Hhw.
    + now apply hw_branch_ignores_env.
    + destruct (Hprobe eq_refl eq_refl) as [Hsvt Haom].
      cbv [video_build_encode_command AV1_build_encode_command].
      rewrite Hsvt, Haom. reflexivity.
  - intros B c a a' Hin Hout Hcfg Hcopy.
    destruct c; unfold_audio_builders;
      cbv [validate_config _audio_common_prefix];
      rewrite Hin, Hout, Hcfg, Hcopy; reflexivity.
Qed.

Lemma build_encode_command_deterministic_witness :
  video_build_encode_command Samples.env_svt AV1 Samples.video_args
    = video_build_encode_command Samples.env_svt_x264 AV1 Samples.video_args
  /\ audio_build_encode_command (B := Reference.builtins) Opus (Samples.opus_args 160)
     = audio_build_encode_command (B := Reference.builtins) Opus (Samples.opus_args' 160).
Proof.
  split.
  - apply (proj1 build_encode_command_deterministic).
    intros _ _. split; reflexivity.
  - apply (proj2 build_encode_command_deterministic); reflexivity.
Defined.

(** C1 as stated does not hold of the AV1 variant: the same arguments give
    the SVT-AV1 command where that encoder is installed and the generic
    [av1] command where no AV1 encoder is. *)
Lemma av1_command_depends_on_encoders :
  video_build_encode_command Samples.env_svt AV1 Samples.video_args
    <> video_build_encode_command Samples.env_none AV1 Samples.video_args.
Proof.
  vm_compute. intros H. discriminate H.
Qed.

(** ** Validation of the audio variants *)

Lemma ensure_int_rejects (name : string) (value low high : Z) :
  value < low \/ high < value ->
  _ensure_int_in_range name value low high
    = Raise (ValueError (range_message name (str_int low) (str_int high) (str_int value))).
Proof.
  intros Hout. unfold _ensure_int_in_range.
  destruct (value <? low) eqn:Hlo; [reflexivity|].
  destruct (value >? high) eqn:Hhi; [reflexivity|].
  apply Z.ltb_ge in Hlo. rewrite Z.gtb_ltb in Hhi. apply Z.ltb_ge in Hhi. lia.
Qed.

Lemma ensure_int_accepts (name : string) (value low high : Z) :
  low <= value <= high ->
  _ensure_int_in_range name value low high = Ok tt.
Proof.
  intros [Hlo Hhi]. unfold _ensure_int_in_range.
  apply Z.ltb_ge in Hlo. rewrite Hlo.
  rewrite Z.gtb_ltb. apply Z.ltb_ge in Hhi. rewrite Hhi. reflexivity.
Qed.

(** [validate_config] raises exactly on the out-of-range parameters. *)
Lemma validate_config_rejects {B : Builtins} (c : AudioCodec) (cfg : TranscoderConfig) :
  out_of_range c cfg -> exists msg, validate_config c cfg = Raise (ValueError msg).
Proof.
  destruct c; cbn [out_of_range validate_config]; intros Hout.
  - eexists. apply ensure_int_rejects. lia.
  - unfold _ensure_float_in_range.
    destruct Hout as [-> | Hgt]; [eexists; reflexivity|].
    rewrite Hgt, orb_true_r. eexists; reflexivity.
  - eexists. apply ensure_int_rejects. lia.
  - eexists. apply ensure_int_rejects. lia.
Qed.

Lemma validate_config_accepts {B : Builtins} (c : AudioCodec) (cfg : TranscoderConfig) :
  ~ out_of_range c cfg -> validate_config c cfg = Ok tt.
Proof.
  destruct c; cbn [out_of_range validate_config]; intros Hin.
  - apply ensure_int_accepts. lia.
  - unfold _ensure_float_in_range.
    destruct (flt (vorbis_quality (audio cfg)) f_minus_1) eqn:Hlo;
      [exfalso; apply Hin; left; reflexivity|].
    destruct (fgt (vorbis_quality (audio cfg)) f_10) eqn:Hhi;
      [exfalso; apply Hin; right; reflexivity|].
    reflexivity.
  - apply ensure_int_accepts. lia.
  - apply ensure_int_accepts. lia.
Qed.

Lemma force_extension_rejects (path : Path) (extensions : list string) :
  str_in (extension path) extensions = false ->
  _audio_force_extension path extensions
    = Raise (ValueError (extension_message (extension path))).
Proof.
  intros Hext. unfold _audio_force_extension. cbv zeta. rewrite Hext. reflexivity.
Qed.

Lemma force_extension_accepts (path : Path) (extensions : list string) :
  str_in (extension path) extensions = true ->
  _audio_force_extension path extensions = Ok tt.
Proof.
  intros Hext. unfold _audio_force_extension. cbv zeta. rewrite Hext. reflexivity.
Qed.

Lemma fcompare_antisym (a b : float) :
  fcompare b a = option_map CompOpp (fcompare a b).
Proof.
  destruct a as [sa|sa| |sa ma ea], b as [sb|sb| |sb mb eb]; cbn [fcompare option_map];
    try reflexivity;
    try (destruct sa; reflexivity); try (destruct sb; reflexivity);
    try (destruct sa, sb; reflexivity);
    rewrite (Z.min_comm (fexponent _) (fexponent _)), Z.compare_antisym; reflexivity.
Qed.

(** For every quality that is a number, being out of range as the code
    tests it is the same as not lying in the interval from -1.0 to 10.0. *)
Lemma vorbis_out_of_range_iff (quality : float) :
  quality <> S754_nan ->
  in_vorbis_range quality = false
  <-> (flt quality f_minus_1 = true \/ fgt quality f_10 = true).
Proof.
  intros Hnum. unfold in_vorbis_range, fle, flt, fgt.
  rewrite (fcompare_antisym quality f_minus_1).
  destruct (fcompare quality f_minus_1) as [[]|] eqn:Hlo;
    destruct (fcompare quality f_10) as [[]|] eqn:Hhi;
    cbn [option_map CompOpp andb]; try tauto; try (split; [discriminate|intros [H|H]; discriminate H]);
    try (split; [intros _; auto|reflexivity]).
  all: destruct quality; try contradiction; cbn in Hlo, Hhi; try discriminate;
    try (destruct s; discriminate).
Qed.

(** The test of the code, below the low bound or above the high bound, is
    the interval reading of the range for every parameter but a Vorbis
    quality that is NaN, which the test lets pass although it lies in no
    interval. *)
Lemma range_test_is_interval (c : AudioCodec) (cfg : TranscoderConfig) :
  ~ out_of_range c cfg
  <-> (within_range c cfg = true
       \/ (c = Vorbis /\ vorbis_quality (audio cfg) = S754_nan)).
Proof.
  destruct c; cbn [out_of_range within_range];
    rewrite ?andb_true_iff, ?Z.leb_le.
  - split; [intros H; left; lia | intros [H|[H _]]; [lia | discriminate H]].
  - destruct (vorbis_quality (audio cfg)) as [s|s| |s m e] eqn:Hq;
      try (pose proof (vorbis_out_of_range_iff (vorbis_quality (audio cfg))) as Hiff;
           rewrite Hq in Hiff; specialize (Hiff ltac:(discriminate));
           split;
           [ intros Hin; left;
             match goal with
             | |- ?b = true => destruct b eqn:Hb; [reflexivity|]
             end;
             exfalso; apply Hin, Hiff; reflexivity
           | intros [Hin|[_ Hnan]]; [|discriminate Hnan];
             intros Hout; apply Hiff in Hout; rewrite Hout in Hin; discriminate Hin ]).
    split; [intros _; right; split; reflexivity|].
    intros _ [H|H]; discriminate H.
  - split; [intros H; left; lia | intros [H|[H _]]; [lia | discriminate H]].
  - split; [intros H; left; lia | intros [H|[H _]]; [lia | discriminate H]].
Qed.

(** An audio builder raises a [ValueError], and returns no command,
    whenever its numeric parameter is below the low bound or above the high
    bound of its range or the output extension is not one it accepts, with
    or without stream copy; it returns a command in every other case; and
    an Opus bitrate of 600 raises the range error. *)
Theorem audio_builders_fail_fast (B : Builtins) (c : AudioCodec) (a : AudioArgs) :
  (out_of_range c (a_cfg a) \/ extension_accepted c (a_output_path a) = false ->
   exists msg, audio_build_encode_command c a = Raise (ValueError msg))
  /\ (~ out_of_range c (a_cfg a) -> extension_accepted c (a_output_path a) = true ->
      exists cmd, audio_build_encode_command c a = Ok cmd)
  /\ (c = Opus -> opus_bitrate_kbps (audio (a_cfg a)) = 600 ->
      audio_build_encode_command c a
        = Raise (ValueError "opus_bitrate_kbps must be between 6 and 510 (got 600)")).
Proof.
  split; [|split].
  - intros Hbad.
    destruct (validate_config c (a_cfg a)) as [[]|e] eqn:Hv.
    + destruct Hbad as [Hrange | Hext].
      * destruct (validate_config_rejects c (a_cfg a) Hrange) as [msg Hmsg].
        rewrite Hmsg in Hv. discriminate.
      * apply force_extension_rejects in Hext.
        exists (extension_message (extension (a_output_path a))).
        now apply audio_extension_rejected.
    + assert (exists msg, e = ValueError msg) as [msg ->].
      { destruct c; cbn [validate_config] in Hv;
          unfold _ensure_int_in_range, _ensure_float_in_range in Hv;
          match type of Hv with (if ?b then _ else _) = _ => destruct b end;
          try discriminate; injection Hv as <-; eexists; reflexivity. }
      exists msg. now apply audio_config_rejected.
  - intros Hrange Hext.
    apply audio_checks_pass.
    + now apply validate_config_accepts.
    + now apply force_extension_accepts.
  - intros -> H600.
    apply audio_config_rejected. cbn [validate_config]. rewrite H600. reflexivity.
Qed.

Lemma audio_builders_fail_fast_witness :
  audio_build_encode_command (B := Reference.builtins) Opus (Samples.opus_args 600)
    = Raise (ValueError "opus_bitrate_kbps must be between 6 and 510 (got 600)")
  /\ (exists msg,
        audio_build_encode_command (B := Reference.builtins) Vorbis (Samples.opus_args 160)
          = Raise (ValueError msg))
  /\ (exists cmd,
        audio_build_encode_command (B := Reference.builtins) Opus (Samples.opus_args 510)
          = Ok cmd).
Proof.
  split; [|split].
  - apply (audio_builders_fail_fast Reference.builtins Opus (Samples.opus_args 600));
      reflexivity.
  - apply (audio_builders_fail_fast Reference.builtins Vorbis (Samples.opus_args 160)).
    right. reflexivity.
  - apply (audio_builders_fail_fast Reference.builtins Opus (Samples.opus_args 510)).
    + cbn. lia.
    + reflexivity.
Defined.

(** For every parameter that is a number the builders fail fast as the
    ranges read: a [ValueError] exactly when the parameter is not in its
    interval or the extension is not accepted. *)
Lemma audio_builders_fail_fast_on_numbers (B : Builtins) (c : AudioCodec) (a : AudioArgs) :
  (c = Vorbis -> vorbis_quality (audio (a_cfg a)) <> S754_nan) ->
  (exists msg, audio_build_encode_command c a = Raise (ValueError msg))
  <-> (within_range c (a_cfg a) = false \/ extension_accepted c (a_output_path a) = false).
Proof.
  intros Hnumber.
  destruct (audio_builders_fail_fast B c a) as (Hraise & Hreturn & _).
  assert (Hrange : ~ out_of_range c (a_cfg a) <-> within_range c (a_cfg a) = true).
  { rewrite range_test_is_interval. split; [|now left].
    intros [Hin|[Hc Hnan]]; [exact Hin|]. now destruct (Hnumber Hc). }
  split.
  - intros [msg Hmsg].
    destruct (within_range c (a_cfg a)) eqn:Hin; [|now left].
    destruct (extension_accepted c (a_output_path a)) eqn:Hext; [|now right].
    destruct (Hreturn (proj2 Hrange eq_refl) eq_refl) as [cmd Hcmd].
    rewrite Hcmd in Hmsg. discriminate Hmsg.
  - intros [Hout|Hext]; apply Hraise; [left|now right].
    destruct c; cbn [out_of_range within_range] in *;
      try (apply andb_false_iff in Hout; rewrite !Z.leb_gt in Hout; lia).
    apply (vorbis_out_of_range_iff _ (Hnumber eq_refl)). exact Hout.
Qed.

(** C8. A Vorbis quality that is NaN lies outside the range from -1.0 to
    10.0, and the Vorbis builder raises no configuration error for it: the
    range test asks whether the value is below -1.0 or above 10.0, both of
    which are false of NaN, and the command is built, with the rendering of
    NaN behind [-q:a]. *)
Theorem vorbis_nan_quality_is_not_rejected (B : Builtins) :
  within_range Vorbis (a_cfg Samples.vorbis_nan_args) = false
  /\ extension_accepted Vorbis (a_output_path Samples.vorbis_nan_args) = true
  /\ validate_config Vorbis (a_cfg Samples.vorbis_nan_args) = Ok tt
  /\ audio_build_encode_command Vorbis Samples.vorbis_nan_args
     = Ok ["ffmpeg"; "-y"; "-hide_banner"; "-i"; "in/song.flac"; "-map"; "0:a:0?";
           "-vn"; "-sn"; "-dn"; "-c:a"; "libvorbis"; "-q:a"; float_str S754_nan;
           "out/song.ogg"].
Proof.
  repeat split; reflexivity.
Qed.

Example vorbis_nan_quality_command :
  audio_build_encode_command (B := Reference.builtins) Vorbis Samples.vorbis_nan_args
  = Ok ["ffmpeg"; "-y"; "-hide_banner"; "-i"; "in/song.flac"; "-map"; "0:a:0?";
        "-vn"; "-sn"; "-dn"; "-c:a"; "libvorbis"; "-q:a"; "nan"; "out/song.ogg"].
Proof. vm_compute. reflexivity. Qed.

(* ===================================================================== *)
(** * Properties of the normaliser                                        *)
(* ===================================================================== *)

(** ** Injection *)

(** A list of at least one token is its front followed by its last token. *)
Lemma split_last_token (cmd : list string) :
  (1 <= List.length cmd)%nat ->
  firstn (List.length cmd - 1) cmd = removelast cmd
  /\ skipn (List.length cmd - 1) cmd = [last cmd ""].
Proof.
  intros Hlen.
  destruct (exists_last (l := cmd)) as (front & out & ->).
  { intros ->. cbn in Hlen. lia. }
  rewrite removelast_last, last_last, length_app. cbn [List.length].
  replace (List.length front + 1 - 1)%nat with (List.length front + 0)%nat by lia.
  split.
  - rewrite firstn_app_2. cbn. apply app_nil_r.
  - rewrite skipn_app, skipn_all2 by lia.
    replace (List.length front + 0 - List.length front)%nat with 0%nat by lia.
    reflexivity.
Qed.

(** C6. On a command of at least two tokens, injection inserts the flag
    [-af] and the filter string directly before the last token and changes
    nothing else: the front keeps its tokens in order, the last token stays
    last, the length grows by two (five tokens become seven). A command of
    fewer than two tokens is returned unchanged. *)
Theorem inject_audio_filter_inserts_before_last (cmd : list string) (filter_str : string) :
  ((2 <= List.length cmd)%nat ->
   inject_audio_filter cmd filter_str
     = removelast cmd ++ ["-af"; filter_str] ++ [last cmd ""]
   /\ cmd = removelast cmd ++ [last cmd ""]
   /\ List.length (inject_audio_filter cmd filter_str) = (List.length cmd + 2)%nat
   /\ (List.length cmd = 5%nat ->
       List.length (inject_audio_filter cmd filter_str) = 7%nat))
  /\ ((List.length cmd < 2)%nat -> inject_audio_filter cmd filter_str = cmd).
Proof.
  split.
  - intros Hlen.
    assert (Hinj : inject_audio_filter cmd filter_str
                   = removelast cmd ++ ["-af"; filter_str] ++ [last cmd ""]).
    { unfold inject_audio_filter.
      destruct (Nat.ltb_spec (List.length cmd) 2) as [Hlt|_]; [lia|].
      cbv zeta.
      destruct (split_last_token cmd) as [-> ->]; [lia|reflexivity]. }
    assert (Hcmd : cmd = removelast cmd ++ [last cmd ""]).
    { apply app_removelast_last. intros ->. cbn in Hlen. lia. }
    assert (Hcount : List.length (inject_audio_filter cmd filter_str)
                     = (List.length cmd + 2)%nat).
    { rewrite Hinj. rewrite Hcmd at 3.
      rewrite !length_app. cbn [List.length]. lia. }
    repeat split; try assumption.
    intros H5. rewrite Hcount, H5. reflexivity.
  - intros Hlen. unfold inject_audio_filter.
    destruct (Nat.ltb_spec (List.length cmd) 2) as [_|Hge]; [reflexivity|lia].
Qed.

Lemma inject_audio_filter_inserts_before_last_witness :
  inject_audio_filter ["ffmpeg"; "-i"; "in.wav"; "-vn"; "out.mp3"] "loudnorm=I=-16"
    = ["ffmpeg"; "-i"; "in.wav"; "-vn"; "-af"; "loudnorm=I=-16"; "out.mp3"]
  /\ inject_audio_filter ["ffmpeg"] "loudnorm=I=-16" = ["ffmpeg"].
Proof.
  split.
  - apply (proj1 (inject_audio_filter_inserts_before_last
                    ["ffmpeg"; "-i"; "in.wav"; "-vn"; "out.mp3"] "loudnorm=I=-16")).
    cbn. lia.
  - apply (proj2 (inject_audio_filter_inserts_before_last ["ffmpeg"] "loudnorm=I=-16")).
    cbn. lia.
Defined.

(** ** The pass-2 filter *)

Lemma append_assoc (a b c : string) : ((a ++ b) ++ c = a ++ (b ++ c))%string.
Proof.
  induction a as [|x a IH]; cbn; [reflexivity|now rewrite IH].
Qed.

(** The integer printed by [.3f] is a nearest one: twice its distance to
    the exact quotient is at most one. *)
Lemma round_half_even_nearest (num den : Z) :
  0 < den -> 2 * Z.abs (num - den * round_half_even num den) <= den.
Proof.
  intros Hden. unfold round_half_even.
  pose proof (Z.div_mod num den ltac:(lia)) as Hdm.
  pose proof (Z.mod_pos_bound num den Hden) as Hr.
  destruct (2 * (num mod den) ?= den) eqn:Hc.
  - apply Z.compare_eq in Hc. destruct (Z.even (num / den)); lia.
  - rewrite Z.compare_lt_iff in Hc. lia.
  - rewrite Z.compare_gt_iff in Hc. lia.
Qed.

(** [thousandths] is the value times 1000, exactly when the value is an
    integer and rounded to a nearest integer otherwise. *)
Lemma thousandths_nearest (m : positive) (e : Z) :
  (0 <= e -> thousandths m e = Zpos m * 2 ^ e * 1000)
  /\ (e < 0 ->
      2 * Z.abs (Zpos m * 1000 - 2 ^ (- e) * thousandths m e) <= 2 ^ (- e)).
Proof.
  unfold thousandths. split; intros He.
  - apply Z.leb_le in He. now rewrite He.
  - destruct (Z.leb_spec 0 e) as [Hge|_]; [lia|].
    apply round_half_even_nearest. apply Z.pow_pos_nonneg; lia.
Qed.

(** The fractional part is always written with three digits. *)
Lemma pad3_length (n : Z) :
  0 <= n < 1000 -> String.length (pad3 n) = 3%nat.
Proof.
  intros Hn.
  assert (Hall : forallb (fun k => Nat.eqb (String.length (pad3 (Z.of_nat k))) 3)
                   (seq 0 1000) = true) by (vm_compute; reflexivity).
  rewrite forallb_forall in Hall.
  specialize (Hall (Z.to_nat n)).
  rewrite Z2Nat.id in Hall by lia.
  apply Nat.eqb_eq, Hall, in_seq. lia.
Qed.

Lemma format_3f_three_decimals (v : float) :
  isfinite v = true ->
  exists whole frac,
    format_3f v = (whole ++ "." ++ frac)%string /\ String.length frac = 3%nat.
Proof.
  destruct v as [s|s| |s m e]; cbn [isfinite]; try discriminate; intros _.
  - exists ((if s then "-" else "") ++ str_int (0 / 1000))%string, (pad3 (0 mod 1000)).
    split; [|now apply pad3_length].
    cbn [format_3f]. unfold fixed3. now rewrite !append_assoc.
  - exists ((if s then "-" else "") ++ str_int (thousandths m e / 1000))%string,
      (pad3 (thousandths m e mod 1000)).
    split; [|apply pad3_length, Z.mod_pos_bound; lia].
    cbn [format_3f]. unfold fixed3. now rewrite !append_assoc.
Qed.

Lemma format_num_finite (v : float) :
  isfinite v = true -> _format_num v = render3 v.
Proof.
  intros Hfin. unfold _format_num. rewrite Hfin. reflexivity.
Qed.





(** ** Extraction of the measurements *)

Section Extraction.

Context {B : Builtins}.

(** A round on a candidate that [json.loads] reads or rejects as not
    JSON keeps the candidate if it qualifies. *)
Lemma scan_blob_qualifying (last_good : option pydict) (blob : string) :
  refusal blob = None ->
  scan_blob last_good blob
    = Ok (match qualifying_block blob with Some obj => Some obj | None => last_good end).
Proof.
  unfold refusal, scan_blob, qualifying_block.
  destruct (json_loads blob) as [[| | | | | |obj]| |e]; try reflexivity.
  - destruct (has_loudnorm_keys obj); reflexivity.
  - discriminate.
Qed.

(** A round on a candidate on which [json.loads] raises another exception
    raises it. *)
Lemma scan_blob_refused (last_good : option pydict) (blob : string) (e : exn) :
  json_loads blob = LoadsRaised e -> scan_blob last_good blob = Raise e.
Proof.
  unfold scan_blob. intros ->. reflexivity.
Qed.

(** The loop keeps the last qualifying candidate it has seen. *)
Lemma scan_keeps_last (blobs : list string) (last_good : option pydict) :
  none_refused blobs ->
  scan_candidates blobs last_good
    = Ok (fold_left (fun _ obj => Some obj)
            (flat_map (fun blob => match qualifying_block blob with
                                   | Some obj => [obj] | None => [] end) blobs)
            last_good).
Proof.
  revert last_good.
  induction blobs as [|blob blobs IH]; intros last_good Hread; [reflexivity|].
  apply Forall_cons_iff in Hread as [Hblob Hrest].
  cbn [scan_candidates flat_map]. rewrite (scan_blob_qualifying _ _ Hblob).
  cbn [bind]. rewrite (IH _ Hrest), fold_left_app.
  destruct (qualifying_block blob); reflexivity.
Qed.

(** The loop ends at the first candidate on which [json.loads] raises an
    exception other than [JSONDecodeError], whatever it has kept and
    whatever follows. *)
Lemma scan_stops_at_refusal (before after : list string) (blob : string)
    (last_good : option pydict) (e : exn) :
  none_refused before ->
  json_loads blob = LoadsRaised e ->
  scan_candidates (before ++ blob :: after) last_good = Raise e.
Proof.
  revert last_good.
  induction before as [|first before IH]; intros last_good Hread Hblob.
  - cbn [app scan_candidates]. rewrite (scan_blob_refused _ _ _ Hblob). reflexivity.
  - apply Forall_cons_iff in Hread as [Hfirst Hrest].
    cbn [app scan_candidates]. rewrite (scan_blob_qualifying _ _ Hfirst).
    cbn [bind]. exact (IH _ Hrest Hblob).
Qed.

Lemma none_refused_check (blobs : list string) :
  forallb (fun blob => match refusal blob with None => true | Some _ => false end) blobs
    = true ->
  none_refused blobs.
Proof.
  intros Hall. apply Forall_forall. intros blob Hin.
  rewrite forallb_forall in Hall. specialize (Hall blob Hin).
  destruct (refusal blob); [discriminate Hall | reflexivity].
Qed.

End Extraction.

(** Where [json.loads] raises nothing but [JSONDecodeError] on the
    candidates of the diagnostic text, the measurements are read from the
    last qualifying block: whatever qualifying blocks come before it, the
    last one is returned; of two, the second; and when the text has no
    qualifying block a [ValueError] is raised. *)
Lemma parse_selects_last_qualifying_block (B : Builtins) (text : string) :
  none_refused (findall_blocks text None) ->
  (forall earlier obj,
     qualifying_blocks text = earlier ++ [obj] -> _parse_loudnorm_json text = Ok obj)
  /\ (forall first second,
        qualifying_blocks text = [first; second] -> _parse_loudnorm_json text = Ok second)
  /\ (qualifying_blocks text = [] ->
      _parse_loudnorm_json text
        = Raise (ValueError "Could not locate loudnorm JSON output in ffmpeg stderr")).
Proof.
  intros Hread.
  assert (Hlast : forall earlier obj,
            qualifying_blocks text = earlier ++ [obj] -> _parse_loudnorm_json text = Ok obj).
  { intros earlier obj Hq. unfold _parse_loudnorm_json. cbv zeta.
    rewrite (scan_keeps_last _ _ Hread). fold (qualifying_blocks text). rewrite Hq.
    rewrite fold_left_app. reflexivity. }
  split; [exact Hlast|split].
  - intros first second Hq. apply (Hlast [first]). exact Hq.
  - intros Hq. unfold _parse_loudnorm_json. cbv zeta.
    rewrite (scan_keeps_last _ _ Hread). fold (qualifying_blocks text). rewrite Hq.
    reflexivity.
Qed.

Example two_blocks_second_is_returned :
  qualifying_blocks (B := Reference.builtins) Samples.two_blocks_text
    = [Samples.first_obj; Samples.second_obj]
  /\ _parse_loudnorm_json (B := Reference.builtins) Samples.two_blocks_text
     = Ok Samples.second_obj
  /\ (exists msg,
        _parse_loudnorm_json (B := Reference.builtins) "size=N/A time=00:00:01.00 { }"
          = Raise (ValueError msg)).
Proof.
  split; [vm_compute; reflexivity|split].
  - apply (proj1 (proj2 (parse_selects_last_qualifying_block
                           Reference.builtins Samples.two_blocks_text
                           ltac:(apply none_refused_check; vm_compute; reflexivity)))
             Samples.first_obj).
    vm_compute. reflexivity.
  - eexists.
    apply (proj2 (proj2 (parse_selects_last_qualifying_block Reference.builtins
                           "size=N/A time=00:00:01.00 { }"
                           ltac:(apply none_refused_check; vm_compute; reflexivity)))).
    vm_compute. reflexivity.
Qed.

(** An exception of [json.loads] other than [JSONDecodeError] leaves the
    function from the first candidate that causes it: the candidates
    behind it are not looked at and a qualifying block found before it is
    not returned. *)
Lemma parse_raises_what_loads_raises (B : Builtins) (text : string)
    (before after : list string) (blob : string) (e : exn) :
  findall_blocks text None = before ++ blob :: after ->
  none_refused before ->
  json_loads blob = LoadsRaised e ->
  _parse_loudnorm_json text = Raise e.
Proof.
  intros Hblocks Hread Hblob. unfold _parse_loudnorm_json. cbv zeta.
  rewrite Hblocks, (scan_stops_at_refusal _ _ _ _ _ Hread Hblob). reflexivity.
Qed.

(** C4. The diagnostic text [Samples.counter_then_block_text] holds a
    block in braces whose value is an integer of 4301 digits and, behind
    it, a block that [json.loads] reads as an object with the four
    measurement keys.  The last qualifying block of the text is therefore
    that object; the function does not return it: the [ValueError] that
    [json.loads] raises for the integer is not a [JSONDecodeError], is not
    caught, and leaves the function. *)
Theorem refused_candidate_hides_qualifying_block :
  json_loads (Builtins := Reference.builtins) Samples.measured_block
    = Loaded (PyDict Samples.second_obj)
  /\ has_loudnorm_keys Samples.second_obj = true
  /\ json_loads (Builtins := Reference.builtins) Samples.counter_block
     = LoadsRaised (ValueError (Reference.digit_limit_message 4301))
  /\ findall_blocks Samples.counter_then_block_text None
     = [Samples.counter_block; Samples.measured_block]
  /\ _parse_loudnorm_json (B := Reference.builtins) Samples.counter_then_block_text
     = Raise (ValueError (Reference.digit_limit_message 4301)).
Proof.
  assert (Hblock : json_loads (Builtins := Reference.builtins) Samples.counter_block
                   = LoadsRaised (ValueError (Reference.digit_limit_message 4301)))
    by (vm_compute; reflexivity).
  assert (Hblocks : findall_blocks Samples.counter_then_block_text None
                    = [] ++ Samples.counter_block :: [Samples.measured_block])
    by (vm_compute; reflexivity).
  split; [vm_compute; reflexivity|].
  split; [vm_compute; reflexivity|].
  split; [exact Hblock|].
  split; [exact Hblocks|].
  exact (parse_raises_what_loads_raises Reference.builtins _ [] _ _ _
           Hblocks (Forall_nil _) Hblock).
Qed.

(** ** Validation of the measurements *)

Section Validation.

Context {B : Builtins}.

Lemma float_of_int_raises (n : Z) (e : exn) :
  float_of_int n = Raise e -> e = OverflowError.
Proof.
  unfold float_of_int.
  destruct n as [|p|p]; [discriminate| |];
    match goal with |- context [binary_round ?a ?b ?c ?d ?f] =>
      destruct (binary_round a b c d f) end;
    intros H; try discriminate H; now injection H as <-.
Qed.

(** A field that does not overflow is judged by [_is_finite_number]. *)
Lemma is_finite_number_spec (value : pyobj) :
  overflows value = false ->
  _is_finite_number value = Ok (converts_finite value).
Proof.
  unfold overflows, _is_finite_number, converts_finite.
  destruct value as [|b|n|x|s|l|d]; cbn [py_float]; try reflexivity.
  - destruct (float_of_int n) as [v|e] eqn:Hn; [reflexivity|].
    apply float_of_int_raises in Hn. subst e. intros H. discriminate H.
  - destruct (float_of_str s); reflexivity.
Qed.

Lemma bad_fields_spec (fields : list (string * pyobj)) :
  forallb (fun f => negb (overflows (snd f))) fields = true ->
  bad_fields fields = Ok (invalid_names fields).
Proof.
  induction fields as [|[name val] fields IH]; [reflexivity|].
  cbn [forallb snd]. intros H. apply andb_prop in H. destruct H as [Hval Hrest].
  apply negb_true_iff in Hval.
  cbn [bad_fields]. rewrite (is_finite_number_spec val Hval). cbn [bind].
  rewrite (IH Hrest). cbn [bind].
  unfold invalid_names. cbn [filter snd].
  destruct (converts_finite val); reflexivity.
Qed.

Lemma converts_finite_float (value : pyobj) :
  converts_finite value = true ->
  exists v, py_float value = Ok v /\ isfinite v = true.
Proof.
  unfold converts_finite.
  destruct (py_float value) as [v|e]; [|discriminate].
  intros Hfin. now exists v.
Qed.

(** Where no field overflows, validation succeeds exactly when no field is
    invalid, and otherwise raises one [ValueError] naming every invalid
    field. *)
Lemma extract_measurements_without_overflow (obj : pydict) :
  forallb (fun f => negb (overflows (snd f))) (measurement_fields obj) = true ->
  (invalid_names (measurement_fields obj) = [] ->
   exists meas,
     _extract_measurements obj = Ok meas /\ raw meas = obj
     /\ isfinite (measured_I meas) = true /\ isfinite (measured_TP meas) = true
     /\ isfinite (measured_LRA meas) = true /\ isfinite (measured_thresh meas) = true
     /\ isfinite (offset meas) = true)
  /\ (invalid_names (measurement_fields obj) <> [] ->
      _extract_measurements obj
        = Raise (ValueError (invalid_message (invalid_names (measurement_fields obj))))).
Proof.
  intros Hno. unfold _extract_measurements.
  rewrite (bad_fields_spec _ Hno). cbn [bind].
  split.
  - intros Hnone. rewrite Hnone.
    unfold invalid_names, measurement_fields in Hnone. cbn [filter snd] in Hnone.
    destruct (converts_finite (obj_get obj "input_i")) eqn:H1; [|discriminate].
    destruct (converts_finite (obj_get obj "input_tp")) eqn:H2; [|discriminate].
    destruct (converts_finite (obj_get obj "input_lra")) eqn:H3; [|discriminate].
    destruct (converts_finite (obj_get obj "input_thresh")) eqn:H4; [|discriminate].
    destruct (converts_finite (obj_get obj "target_offset")) eqn:H5; [|discriminate].
    destruct (converts_finite_float _ H1) as (v1 & -> & F1).
    destruct (converts_finite_float _ H2) as (v2 & -> & F2).
    destruct (converts_finite_float _ H3) as (v3 & -> & F3).
    destruct (converts_finite_float _ H4) as (v4 & -> & F4).
    destruct (converts_finite_float _ H5) as (v5 & -> & F5).
    cbn [bind]. eexists. split; [reflexivity|]. cbn.
    repeat split; assumption.
  - intros Hsome.
    destruct (invalid_names (measurement_fields obj)); [contradiction|reflexivity].
Qed.

End Validation.

(** C7 fails on the code: the record [huge_obj] has a field that is not a
    number (and an integer field too large for a float), yet no failure
    naming the invalid fields is raised; the [OverflowError] of the
    conversion leaves [_extract_measurements] as it is. *)
Theorem extract_measurements_overflow_escapes (B : Builtins) :
  _extract_measurements Samples.huge_obj = Raise OverflowError.
Proof.
  vm_compute. reflexivity.
Qed.

Example extract_measurements_names_both :
  _extract_measurements (B := Reference.builtins) Samples.invalid_obj
    = Raise (ValueError "Invalid loudnorm measurement values: measured_I, measured_LRA, offset").
Proof.
  vm_compute. reflexivity.
Qed.

(** ** The timeout of pass 1 *)

Lemma read_loop_goes_on (start : Q) (timeout_seconds : Z)
    (before rest : list read_event) (stderr_lines : list string) :
  forallb (goes_on start timeout_seconds) before = true ->
  read_loop start timeout_seconds (before ++ rest) stderr_lines
    = read_loop start timeout_seconds rest (stderr_lines ++ lines_of before).
Proof.
  revert stderr_lines.
  induction before as [|ev before IH]; intros stderr_lines Hon.
  - cbn. now rewrite app_nil_r.
  - cbn [forallb] in Hon. apply andb_prop in Hon. destruct Hon as [Hev Hon].
    unfold goes_on, is_line, exceeded in Hev.
    cbn [app read_loop]. unfold lines_of. cbn [filter]. unfold is_line at 1.
    destruct (truthy_str (line ev)); cbn [negb map].
    + apply negb_true_iff in Hev. rewrite Hev.
      rewrite (IH _ Hon). unfold lines_of. now rewrite <- app_assoc.
    + destruct (poll ev); [discriminate|]. apply (IH _ Hon).
Qed.

Section Timeout.

Context {B : Builtins}.
Variables (run : ProcessRun) (input_path : Path) (targets : LoudnormTargets).
Variables (timeout_seconds : Z) (cache : bool) (duration_seconds : option float).
Hypothesis spawned_ok : spawn_error run = None.
Hypothesis pipe_ok : stderr_pipe run = true.

Let analysis : option Analysis :=
  analyze_loudnorm_two_pass run input_path targets timeout_seconds cache duration_seconds.

(** The first line whose clock reading lies beyond the bound stops the
    process and raises the timeout. *)
Lemma late_line_times_out (before after : list read_event) (ev : read_event) :
  reads run = before ++ ev :: after ->
  forallb (goes_on (start_time run) timeout_seconds) before = true ->
  is_line ev = true ->
  exceeded (start_time run) timeout_seconds ev = true ->
  analysis
    = Some {| outcome := Raise (RuntimeError (timeout_message timeout_seconds));
              spawned := pass1_command input_path targets;
              actions := [Terminate; WaitAtMost 5]
                           ++ (if exits_in_grace run then [] else [Kill; Wait]);
              recorded := None |}.
Proof.
  intros Hreads Hon Hline Hlate.
  unfold analysis, analyze_loudnorm_two_pass.
  rewrite spawned_ok, pipe_ok, Hreads. cbn [negb].
  rewrite (read_loop_goes_on _ _ _ _ _ Hon). cbn [read_loop].
  unfold is_line in Hline. rewrite Hline. cbn [negb].
  unfold exceeded in Hlate. rewrite Hlate. reflexivity.
Qed.

(** When nothing is read and the process has exited, no clock reading is
    compared with the bound: the process is only waited for, and the
    outcome follows from the exit code and the lines gathered. *)
Lemma exit_is_not_checked (before after : list read_event) (ev : read_event)
    (returncode : Z) :
  reads run = before ++ ev :: after ->
  forallb (goes_on (start_time run) timeout_seconds) before = true ->
  is_line ev = false ->
  poll ev = Some returncode ->
  exists a,
    analysis = Some a
    /\ actions a = [Wait]
    /\ outcome a
       = if returncode =? 0
         then bind (_parse_loudnorm_json (String.concat "" (lines_of before)))
                _extract_measurements
         else Raise (RuntimeError (failure_message returncode (lines_of before))).
Proof.
  intros Hreads Hon Hline Hpoll.
  unfold analysis, analyze_loudnorm_two_pass.
  rewrite spawned_ok, pipe_ok, Hreads. cbn [negb].
  rewrite (read_loop_goes_on _ _ _ _ _ Hon). cbn [read_loop app].
  unfold is_line in Hline. rewrite Hline, Hpoll. cbn [negb].
  destruct (returncode =? 0); cbn [negb].
  - destruct (_parse_loudnorm_json (String.concat "" (lines_of before))) as [obj|e];
      cbn [bind]; [|eexists; repeat split; reflexivity].
    destruct (_extract_measurements obj) as [meas|e];
      eexists; repeat split; reflexivity.
  - eexists; repeat split; reflexivity.
Qed.

(** While every round either reads nothing from a running process or
    reads a line within the bound, the loop reads on. *)
Lemma silence_is_not_checked :
  forallb (goes_on (start_time run) timeout_seconds) (reads run) = true ->
  analysis = None.
Proof.
  intros Hon.
  unfold analysis, analyze_loudnorm_two_pass.
  rewrite spawned_ok, pipe_ok. cbn [negb].
  rewrite <- (app_nil_r (reads run)).
  rewrite (read_loop_goes_on _ _ _ _ _ Hon). reflexivity.
Qed.

End Timeout.

(** C2, as the code has it. The elapsed time is compared with the bound
    after each line received, and only then. The first line received
    beyond the bound has the process terminated, waited for at most 5
    seconds and, if it is still alive, killed, and the timeout failure is
    raised. A process that has stopped emitting lines is not checked: when
    it exits the loop ends without a look at the clock, the process is only
    waited for, and the outcome follows from its exit code and output; and
    while it neither emits a line nor exits the analysis goes on reading. *)
Theorem timeout_is_checked_on_lines_only (B : Builtins) (run : ProcessRun)
    (input_path : Path) (targets : LoudnormTargets) (timeout_seconds : Z)
    (cache : bool) (duration_seconds : option float) :
  spawn_error run = None ->
  stderr_pipe run = true ->
  (forall before ev after,
     reads run = before ++ ev :: after ->
     forallb (goes_on (start_time run) timeout_seconds) before = true ->
     is_line ev = true ->
     exceeded (start_time run) timeout_seconds ev = true ->
     analyze_loudnorm_two_pass run input_path targets timeout_seconds cache duration_seconds
       = Some {| outcome := Raise (RuntimeError (timeout_message timeout_seconds));
                 spawned := pass1_command input_path targets;
                 actions := [Terminate; WaitAtMost 5]
                              ++ (if exits_in_grace run then [] else [Kill; Wait]);
                 recorded := None |})
  /\ (forall before ev after returncode,
        reads run = before ++ ev :: after ->
        forallb (goes_on (start_time run) timeout_seconds) before = true ->
        is_line ev = false ->
        poll ev = Some returncode ->
        exists a,
          analyze_loudnorm_two_pass run input_path targets timeout_seconds cache
            duration_seconds = Some a
          /\ actions a = [Wait]
          /\ outcome a
             = if returncode =? 0
               then bind (_parse_loudnorm_json (String.concat "" (lines_of before)))
                      _extract_measurements
               else Raise (RuntimeError (failure_message returncode (lines_of before))))
  /\ (forallb (goes_on (start_time run) timeout_seconds) (reads run) = true ->
      analyze_loudnorm_two_pass run input_path targets timeout_seconds cache duration_seconds
        = None).
Proof.
  intros Hspawn Hpipe. split; [|split].
  - intros before ev after. now apply late_line_times_out.
  - intros before ev after returncode. now apply exit_is_not_checked.
  - now apply silence_is_not_checked.
Qed.

Lemma timeout_is_checked_on_lines_only_witness :
  analyze_loudnorm_two_pass (B := Reference.builtins) Samples.slow_run Samples.input
    Samples.targets_16 300 false None
    = Some {| outcome := Raise (RuntimeError "ffmpeg loudnorm pass 1 timeout after 300s");
              spawned := pass1_command Samples.input Samples.targets_16;
              actions := [Terminate; WaitAtMost 5; Kill; Wait];
              recorded := None |}
  /\ (exists a,
        analyze_loudnorm_two_pass (B := Reference.builtins) Samples.quiet_run Samples.input
          Samples.targets_16 300 false None = Some a
        /\ actions a = [Wait]
        /\ outcome a = Ok Samples.meas_of_second_block).
Proof.
  split.
  - apply (proj1 (timeout_is_checked_on_lines_only Reference.builtins Samples.slow_run
                    Samples.input Samples.targets_16 300 false None eq_refl eq_refl)
             [Samples.line_at 10 (Samples.ln "size=N/A time=00:00:05.00 bitrate=N/A speed=0.5x");
              Samples.silence_at 200]
             (Samples.line_at 301 (Samples.ln "size=N/A time=00:02:30.00 bitrate=N/A speed=0.5x"))
             [Samples.exit_at 302 0]); reflexivity.
  - apply (proj1 (proj2 (timeout_is_checked_on_lines_only Reference.builtins Samples.quiet_run
                    Samples.input Samples.targets_16 300 false None eq_refl eq_refl))
             (map (Samples.line_at 1) Samples.second_block ++ [Samples.silence_at 400])
             (Samples.exit_at 1000 0) [] 0); reflexivity.
Defined.

(** C2 as stated does not hold of a process that falls silent and then
    exits: in [quiet_run] the last line arrives after 1 second and the
    process exits after 1000 seconds, beyond the bound of 300; the analysis
    neither terminates the process nor raises the timeout failure, it
    returns the measurements. *)
Lemma silent_exit_is_not_timed_out :
  exceeded (start_time Samples.quiet_run) 300 (Samples.exit_at 1000 0) = true
  /\ analyze_loudnorm_two_pass (B := Reference.builtins) Samples.quiet_run Samples.input
       Samples.targets_16 300 false None
     = Some {| outcome := Ok Samples.meas_of_second_block;
               spawned := pass1_command Samples.input Samples.targets_16;
               actions := [Wait];
               recorded := None |}.
Proof.
  split; vm_compute; reflexivity.
Qed.

(** ** Orchestration *)

Section Degradation.

Variable analyze :
  Path -> LoudnormTargets -> Z -> bool -> option float ->
  option (result LoudnormMeasurements).
Variables (base_cmd : list string) (input_path : Path) (cfg : TranscoderConfig).
Variables (precomputed_meas : option LoudnormMeasurements).
Variables (cache : bool) (duration_seconds : option float).

Let attempt : option (result (list string)) :=
  normalization_attempt analyze base_cmd input_path cfg precomputed_meas cache
    duration_seconds.

Lemma analysis_raising_is_raised (e : exn) :
  audio_normalization_method (audio cfg) = "loudnorm" ->
  precomputed_meas = None ->
  analyze input_path (loudnorm_targets cfg) (Z.min (timeout_seconds (general cfg)) 300)
    cache duration_seconds = Some (Raise e) ->
  attempt = Some (Raise e).
Proof.
  intros Hm Hpre Han. unfold attempt, normalization_attempt.
  cbv zeta. rewrite Hm, Hpre, Han. reflexivity.
Qed.

Lemma unknown_method_skips :
  audio_normalization_method (audio cfg) <> "loudnorm" ->
  audio_normalization_method (audio cfg) <> "replaygain" ->
  attempt = Some (Ok base_cmd).
Proof.
  intros Hl Hr. unfold attempt, normalization_attempt. cbv zeta.
  apply String.eqb_neq in Hl, Hr. rewrite Hl, Hr. reflexivity.
Qed.

Lemma attempt_returns_cmd (cmd : list string) :
  attempt = Some (Ok cmd) ->
  cmd = base_cmd
  \/ (audio_normalization_method (audio cfg) = "loudnorm"
      /\ exists meas,
           match precomputed_meas with
           | Some m => m = meas
           | None =>
               analyze input_path (loudnorm_targets cfg)
                 (Z.min (timeout_seconds (general cfg)) 300) cache duration_seconds
                 = Some (Ok meas)
           end
           /\ cmd = inject_audio_filter base_cmd
                      (build_loudnorm_pass2_filter (loudnorm_targets cfg) meas))
  \/ (audio_normalization_method (audio cfg) = "replaygain"
      /\ cmd = inject_audio_filter base_cmd "replaygain").
Proof.
  unfold attempt, normalization_attempt. cbv zeta.
  destruct (String.eqb_spec (audio_normalization_method (audio cfg)) "loudnorm") as [Hl|Hl].
  - intros Hat. right. left. split; [exact Hl|].
    destruct precomputed_meas as [m|].
    + injection Hat as <-. now exists m.
    + destruct (analyze _ _ _ _ _) as [[meas|e]|]; try discriminate.
      injection Hat as <-. now exists meas.
  - destruct (String.eqb_spec (audio_normalization_method (audio cfg)) "replaygain") as [Hr|Hr].
    + intros Hat. injection Hat as <-. right. right. now split.
    + intros Hat. injection Hat as <-. now left.
Qed.

Variable stream_copy : bool.

Let returned : option (result (list string)) :=
  maybe_apply_audio_normalization analyze base_cmd input_path cfg stream_copy
    precomputed_meas cache duration_seconds.

Lemma never_raises (e : exn) : returned <> Some (Raise e).
Proof.
  unfold returned, maybe_apply_audio_normalization.
  destruct (audio_normalization_enabled (audio cfg)); cbn [negb]; [|discriminate].
  destruct stream_copy; [discriminate|].
  destruct (normalization_attempt _ _ _ _ _ _ _) as [[cmd|e']|]; discriminate.
Qed.

Lemma attempt_raising_is_caught (e : exn) :
  attempt = Some (Raise e) -> returned = Some (Ok base_cmd).
Proof.
  unfold attempt, returned, maybe_apply_audio_normalization. intros ->.
  destruct (audio_normalization_enabled (audio cfg)); cbn [negb]; [|reflexivity].
  destruct stream_copy; reflexivity.
Qed.

End Degradation.

(** C3. The orchestrator never raises. It returns the original command
    when normalisation is disabled, when stream copy was requested, when
    the method is not one it knows, and when anything in the attempt
    raises, the analysis of pass 1 in particular; a command that differs
    from the original is the original with the loudnorm pass-2 filter or
    the replaygain filter injected, on the paths where pass 1 (or the
    precomputed measurements) and pass 2 went through. *)
Theorem normalization_degrades_to_base_cmd
    (analyze : Path -> LoudnormTargets -> Z -> bool -> option float ->
               option (result LoudnormMeasurements))
    (base_cmd : list string) (input_path : Path) (cfg : TranscoderConfig)
    (stream_copy : bool) (precomputed_meas : option LoudnormMeasurements)
    (cache : bool) (duration_seconds : option float) :
  let returned :=
    maybe_apply_audio_normalization analyze base_cmd input_path cfg stream_copy
      precomputed_meas cache duration_seconds in
  (forall e, returned <> Some (Raise e))
  /\ (audio_normalization_enabled (audio cfg) = false -> returned = Some (Ok base_cmd))
  /\ (stream_copy = true -> returned = Some (Ok base_cmd))
  /\ (audio_normalization_method (audio cfg) <> "loudnorm" ->
      audio_normalization_method (audio cfg) <> "replaygain" ->
      returned = Some (Ok base_cmd))
  /\ (forall e,
        normalization_attempt analyze base_cmd input_path cfg precomputed_meas cache
          duration_seconds = Some (Raise e) ->
        returned = Some (Ok base_cmd))
  /\ (forall e,
        audio_normalization_method (audio cfg) = "loudnorm" ->
        precomputed_meas = None ->
        analyze input_path (loudnorm_targets cfg)
          (Z.min (timeout_seconds (general cfg)) 300) cache duration_seconds
          = Some (Raise e) ->
        returned = Some (Ok base_cmd))
  /\ (forall cmd,
        returned = Some (Ok cmd) -> cmd <> base_cmd ->
        audio_normalization_enabled (audio cfg) = true /\ stream_copy = false
        /\ ((audio_normalization_method (audio cfg) = "loudnorm"
             /\ exists meas,
                  match precomputed_meas with
                  | Some m => m = meas
                  | None =>
                      analyze input_path (loudnorm_targets cfg)
                        (Z.min (timeout_seconds (general cfg)) 300) cache duration_seconds
                        = Some (Ok meas)
                  end
                  /\ cmd = inject_audio_filter base_cmd
                             (build_loudnorm_pass2_filter (loudnorm_targets cfg) meas))
            \/ (audio_normalization_method (audio cfg) = "replaygain"
                /\ cmd = inject_audio_filter base_cmd "replaygain"))).
Proof.
  cbv zeta. repeat apply conj.
  - intros e. apply never_raises.
  - intros Hoff. unfold maybe_apply_audio_normalization. now rewrite Hoff.
  - intros ->. unfold maybe_apply_audio_normalization.
    destruct (audio_normalization_enabled (audio cfg)); reflexivity.
  - intros Hl Hr. unfold maybe_apply_audio_normalization.
    rewrite (unknown_method_skips analyze base_cmd input_path cfg precomputed_meas
               cache duration_seconds Hl Hr).
    destruct (audio_normalization_enabled (audio cfg)); cbn [negb]; [|reflexivity].
    destruct stream_copy; reflexivity.
  - intros e. apply attempt_raising_is_caught.
  - intros e Hm Hpre Han.
    eapply attempt_raising_is_caught.
    apply analysis_raising_is_raised; eassumption.
  - intros cmd Hret Hne.
    unfold maybe_apply_audio_normalization in Hret.
    destruct (audio_normalization_enabled (audio cfg)); cbn [negb] in Hret;
      [|injection Hret as <-; contradiction].
    destruct stream_copy; [injection Hret as <-; contradiction|].
    split; [reflexivity|split; [reflexivity|]].
    destruct (normalization_attempt analyze base_cmd input_path cfg precomputed_meas
                cache duration_seconds) as [[cmd'|e]|] eqn:Hat; try discriminate.
    + injection Hret as <-.
      destruct (attempt_returns_cmd _ _ _ _ _ _ _ _ Hat) as [Hsame|[Hl|Hr]].
      * contradiction.
      * now left.
      * now right.
    + injection Hret as <-. contradiction.
Qed.

Lemma normalization_degrades_to_base_cmd_witness :
  analysis_of_run (B := Reference.builtins) Samples.failing_run Samples.input
    (loudnorm_targets Samples.cfg) 300 false None
    = Some (Raise (RuntimeError
        "ffmpeg loudnorm pass 1 failed (code 1): in/song.flac: No such file or directory"))
  /\ maybe_apply_audio_normalization
       (analysis_of_run (B := Reference.builtins) Samples.failing_run)
       Samples.base_cmd Samples.input Samples.cfg false None false None
     = Some (Ok Samples.base_cmd)
  /\ maybe_apply_audio_normalization
       (analysis_of_run (B := Reference.builtins) Samples.good_run)
       Samples.base_cmd Samples.input Samples.cfg true None false None
     = Some (Ok Samples.base_cmd).
Proof.
  split; [vm_compute; reflexivity|split].
  - eapply (proj1 (proj2 (proj2 (proj2 (proj2 (proj2
              (normalization_degrades_to_base_cmd
                 (analysis_of_run (B := Reference.builtins) Samples.failing_run)
                 Samples.base_cmd Samples.input Samples.cfg false None false None))))))).
    + reflexivity.
    + reflexivity.
    + vm_compute. reflexivity.
  - apply (proj1 (proj2 (proj2
              (normalization_degrades_to_base_cmd
                 (analysis_of_run (B := Reference.builtins) Samples.good_run)
                 Samples.base_cmd Samples.input Samples.cfg true None false None)))).
    reflexivity.
Defined.

Example normalization_injects_on_success :
  maybe_apply_audio_normalization
    (analysis_of_run (B := Reference.builtins) Samples.good_run)
    Samples.base_cmd Samples.input Samples.cfg false None false None
  = Some (Ok ["ffmpeg"; "-y"; "-hide_banner"; "-i"; "in/song.flac"; "-map"; "0:a:0?";
              "-vn"; "-sn"; "-dn"; "-c:a"; "libopus"; "-b:a"; "160k"; "-af";
              "loudnorm=I=-16:measured_I=-20.2:measured_TP=-3.1:measured_LRA=7.4:measured_thresh=-30.2:offset=3.8";
              "out/song.opus"]).
Proof.
  vm_compute. reflexivity.
Qed.

(** C10. When the loudnorm method is selected and no precomputed
    measurements are supplied, the orchestrator calls the analysis once,
    with the smaller of the configured timeout and 300 seconds as its
    timeout: the result is what that call gives, the timeout of the call is
    at most 300 however large the configured one is, and what the analysis
    would do with a larger timeout has no influence on the result. *)
Theorem analysis_timeout_is_capped
    (analyze : Path -> LoudnormTargets -> Z -> bool -> option float ->
               option (result LoudnormMeasurements))
    (base_cmd : list string) (input_path : Path) (cfg : TranscoderConfig)
    (cache : bool) (duration_seconds : option float) :
  audio_normalization_enabled (audio cfg) = true ->
  audio_normalization_method (audio cfg) = "loudnorm" ->
  let analysis_timeout := Z.min (timeout_seconds (general cfg)) 300 in
  analysis_timeout <= 300
  /\ analysis_timeout <= timeout_seconds (general cfg)
  /\ (analysis_timeout = 300 \/ analysis_timeout = timeout_seconds (general cfg))
  /\ maybe_apply_audio_normalization analyze base_cmd input_path cfg false None cache
       duration_seconds
     = match analyze input_path (loudnorm_targets cfg) analysis_timeout cache
               duration_seconds with
       | None => None
       | Some (Ok meas) =>
           Some (Ok (inject_audio_filter base_cmd
                       (build_loudnorm_pass2_filter (loudnorm_targets cfg) meas)))
       | Some (Raise _) => Some (Ok base_cmd)
       end
  /\ (forall analyze',
        (forall p t timeout c d, timeout <= 300 -> analyze p t timeout c d = analyze' p t timeout c d) ->
        maybe_apply_audio_normalization analyze base_cmd input_path cfg false None cache
          duration_seconds
        = maybe_apply_audio_normalization analyze' base_cmd input_path cfg false None cache
            duration_seconds).
Proof.
  intros Hon Hm. cbv zeta.
  split; [lia|split; [lia|split; [lia|]]].
  assert (Hcall : forall an,
            maybe_apply_audio_normalization an base_cmd input_path cfg false None cache
              duration_seconds
            = match an input_path (loudnorm_targets cfg)
                      (Z.min (timeout_seconds (general cfg)) 300) cache duration_seconds with
              | None => None
              | Some (Ok meas) =>
                  Some (Ok (inject_audio_filter base_cmd
                              (build_loudnorm_pass2_filter (loudnorm_targets cfg) meas)))
              | Some (Raise _) => Some (Ok base_cmd)
              end).
  { intros an. unfold maybe_apply_audio_normalization, normalization_attempt.
    cbv zeta. rewrite Hon, Hm.
    change (String.eqb "loudnorm" "loudnorm") with true. cbn [negb].
    destruct (an _ _ _ _ _) as [[meas|e]|]; reflexivity. }
  split; [apply Hcall|].
  intros analyze' Hsame. rewrite !Hcall, Hsame by lia. reflexivity.
Qed.

Lemma analysis_timeout_is_capped_witness :
  Z.min (timeout_seconds (general Samples.cfg)) 300 = 300
  /\ maybe_apply_audio_normalization
       (analysis_of_run (B := Reference.builtins) Samples.slow_run)
       Samples.base_cmd Samples.input Samples.cfg false None false None
     = match analysis_of_run (B := Reference.builtins) Samples.slow_run Samples.input
               (loudnorm_targets Samples.cfg) 300 false None with
       | None => None
       | Some (Ok meas) =>
           Some (Ok (inject_audio_filter Samples.base_cmd
                       (build_loudnorm_pass2_filter (loudnorm_targets Samples.cfg) meas)))
       | Some (Raise _) => Some (Ok Samples.base_cmd)
       end
  /\ analysis_of_run (B := Reference.builtins) Samples.slow_run Samples.input
       (loudnorm_targets Samples.cfg) 300 false None
     = Some (Raise (RuntimeError "ffmpeg loudnorm pass 1 timeout after 300s")).
Proof.
  split; [reflexivity|split; [|vm_compute; reflexivity]].
  apply (proj1 (proj2 (proj2 (proj2
           (analysis_timeout_is_capped
              (analysis_of_run (B := Reference.builtins) Samples.slow_run)
              Samples.base_cmd Samples.input Samples.cfg false None eq_refl eq_refl))))).
Defined.

(* ===================================================================== *)
(** * Further properties of the codec handlers                            *)
(* ===================================================================== *)

(** ** Registries *)

Lemma find_filter_other {H : Type} (registry : list (string * H)) (key other : string) :
  key <> other ->
  find (fun kv => String.eqb (fst kv) key)
       (filter (fun kv => negb (String.eqb (fst kv) other)) registry)
  = find (fun kv => String.eqb (fst kv) key) registry.
Proof.
  intros Hne.
  induction registry as [|[k h] registry IH]; [reflexivity|].
  cbn [filter find fst].
  destruct (String.eqb_spec k other) as [->|Hk]; cbn [negb].
  - destruct (String.eqb_spec other key) as [->|_]; [contradiction|exact IH].
  - cbn [find fst]. now rewrite IH.
Qed.

Lemma registry_get_register_codec (handler : VideoCodec)
    (registry : list (string * VideoCodec)) (key : string) :
  registry_get (register_codec handler registry) key
  = if String.eqb (name (capabilities handler)) key then Some handler
    else registry_get registry key.
Proof.
  unfold registry_get, register_codec. cbn [find fst].
  destruct (String.eqb_spec (name (capabilities handler)) key) as [_|Hne];
    [reflexivity|].
  rewrite find_filter_other by congruence. reflexivity.
Qed.

Lemma registry_get_register_audio_codec (handler : AudioCodec)
    (registry : list (string * AudioCodec)) (key : string) :
  registry_get (register_audio_codec handler registry) key
  = if String.eqb (a_name (audio_capabilities handler)) key then Some handler
    else registry_get registry key.
Proof.
  unfold registry_get, register_audio_codec. cbn [find fst].
  destruct (String.eqb_spec (a_name (audio_capabilities handler)) key) as [_|Hne];
    [reflexivity|].
  rewrite find_filter_other by congruence. reflexivity.
Qed.

(** X1. Registration and lookup round-trip: after a handler is registered
    its name resolves to it and every other name resolves as before; in
    the two registries the module builds, every handler is found under the
    name of its capabilities, a name resolves only to the handler that
    carries it, and no name resolves in both registries. *)
Theorem registries_round_trip :
  (forall handler registry key,
     registry_get (register_codec handler registry) key
     = if String.eqb (name (capabilities handler)) key then Some handler
       else registry_get registry key)
  /\ (forall c, get_codec_handler (name (capabilities c)) = Some c)
  /\ (forall c, get_audio_codec_handler (a_name (audio_capabilities c)) = Some c)
  /\ (forall key c, get_codec_handler key = Some c -> name (capabilities c) = key)
  /\ (forall key c,
        get_audio_codec_handler key = Some c -> a_name (audio_capabilities c) = key)
  /\ (forall key c, get_codec_handler key = Some c -> get_audio_codec_handler key = None).
Proof.
  assert (Hv : forall key c, get_codec_handler key = Some c -> name (capabilities c) = key).
  { intros key c. change (get_codec_handler key) with (registry_get CODEC_REGISTRY key).
    unfold CODEC_REGISTRY. rewrite !registry_get_register_codec.
    cbn [name capabilities].
    repeat match goal with
    | |- context [String.eqb ?x key] => destruct (String.eqb_spec x key) as [<-|?]
    end; intros Hc; try discriminate Hc; injection Hc as <-; reflexivity. }
  assert (Ha : forall key c,
            get_audio_codec_handler key = Some c -> a_name (audio_capabilities c) = key).
  { intros key c.
    change (get_audio_codec_handler key) with (registry_get AUDIO_CODEC_REGISTRY key).
    unfold AUDIO_CODEC_REGISTRY. rewrite !registry_get_register_audio_codec.
    cbn [a_name audio_capabilities].
    repeat match goal with
    | |- context [String.eqb ?x key] => destruct (String.eqb_spec x key) as [<-|?]
    end; intros Hc; try discriminate Hc; injection Hc as <-; reflexivity. }
  repeat apply conj.
  - exact registry_get_register_codec.
  - intros []; reflexivity.
  - intros []; reflexivity.
  - exact Hv.
  - exact Ha.
  - intros key c Hc. apply Hv in Hc. subst key.
    destruct c; reflexivity.
Qed.

Lemma registries_round_trip_witness :
  name (capabilities HEVC) = "hevc"
  /\ get_audio_codec_handler "hevc" = None
  /\ a_name (audio_capabilities Vorbis) = "vorbis".
Proof.
  split; [|split].
  - apply (proj1 (proj2 (proj2 (proj2 registries_round_trip))) "hevc" HEVC). reflexivity.
  - apply (proj2 (proj2 (proj2 (proj2 (proj2 registries_round_trip)))) "hevc" HEVC).
    reflexivity.
  - apply (proj1 (proj2 (proj2 (proj2 (proj2 registries_round_trip)))) "vorbis" Vorbis).
    reflexivity.
Defined.

(** ** The decoder table and the compatibility predicates *)

Lemma table_get_in (table : list (string * string)) (key value : string) :
  table_get table key = Some value -> In value (map snd table).
Proof.
  induction table as [|[k v] table IH]; [discriminate|].
  cbn [table_get map snd In].
  destruct (String.eqb k key).
  - intros H. injection H as <-. now left.
  - intros H. right. now apply IH.
Qed.

Lemma str_in_In (x : string) (xs : list string) :
  str_in x xs = true <-> In x xs.
Proof.
  unfold str_in. rewrite existsb_exists. split.
  - intros (y & Hin & Heq). apply String.eqb_eq in Heq. now subst.
  - intros Hin. exists x. split; [exact Hin|apply String.eqb_refl].
Qed.

(** X2. The decoder table covers exactly the codecs whose handler declares
    QuickSync decoding: a stream whose codec name is, in lower case, the
    name of a handler has a decoder if and only if the capabilities of the
    handler say so; and every decoder name ends in [_qsv]. *)
Theorem qsv_decoder_table_matches_capabilities :
  (forall c info,
     lower (codec_name info) = name (capabilities c) ->
     match get_qsv_decoder info with Some _ => true | None => false end
     = supports_quicksync_decode (capabilities c))
  /\ (forall info decoder,
        get_qsv_decoder info = Some decoder ->
        exists base, decoder = (base ++ "_qsv")%string).
Proof.
  split.
  - intros c info Hname. unfold get_qsv_decoder. rewrite Hname.
    destruct c; reflexivity.
  - intros info decoder Hget.
    apply table_get_in in Hget. cbn in Hget.
    repeat (destruct Hget as [<-|Hget];
            [match goal with
             | |- exists base, ?d = _ =>
                 exists (String.substring 0 (String.length d - 4) d); reflexivity
             end|]).
    contradiction.
Qed.

Lemma qsv_decoder_table_matches_capabilities_witness :
  match get_qsv_decoder Samples.info with Some _ => true | None => false end = true
  /\ (exists base, "h264_qsv" = (base ++ "_qsv")%string).
Proof.
  split.
  - apply (proj1 qsv_decoder_table_matches_capabilities H264 Samples.info). reflexivity.
  - apply (proj2 qsv_decoder_table_matches_capabilities Samples.info). reflexivity.
Defined.

Lemma compatible_own_name (c : VideoCodec) (info : VideoInfo) :
  is_compatible c info = true ->
  In (lower (codec_name info)) (own_codec_names c).
Proof.
  destruct c; unfold is_compatible; cbn [own_codec_names].
  - destruct (str_in (lower (codec_name info)) ["h264"; "avc"]) eqn:E;
      [intros _; now apply str_in_In|discriminate].
  - intros E. apply String.eqb_eq in E. now left.
  - destruct (str_in (lower (codec_name info)) ["hevc"; "h265"]) eqn:E;
      [intros _; now apply str_in_In|discriminate].
  - intros E. apply String.eqb_eq in E. now left.
  - intros E. apply String.eqb_eq in E. now left.
Qed.

Lemma own_codec_names_disjoint (n : string) (c1 c2 : VideoCodec) :
  In n (own_codec_names c1) -> In n (own_codec_names c2) -> c1 = c2.
Proof.
  destruct c1, c2; try reflexivity; cbn [own_codec_names In];
    intros H1 H2; exfalso; intuition congruence.
Qed.

(** X3. A stream is compatible with at most one video handler; the handler
    it is compatible with is decided by its codec name in lower case; and a
    stream compatible with the H.264 or the HEVC handler has the pixel
    format [yuv420p]. *)
Theorem compatible_with_one_codec (info : VideoInfo) :
  (forall c1 c2,
     is_compatible c1 info = true -> is_compatible c2 info = true -> c1 = c2)
  /\ (forall c,
        is_compatible c info = true ->
        In (lower (codec_name info)) (own_codec_names c))
  /\ (forall c,
        c = H264 \/ c = HEVC -> is_compatible c info = true ->
        pixel_format info = "yuv420p").
Proof.
  split; [|split].
  - intros c1 c2 H1 H2.
    apply (own_codec_names_disjoint (lower (codec_name info)));
      now apply compatible_own_name.
  - intros c. apply compatible_own_name.
  - intros c Hc Hcompat.
    destruct (String.eqb_spec (pixel_format info) "yuv420p") as [Hp|Hp]; [exact Hp|].
    exfalso. apply String.eqb_neq in Hp.
    destruct Hc as [-> | ->]; unfold is_compatible in Hcompat; rewrite Hp in Hcompat;
      cbn [negb] in Hcompat;
      match type of Hcompat with
      | (if ?b then _ else _) = _ => destruct b; discriminate Hcompat
      end.
Qed.

Lemma compatible_with_one_codec_witness :
  pixel_format Samples.info = "yuv420p"
  /\ In (lower (codec_name Samples.info)) (own_codec_names H264)
  /\ H264 = H264.
Proof.
  split; [|split].
  - apply (proj2 (proj2 (compatible_with_one_codec Samples.info)) H264);
      [now left|reflexivity].
  - apply (proj1 (proj2 (compatible_with_one_codec Samples.info))). reflexivity.
  - apply (proj1 (compatible_with_one_codec Samples.info)); reflexivity.
Defined.

(** ** Further properties of the video builders *)

Ltac unfold_video_builders :=
  cbv [video_build_encode_command H264_build_encode_command
       VP8_build_encode_command HEVC_build_encode_command
       VP9_build_encode_command AV1_build_encode_command].

(** X4. Without an accelerator the hardware flags have no effect: no
    hardware decoder is selected and every variant builds the same command
    whatever the two flags are. *)
Theorem hardware_flags_inert_without_accelerator
    (env : Env) (c : VideoCodec) (a : VideoArgs) :
  v_accel a = None ->
  get_hw_decoder (v_video_info a) (v_accel a) = None
  /\ forall hw_encode hw_decode hw_encode' hw_decode',
       video_build_encode_command env c (with_flags a hw_encode hw_decode)
       = video_build_encode_command env c (with_flags a hw_encode' hw_decode').
Proof.
  intros Hacc. split; [now rewrite Hacc|].
  intros e d e' d'.
  destruct c; unfold_video_builders;
    cbv [with_flags hw_decoder_args use_hw_encoder get_hw_decoder];
    cbn [v_input_path v_output_path v_video_info v_cfg v_accel
         v_hw_encode_enabled v_hw_decode_enabled];
    rewrite Hacc; destruct e, d, e', d'; reflexivity.
Qed.

Lemma hardware_flags_inert_without_accelerator_witness :
  video_build_encode_command Samples.env_none H264 (with_flags Samples.video_args true true)
  = video_build_encode_command Samples.env_none H264 (with_flags Samples.video_args false false).
Proof.
  apply (proj2 (hardware_flags_inert_without_accelerator Samples.env_none H264
                  Samples.video_args eq_refl)).
Defined.

(** X5. A bitrate cap of 0 and a frame-rate cap of 0 are the same as no
    cap: every variant builds the same command for them. *)
Theorem zero_caps_are_no_caps (env : Env) (c : VideoCodec) (a : VideoArgs)
    (bitrate fps : option Z) :
  video_build_encode_command env c (with_cfg a (with_caps (v_cfg a) (Some 0) fps))
  = video_build_encode_command env c (with_cfg a (with_caps (v_cfg a) None fps))
  /\ video_build_encode_command env c (with_cfg a (with_caps (v_cfg a) bitrate (Some 0)))
     = video_build_encode_command env c (with_cfg a (with_caps (v_cfg a) bitrate None)).
Proof.
  split; destruct c; reflexivity.
Qed.

(** The end of every video command: the audio handling, then the
    fast-start flag of the variants that have one, then the output path. *)
Lemma video_command_tail (env : Env) (c : VideoCodec) (a : VideoArgs) :
  exists body audio_part,
    video_build_encode_command env c a
    = body ++ audio_part
        ++ match c with
           | VP8 | VP9 => []
           | _ => faststart_args (v_output_path a)
           end
        ++ [path_str (v_output_path a)]
    /\ In audio_part
         [["-c:a"; "copy"]; ["-c:a"; "aac"; "-b:a"; "192k"];
          ["-c:a"; "libopus"; "-b:a"; "160k"]; ["-an"]].
Proof.
  assert (Hmp4 : forall info,
            In (mp4_audio info)
              [["-c:a"; "copy"]; ["-c:a"; "aac"; "-b:a"; "192k"];
               ["-c:a"; "libopus"; "-b:a"; "160k"]; ["-an"]]).
  { intros info. unfold mp4_audio.
    destruct (audio_codec_in info _); cbn; auto. }
  assert (Hwebm : forall info,
            In (webm_audio info)
              [["-c:a"; "copy"]; ["-c:a"; "aac"; "-b:a"; "192k"];
               ["-c:a"; "libopus"; "-b:a"; "160k"]; ["-an"]]).
  { intros info. unfold webm_audio.
    destruct (audio_codec_in info _); cbn; auto. }
  assert (Han : In ["-an"]
                  [["-c:a"; "copy"]; ["-c:a"; "aac"; "-b:a"; "192k"];
                   ["-c:a"; "libopus"; "-b:a"; "160k"]; ["-an"]]) by (cbn; auto).
  destruct c; unfold_video_builders; destruct (has_audio (v_video_info a)).
  (* H264 *)
  1-2: match goal with
       | |- exists body audio_part, ((?C ++ ?A) ++ ?F) ++ _ = _ /\ _ => exists C, A
       end; (split; [rewrite <- ?app_assoc; reflexivity|]); first [apply Hmp4|exact Han].
  (* VP8 *)
  1-2: match goal with
       | |- exists body audio_part, (?C ++ ?A) ++ _ = _ /\ _ => exists C, A
       end; (split; [rewrite <- ?app_assoc; reflexivity|]); first [apply Hwebm|exact Han].
  (* HEVC *)
  1-2: match goal with
       | |- exists body audio_part, ((?C ++ ?A) ++ ?F) ++ _ = _ /\ _ => exists C, A
       end; (split; [rewrite <- ?app_assoc; reflexivity|]); first [apply Hmp4|exact Han].
  (* VP9 *)
  1-2: match goal with
       | |- exists body audio_part, (?C ++ ?A) ++ _ = _ /\ _ => exists C, A
       end; (split; [rewrite <- ?app_assoc; reflexivity|]); first [apply Hwebm|exact Han].
  (* AV1 *)
  - destruct (is_mp4_family (v_output_path a));
      match goal with
      | |- exists body audio_part, ((?C ++ ?A) ++ ?F) ++ _ = _ /\ _ => exists C, A
      end; (split; [rewrite <- ?app_assoc; reflexivity|]); first [apply Hmp4|apply Hwebm].
  - match goal with
    | |- exists body audio_part, ((?C ++ ?A) ++ ?F) ++ _ = _ /\ _ => exists C, A
    end; (split; [rewrite <- ?app_assoc; reflexivity|]); exact Han.
Qed.

Lemma last_app_nonempty (l1 l2 : list string) (d : string) :
  l2 <> [] -> last (l1 ++ l2) d = last l2 d.
Proof.
  intros Hne. destruct (exists_last Hne) as (front & x & ->).
  now rewrite app_assoc, !last_last.
Qed.

(** X6. The H.264, HEVC and AV1 variants put the fast-start flag directly
    before the output path exactly when the output extension is, in lower
    case, [.mp4] or [.mov]; the VP8 and VP9 variants never do. *)
Theorem faststart_for_mp4_family (env : Env) (c : VideoCodec) (a : VideoArgs) :
  let cmd := video_build_encode_command env c a in
  match c with
  | VP8 | VP9 => last (removelast cmd) "" <> "+faststart"
  | _ =>
      last (removelast cmd) "" = "+faststart"
      <-> str_in (lower (suffix (v_output_path a))) [".mp4"; ".mov"] = true
  end.
Proof.
  cbv zeta.
  destruct (video_command_tail env c a) as (body & audio_part & -> & Hin).
  assert (Hlast : forall flags,
            last (removelast (body ++ audio_part ++ flags ++ [path_str (v_output_path a)])) ""
            = last (audio_part ++ flags) "").
  { intros flags.
    replace (body ++ audio_part ++ flags ++ [path_str (v_output_path a)])
      with ((body ++ audio_part ++ flags) ++ [path_str (v_output_path a)])
      by (now rewrite <- !app_assoc).
    rewrite removelast_last. apply last_app_nonempty.
    cbn in Hin. intuition (subst; discriminate). }
  fold (is_mp4_family (v_output_path a)).
  destruct c; rewrite Hlast; unfold faststart_args;
    try destruct (is_mp4_family (v_output_path a));
    cbn in Hin;
    repeat (destruct Hin as [<-|Hin]; [cbn; try (split; [reflexivity|]); try discriminate;
                                       try (split; discriminate)|]);
    try contradiction.
Qed.

Lemma faststart_for_mp4_family_witness :
  last (removelast (video_build_encode_command Samples.env_none HEVC MoreSamples.hw_args)) ""
  = "+faststart".
Proof.
  apply (proj2 (faststart_for_mp4_family Samples.env_none HEVC MoreSamples.hw_args)).
  reflexivity.
Defined.

Lemma hw_decoder_args_cases (info : VideoInfo) (accel : option HardwareAccelerator)
    (hw_decode_enabled : bool) :
  (hw_decoder_args info accel hw_decode_enabled = []
   /\ (hw_decode_enabled = false \/ accel = None
       \/ (exists acc, accel = Some acc
                       /\ (get_decoder acc info = None \/ get_decoder acc info = Some ""))))
  \/ (exists acc decoder,
        hw_decode_enabled = true /\ accel = Some acc
        /\ get_decoder acc info = Some decoder /\ decoder <> ""
        /\ hw_decoder_args info accel hw_decode_enabled = ["-c:v"; decoder]).
Proof.
  unfold hw_decoder_args, get_hw_decoder.
  destruct hw_decode_enabled; [|left; auto].
  destruct accel as [acc|]; [|left; auto].
  destruct (get_decoder acc info) as [decoder|] eqn:Hd.
  - destruct decoder as [|ch rest]; cbn [truthy_str].
    + left. split; [reflexivity|]. right. right. exists acc. auto.
    + right. exists acc, (String ch rest). repeat split; try assumption. discriminate.
  - left. split; [reflexivity|]. right. right. exists acc. auto.
Qed.

(** X7. Every video command opens with the same plan: the invocation
    header, then the hardware decoder if one is selected (decoding enabled
    and the accelerator names a non-empty decoder for the stream), then the
    input path behind [-i], then the encoder of the variant behind [-c:v]:
    the hardware encoder when hardware encoding is enabled and an
    accelerator is present, the software encoder otherwise; VP8 has the
    software encoder only; AV1 prefers SVT-AV1, then libaom, then the
    generic encoder. *)
Theorem command_opens_with_decoder_input_encoder
    (env : Env) (c : VideoCodec) (a : VideoArgs) :
  exists decoder_part rest,
    video_build_encode_command env c a
    = ["ffmpeg"; "-y"; "-hide_banner"] ++ decoder_part
        ++ ["-i"; path_str (v_input_path a); "-c:v"; encoder_name env c a] ++ rest
    /\ ((decoder_part = []
         /\ (v_hw_decode_enabled a = false \/ v_accel a = None
             \/ (exists acc, v_accel a = Some acc
                             /\ (get_decoder acc (v_video_info a) = None
                                 \/ get_decoder acc (v_video_info a) = Some ""))))
        \/ (exists acc decoder,
              v_hw_decode_enabled a = true /\ v_accel a = Some acc
              /\ get_decoder acc (v_video_info a) = Some decoder /\ decoder <> ""
              /\ decoder_part = ["-c:v"; decoder])).
Proof.
  exists (hw_decoder_args (v_video_info a) (v_accel a) (v_hw_decode_enabled a)).
  assert (Hdec := hw_decoder_args_cases (v_video_info a) (v_accel a) (v_hw_decode_enabled a)).
  destruct c; unfold_video_builders; unfold encoder_name;
    try destruct (use_hw_encoder (v_accel a) (v_hw_encode_enabled a));
    try destruct (check_encoder_available env "libsvtav1");
    try destruct (check_encoder_available env "libaom-av1");
    destruct (has_audio (v_video_info a));
    try destruct (is_mp4_family (v_output_path a));
    eexists; (split; [rewrite <- ?app_assoc; cbn [app]; reflexivity|exact Hdec]).
Qed.

Example hardware_command_opening :
  firstn 9 (video_build_encode_command Samples.env_none H264 MoreSamples.hw_args)
  = ["ffmpeg"; "-y"; "-hide_banner"; "-c:v"; "h264_qsv"; "-i"; "in/song.avi";
     "-c:v"; "h264_qsv"].
Proof. vm_compute. reflexivity. Qed.

(** X8. Of the stream descriptor a video builder reads only whether there
    is audio, the audio codec, and what the accelerator answers for it: two
    descriptors that agree on these give the same command, whatever their
    video codec, pixel format and profile. *)
Theorem video_attributes_not_read (env : Env) (c : VideoCodec) (a : VideoArgs)
    (info : VideoInfo) :
  has_audio info = has_audio (v_video_info a) ->
  audio_codec info = audio_codec (v_video_info a) ->
  get_hw_decoder info (v_accel a) = get_hw_decoder (v_video_info a) (v_accel a) ->
  video_build_encode_command env c (with_info a info)
  = video_build_encode_command env c a.
Proof.
  intros Haudio Hcodec Hdec.
  destruct c; unfold_video_builders;
    cbv [with_info hw_decoder_args mp4_audio webm_audio audio_codec_in];
    cbn [v_input_path v_output_path v_video_info v_cfg v_accel
         v_hw_encode_enabled v_hw_decode_enabled];
    rewrite Haudio, Hcodec, Hdec; reflexivity.
Qed.

Lemma video_attributes_not_read_witness :
  video_build_encode_command Samples.env_none HEVC
    (with_info Samples.video_args
       {| codec_name := "mpeg2video"; pixel_format := "yuv422p"; profile := None;
          has_audio := true; audio_codec := Some "aac" |})
  = video_build_encode_command Samples.env_none HEVC Samples.video_args.
Proof.
  apply (video_attributes_not_read Samples.env_none HEVC Samples.video_args); reflexivity.
Defined.

(** ** Further properties of the audio builders *)

Lemma container_compatible_is_accepted (c : AudioCodec) (path : Path) :
  is_container_compatible c path = extension_accepted c path.
Proof.
  destruct c; reflexivity.
Qed.

(** X9. An audio builder returns a command exactly when the output path is
    one [is_container_compatible] accepts for the variant and its numeric
    parameter is a number of its interval or, for Vorbis, a NaN quality,
    which the range test does not reject; and the default container of
    every variant is accepted. *)
Theorem container_check_matches_builder (B : Builtins) (c : AudioCodec) (a : AudioArgs) :
  ((exists cmd, audio_build_encode_command c a = Ok cmd)
   <-> ((within_range c (a_cfg a) = true
         \/ (c = Vorbis /\ vorbis_quality (audio (a_cfg a)) = S754_nan))
        /\ is_container_compatible c (a_output_path a) = true))
  /\ (forall text,
        is_container_compatible c
          {| path_str := text; suffix := "." ++ a_container (audio_capabilities c) |}
        = true).
Proof.
  split.
  - rewrite container_compatible_is_accepted, <- range_test_is_interval. split.
    + intros [cmd Hok].
      destruct (audio_command_shape c a cmd Hok) as (Hv & Hx & _). split.
      * intros Hout. destruct (validate_config_rejects c (a_cfg a) Hout) as [msg Hmsg].
        rewrite Hmsg in Hv. discriminate.
      * unfold extension_accepted.
        destruct (str_in (extension (a_output_path a)) (accepted_extensions c)) eqn:E;
          [reflexivity|].
        rewrite (force_extension_rejects _ _ E) in Hx. discriminate.
    + intros [Hrange Hext]. apply audio_checks_pass.
      * now apply validate_config_accepts.
      * now apply force_extension_accepts.
  - intros text. destruct c; reflexivity.
Qed.

Lemma container_check_matches_builder_witness :
  is_container_compatible Opus (a_output_path (Samples.opus_args 160)) = true
  /\ exists cmd,
       audio_build_encode_command (B := Reference.builtins) Opus (Samples.opus_args 160)
       = Ok cmd.
Proof.
  split; [reflexivity|].
  apply (proj1 (container_check_matches_builder Reference.builtins Opus
                  (Samples.opus_args 160))).
  split; [left; reflexivity|reflexivity].
Defined.

(** X10. Under stream copy the quality parameter is validated but not
    used: two configurations whose parameters are both in range give the
    same command for the same paths. *)
Theorem stream_copy_ignores_quality (B : Builtins) (c : AudioCodec) (a a' : AudioArgs) :
  a_input_path a = a_input_path a' ->
  a_output_path a = a_output_path a' ->
  a_stream_copy a = true ->
  a_stream_copy a' = true ->
  ~ out_of_range c (a_cfg a) ->
  ~ out_of_range c (a_cfg a') ->
  audio_build_encode_command c a = audio_build_encode_command c a'.
Proof.
  intros Hin Hout Hcopy Hcopy' Hrange Hrange'.
  apply validate_config_accepts in Hrange, Hrange'.
  destruct c; unfold_audio_builders;
    rewrite Hrange, Hrange', Hin, Hout, Hcopy, Hcopy'; reflexivity.
Qed.

Lemma stream_copy_ignores_quality_witness :
  audio_build_encode_command (B := Reference.builtins) Opus (MoreSamples.copy_args 96)
  = audio_build_encode_command (B := Reference.builtins) Opus (MoreSamples.copy_args 320).
Proof.
  apply (stream_copy_ignores_quality Reference.builtins Opus
           (MoreSamples.copy_args 96) (MoreSamples.copy_args 320));
    try reflexivity; cbn; lia.
Defined.

(* ===================================================================== *)
(** * Further properties of the normaliser                                *)
(* ===================================================================== *)

(** ** Rendering of numbers *)

Lemma rstrip_app_keep (c : ascii) (a b : string) :
  rstrip c b <> "" -> rstrip c (a ++ b) = (a ++ rstrip c b)%string.
Proof.
  intros Hb. induction a as [|x a IH]; [reflexivity|].
  cbn [append rstrip]. rewrite IH.
  destruct (a ++ rstrip c b)%string eqn:E; [|reflexivity].
  destruct a; cbn in E; [contradiction|discriminate].
Qed.

Lemma rstrip_app_drop (c : ascii) (a b : string) :
  rstrip c b = "" -> rstrip c (a ++ b) = rstrip c a.
Proof.
  intros Hb. induction a as [|x a IH]; [exact Hb|].
  cbn [append rstrip]. now rewrite IH.
Qed.

Lemma rstrip_no_char (c : ascii) (s : string) :
  has_char c s = false -> rstrip c s = s.
Proof.
  induction s as [|x s IH]; [reflexivity|].
  cbn [has_char rstrip]. intros H. apply orb_false_iff in H. destruct H as [Hx Hs].
  rewrite (IH Hs), Hx. now destruct s.
Qed.

Lemma has_char_app (c : ascii) (a b : string) :
  has_char c (a ++ b) = has_char c a || has_char c b.
Proof.
  induction a as [|x a IH]; [reflexivity|].
  cbn [append has_char]. now rewrite IH, orb_assoc.
Qed.

Lemma uint_has_no_point (d : Decimal.uint) :
  has_char "."%char (NilEmpty.string_of_uint d) = false.
Proof.
  induction d; cbn; assumption || reflexivity.
Qed.

Lemma str_int_has_no_point (n : Z) :
  has_char "."%char (str_int n) = false.
Proof.
  unfold str_int, NilZero.string_of_int, NilZero.string_of_uint.
  destruct (Z.to_int n) as [d|d].
  - destruct d; try reflexivity; apply (uint_has_no_point (_ d)).
  - cbn [has_char]. destruct d; try reflexivity; apply (uint_has_no_point (_ d)).
Qed.

(** The three facts about a fraction, checked on each of the thousand. *)
Lemma kept_digits_facts (k : Z) :
  0 <= k < 1000 ->
  pad3 k = (kept_digits k ++ Reference.zeros (3 - String.length (kept_digits k)))%string
  /\ has_char "."%char (kept_digits k) = false
  /\ rstrip "0"%char (kept_digits k) = kept_digits k
  /\ (String.length (kept_digits k) <= 3)%nat.
Proof.
  intros Hk.
  assert (Hall : forallb (fun i =>
                   let k := Z.of_nat i in
                   String.eqb (pad3 k)
                     (kept_digits k ++ Reference.zeros (3 - String.length (kept_digits k)))
                   && negb (has_char "."%char (kept_digits k))
                   && String.eqb (rstrip "0"%char (kept_digits k)) (kept_digits k)
                   && Nat.leb (String.length (kept_digits k)) 3)
                 (seq 0 1000) = true) by (vm_compute; reflexivity).
  rewrite forallb_forall in Hall.
  specialize (Hall (Z.to_nat k)). cbv zeta in Hall.
  rewrite Z2Nat.id in Hall by lia.
  assert (Hin : In (Z.to_nat k) (seq 0 1000)) by (apply in_seq; lia).
  apply Hall in Hin.
  repeat (apply andb_prop in Hin; destruct Hin as [Hin ?]).
  repeat split.
  - now apply String.eqb_eq.
  - now apply negb_true_iff.
  - now apply String.eqb_eq.
  - now apply Nat.leb_le.
Qed.

Lemma strip_fixed3 (whole : string) (k : Z) :
  has_char "."%char whole = false ->
  0 <= k < 1000 ->
  rstrip "."%char (rstrip "0"%char (whole ++ "." ++ pad3 k))
  = if String.eqb (kept_digits k) "" then whole
    else (whole ++ "." ++ kept_digits k)%string.
Proof.
  intros Hwhole Hk.
  destruct (kept_digits_facts k Hk) as (_ & Hpoint & _ & _).
  assert (Hzero : rstrip "0"%char ("." ++ pad3 k) = String "."%char (kept_digits k)).
  { cbn [append rstrip]. fold (kept_digits k). now destruct (kept_digits k). }
  rewrite rstrip_app_keep by (rewrite Hzero; discriminate).
  rewrite Hzero.
  destruct (String.eqb_spec (kept_digits k) "") as [He|Hne].
  - rewrite He. rewrite rstrip_app_drop by reflexivity. now apply rstrip_no_char.
  - assert (Hdot : rstrip "."%char (String "."%char (kept_digits k))
                   = String "."%char (kept_digits k)).
    { cbn [rstrip]. rewrite (rstrip_no_char _ _ Hpoint). now destruct (kept_digits k). }
    rewrite rstrip_app_keep by (rewrite Hdot; discriminate).
    now rewrite Hdot.
Qed.

(** X11. Of the three-decimal rendering of a finite number [_format_num]
    removes nothing but trailing zeros of the fraction, and the point with
    them when no digit of the fraction is left: the rendering is the
    integer part, a point and three digits; the result is the integer part
    when the three digits are zeros, and otherwise the integer part, the
    point and the digits up to the last one that is not zero. *)
Theorem format_num_strips_only_zeros (v : float) :
  isfinite v = true ->
  exists whole kept,
    has_char "."%char whole = false
    /\ (String.length kept <= 3)%nat
    /\ rstrip "0"%char kept = kept
    /\ format_3f v
       = (whole ++ "." ++ kept ++ Reference.zeros (3 - String.length kept))%string
    /\ _format_num v
       = if String.eqb kept "" then whole else (whole ++ "." ++ kept)%string.
Proof.
  intros Hfin.
  assert (Hfixed : forall negative n,
            0 <= n ->
            exists whole kept,
              has_char "."%char whole = false
              /\ (String.length kept <= 3)%nat
              /\ rstrip "0"%char kept = kept
              /\ fixed3 negative n
                 = (whole ++ "." ++ kept ++ Reference.zeros (3 - String.length kept))%string
              /\ rstrip "."%char (rstrip "0"%char (fixed3 negative n))
                 = if String.eqb kept "" then whole else (whole ++ "." ++ kept)%string).
  { intros negative n Hn.
    assert (Hk : 0 <= n mod 1000 < 1000) by (apply Z.mod_pos_bound; lia).
    destruct (kept_digits_facts _ Hk) as (Hpad & Hpoint & Hzero & Hlen).
    exists ((if negative then "-" else "") ++ str_int (n / 1000))%string,
      (kept_digits (n mod 1000)).
    assert (Hwhole : has_char "."%char
                       ((if negative then "-" else "") ++ str_int (n / 1000)) = false).
    { rewrite has_char_app, str_int_has_no_point. now destruct negative. }
    assert (Hshape : fixed3 negative n
                     = (((if negative then "-" else "") ++ str_int (n / 1000))
                        ++ "." ++ pad3 (n mod 1000))%string).
    { unfold fixed3. now rewrite !append_assoc. }
    repeat split; try assumption.
    - rewrite Hshape. now rewrite <- Hpad.
    - rewrite Hshape. now apply strip_fixed3. }
  unfold _format_num. rewrite Hfin. cbn [negb].
  destruct v as [s|s| |s m e]; cbn [isfinite] in Hfin; try discriminate; cbn [format_3f].
  - apply Hfixed. lia.
  - apply Hfixed. unfold thousandths, round_half_even.
    destruct (Z.leb_spec 0 e) as [He|He].
    { assert (0 < 2 ^ e) by (apply Z.pow_pos_nonneg; lia). nia. }
    assert (Hpow : 0 < 2 ^ (- e)) by (apply Z.pow_pos_nonneg; lia).
    assert (Hq : 0 <= Z.pos m * 1000 / 2 ^ (- e)) by (apply Z.div_pos; lia).
    destruct (2 * (Z.pos m * 1000 mod 2 ^ (- e)) ?= 2 ^ (- e));
      try destruct (Z.even _); lia.
Qed.

Lemma format_num_strips_only_zeros_witness :
  exists whole kept,
    has_char "."%char whole = false
    /\ (String.length kept <= 3)%nat
    /\ rstrip "0"%char kept = kept
    /\ format_3f (Samples.lit "-20.2")
       = (whole ++ "." ++ kept ++ Reference.zeros (3 - String.length kept))%string
    /\ _format_num (Samples.lit "-20.2")
       = if String.eqb kept "" then whole else (whole ++ "." ++ kept)%string.
Proof.
  apply (format_num_strips_only_zeros (Samples.lit "-20.2")). reflexivity.
Defined.

(** ** The search for blocks *)

Section Blocks.

Context {B : Builtins}.

Lemma findall_without_closing_brace (tail : string) (inside : option string) :
  has_char "}"%char tail = false -> findall_blocks tail inside = [].
Proof.
  revert inside.
  induction tail as [|c tail IH]; intros inside; [reflexivity|].
  cbn [has_char findall_blocks]. intros H.
  apply orb_false_iff in H. destruct H as [Hc Htail].
  destruct inside as [blob|].
  - rewrite Hc. now apply IH.
  - destruct (Ascii.eqb c "{"%char); now apply IH.
Qed.

Lemma findall_app_without_closing_brace (text tail : string) (inside : option string) :
  has_char "}"%char tail = false ->
  findall_blocks (text ++ tail) inside = findall_blocks text inside.
Proof.
  intros Htail. revert inside.
  induction text as [|c text IH]; intros inside.
  - cbn [append]. rewrite findall_without_closing_brace by assumption.
    now destruct inside.
  - cbn [append findall_blocks].
    destruct inside as [blob|].
    + destruct (Ascii.eqb c "}"%char); now rewrite IH.
    + destruct (Ascii.eqb c "{"%char); now rewrite IH.
Qed.

(** Every candidate is a block. *)
Lemma findall_gives_blocks (text : string) (inside : option string) :
  match inside with
  | None => True
  | Some blob =>
      exists inner, blob = String "{"%char inner /\ has_char "}"%char inner = false
  end ->
  Forall is_block (findall_blocks text inside).
Proof.
  revert inside.
  induction text as [|c text IH]; intros inside Hinside; [constructor|].
  cbn [findall_blocks].
  destruct inside as [blob|].
  - destruct Hinside as (inner & -> & Hinner).
    destruct (Ascii.eqb c "}"%char) eqn:Hc.
    + constructor.
      * exists inner. split; [reflexivity|exact Hinner].
      * now apply IH.
    + apply IH. exists (inner ++ String c "")%string. split; [reflexivity|].
      rewrite has_char_app, Hinner. cbn [has_char]. now rewrite Hc.
  - destruct (Ascii.eqb c "{"%char).
    + apply IH. exists ""%string. now split.
    + now apply IH.
Qed.

Lemma scan_result (blobs : list string) (last_good : option pydict) (obj : pydict) :
  scan_candidates blobs last_good = Ok (Some obj) ->
  last_good = Some obj
  \/ exists blob, In blob blobs /\ qualifying_block blob = Some obj.
Proof.
  revert last_good.
  induction blobs as [|blob blobs IH]; intros last_good H.
  - cbn in H. injection H as ->. now left.
  - cbn [scan_candidates] in H.
    destruct (scan_blob last_good blob) as [next|e] eqn:Hround; cbn [bind] in H;
      [|discriminate H].
    apply IH in H. destruct H as [H|(blob' & Hin & Hq)].
    + subst next. unfold scan_blob in Hround. unfold qualifying_block.
      destruct (json_loads blob) as [[| | | | | |d]| |e] eqn:Hjson;
        try discriminate Hround; try (injection Hround as ->; now left).
      destruct (has_loudnorm_keys d) eqn:Hkeys; injection Hround as Hfound.
      * right. exists blob. split; [now left|]. now rewrite Hjson, Hkeys, Hfound.
      * now left.
    + right. exists blob'. split; [now right|exact Hq].
Qed.

End Blocks.

(** X12. Text without a closing brace behind the diagnostic text does not
    change what is extracted, and a text without any closing brace is a
    parse failure: progress lines that follow the measurements are
    harmless. *)
Theorem parse_ignores_text_without_closing_brace (B : Builtins) (text tail : string) :
  has_char "}"%char tail = false ->
  _parse_loudnorm_json (text ++ tail) = _parse_loudnorm_json text
  /\ _parse_loudnorm_json tail
     = Raise (ValueError "Could not locate loudnorm JSON output in ffmpeg stderr").
Proof.
  intros Htail. unfold _parse_loudnorm_json. cbv zeta. split.
  - now rewrite findall_app_without_closing_brace.
  - now rewrite findall_without_closing_brace.
Qed.

Lemma parse_ignores_text_without_closing_brace_witness :
  _parse_loudnorm_json (B := Reference.builtins)
    (Samples.two_blocks_text ++ "size=N/A time=00:03:10.00 bitrate=N/A speed= 412x")
  = _parse_loudnorm_json (B := Reference.builtins) Samples.two_blocks_text.
Proof.
  apply (parse_ignores_text_without_closing_brace Reference.builtins). reflexivity.
Defined.

(** X13. What [_parse_loudnorm_json] returns is what [json.loads] reads
    from one of the candidates of the text, each of which runs from an
    opening brace to the first closing brace behind it, and it holds the
    four measurement keys: on a record returned by it, the four
    measurements are never absent. *)
Theorem parse_returns_qualifying_candidate (B : Builtins) (text : string) (obj : pydict) :
  _parse_loudnorm_json text = Ok obj ->
  (exists blob,
     In blob (findall_blocks text None) /\ is_block blob
     /\ json_loads blob = Loaded (PyDict obj))
  /\ dict_get obj "input_i" <> None /\ dict_get obj "input_tp" <> None
  /\ dict_get obj "input_lra" <> None /\ dict_get obj "input_thresh" <> None.
Proof.
  unfold _parse_loudnorm_json. cbv zeta.
  destruct (scan_candidates (findall_blocks text None) None) as [[found|]|e] eqn:Hscan;
    cbn [bind]; try discriminate.
  intros H. injection H as ->.
  apply scan_result in Hscan. destruct Hscan as [Hnone|(blob & Hin & Hq)]; [discriminate|].
  unfold qualifying_block in Hq.
  destruct (json_loads blob) as [[| | | | | |d]| |e] eqn:Hjson; try discriminate.
  destruct (has_loudnorm_keys d) eqn:Hkeys; [|discriminate].
  injection Hq as ->.
  split.
  - exists blob. repeat split; try assumption.
    pose proof (findall_gives_blocks text None I) as Hall.
    rewrite Forall_forall in Hall. now apply Hall.
  - unfold has_loudnorm_keys, dict_has in Hkeys.
    repeat (apply andb_prop in Hkeys; destruct Hkeys as [Hkeys ?]).
    repeat split;
      match goal with
      | |- dict_get obj ?k <> None => destruct (dict_get obj k); [discriminate|discriminate]
      end.
Qed.

Lemma parse_returns_qualifying_candidate_witness :
  dict_get Samples.second_obj "input_lra" <> None.
Proof.
  apply (parse_returns_qualifying_candidate Reference.builtins Samples.two_blocks_text
           Samples.second_obj).
  vm_compute. reflexivity.
Defined.

(** ** Validated measurements *)

Section Finite.

Context {B : Builtins}.

Lemma bad_fields_none (fields : list (string * pyobj)) :
  bad_fields fields = Ok [] ->
  Forall (fun f => exists v, py_float (snd f) = Ok v /\ isfinite v = true) fields.
Proof.
  induction fields as [|[name val] fields IH]; [constructor|].
  cbn [bad_fields]. unfold _is_finite_number.
  destruct (py_float val) as [v|e] eqn:Hv.
  - cbn [bind]. destruct (bad_fields fields) as [bad|e]; cbn [bind]; [|discriminate].
    destruct (isfinite v) eqn:Hfin; [|discriminate].
    intros H. injection H as ->.
    constructor; [exists v; now split|now apply IH].
  - destruct e; cbn [bind]; try discriminate;
      destruct (bad_fields fields); cbn [bind]; discriminate.
Qed.

(** The filter of pass 2 is the described one when every number is finite. *)
Lemma pass2_filter_described (targets : LoudnormTargets) (meas : LoudnormMeasurements) :
  all_finite targets meas = true ->
  build_loudnorm_pass2_filter targets meas = described_pass2_filter targets meas.
Proof.
  destruct targets as [I tp lra], meas as [mI mTP mLRA mth off r]. intros Hfin.
  unfold all_finite in Hfin. cbn [integrated_lufs true_peak_dbtp lra_lu measured_I
    measured_TP measured_LRA measured_thresh offset] in Hfin.
  repeat (apply andb_prop in Hfin; destruct Hfin as [Hfin ?]).
  unfold build_loudnorm_pass2_filter, described_pass2_filter,
    loudnorm_targets_prefix, optional_target.
  cbn [integrated_lufs true_peak_dbtp lra_lu measured_I
    measured_TP measured_LRA measured_thresh offset].
  rewrite !format_num_finite by assumption.
  destruct tp as [tp|], lra as [lra|]; cbn [finite_opt] in *;
    rewrite ?format_num_finite by assumption;
    rewrite ?append_assoc; reflexivity.
Qed.

End Finite.

(** X14. Measurements that [_extract_measurements] returns are the five
    fields of the record converted to floats, all of them finite, with the
    record kept as [raw]; so the filter of pass 2 renders them with three
    decimals and never through the guard for numbers that are not finite,
    whenever the targets are finite too. *)
Theorem extracted_measurements_are_finite (B : Builtins) (obj : pydict)
    (meas : LoudnormMeasurements) :
  _extract_measurements obj = Ok meas ->
  raw meas = obj
  /\ py_float (obj_get obj "input_i") = Ok (measured_I meas)
  /\ py_float (obj_get obj "input_tp") = Ok (measured_TP meas)
  /\ py_float (obj_get obj "input_lra") = Ok (measured_LRA meas)
  /\ py_float (obj_get obj "input_thresh") = Ok (measured_thresh meas)
  /\ py_float (obj_get obj "target_offset") = Ok (offset meas)
  /\ isfinite (measured_I meas) = true /\ isfinite (measured_TP meas) = true
  /\ isfinite (measured_LRA meas) = true /\ isfinite (measured_thresh meas) = true
  /\ isfinite (offset meas) = true
  /\ (forall targets,
        isfinite (integrated_lufs targets) = true ->
        finite_opt (true_peak_dbtp targets) = true ->
        finite_opt (lra_lu targets) = true ->
        build_loudnorm_pass2_filter targets meas = described_pass2_filter targets meas).
Proof.
  unfold _extract_measurements.
  destruct (bad_fields (measurement_fields obj)) as [bad|e] eqn:Hbad; cbn [bind];
    [|discriminate].
  destruct bad as [|name bad]; [|discriminate].
  apply bad_fields_none in Hbad. unfold measurement_fields in Hbad.
  repeat match goal with
  | H : Forall _ (_ :: _) |- _ => inversion H; subst; clear H
  end.
  repeat match goal with
  | H : exists v, py_float (snd _) = Ok v /\ _ |- _ =>
      let v := fresh "v" in let Hv := fresh "Hv" in let Hf := fresh "Hf" in
      destruct H as (v & Hv & Hf); cbn [snd] in Hv
  end.
  repeat match goal with
  | H : py_float _ = Ok _ |- _ => rewrite H
  end.
  cbn [bind]. intros H. injection H as <-.
  cbn [raw measured_I measured_TP measured_LRA measured_thresh offset].
  repeat split; try assumption; try reflexivity.
  intros targets HI Htp Hlra. apply pass2_filter_described.
  unfold all_finite.
  cbn [measured_I measured_TP measured_LRA measured_thresh offset].
  repeat (apply andb_true_intro; split); assumption.
Qed.

Lemma extracted_measurements_are_finite_witness :
  raw Samples.meas_of_second_block = Samples.second_obj
  /\ isfinite (measured_thresh Samples.meas_of_second_block) = true.
Proof.
  split;
    apply (extracted_measurements_are_finite Reference.builtins Samples.second_obj
             Samples.meas_of_second_block);
    vm_compute; reflexivity.
Defined.

(** ** Handling of the analysis process *)

(** X15. What a finished analysis did to the process: it terminates or
    kills the process only when it raises the timeout failure, and kills
    it only when the process outlived the five seconds; measurements are
    returned only behind a plain wait for the exited process; the
    performance cache is written only when a cache was given and
    measurements are returned; and the command is always the command of
    pass 1. *)
Theorem analysis_handles_process (B : Builtins) (run : ProcessRun) (input_path : Path)
    (targets : LoudnormTargets) (timeout_seconds : Z) (cache : bool)
    (duration_seconds : option float) (a : Analysis) :
  analyze_loudnorm_two_pass run input_path targets timeout_seconds cache duration_seconds
    = Some a ->
  (In Terminate (actions a) \/ In Kill (actions a) ->
   outcome a = Raise (RuntimeError (timeout_message timeout_seconds)))
  /\ (In Kill (actions a) -> exits_in_grace run = false)
  /\ (forall meas, outcome a = Ok meas -> actions a = [Wait])
  /\ (forall entry,
        recorded a = Some entry -> cache = true /\ exists meas, outcome a = Ok meas)
  /\ spawned a = pass1_command input_path targets.
Proof.
  unfold analyze_loudnorm_two_pass. cbv zeta.
  destruct (spawn_error run) as [e|].
  { intros H. injection H as <-. cbn. repeat split; intros; intuition discriminate. }
  destruct (stderr_pipe run); cbn [negb].
  2: { intros H. injection H as <-. cbn. repeat split; intros; intuition discriminate. }
  destruct (read_loop _ _ _ _) as [returncode wall_clock stderr_lines|stderr_lines|].
  - destruct (returncode =? 0); cbn [negb].
    + destruct (_parse_loudnorm_json _) as [obj|e].
      * destruct (_extract_measurements obj) as [meas|e].
        -- intros H. injection H as <-. cbn. repeat split; intros;
             try (intuition discriminate).
           ++ destruct cache; [reflexivity|discriminate].
           ++ now exists meas.
        -- intros H. injection H as <-. cbn.
           repeat split; intros; intuition discriminate.
      * intros H. injection H as <-. cbn. repeat split; intros; intuition discriminate.
    + intros H. injection H as <-. cbn. repeat split; intros; intuition discriminate.
  - intros H. injection H as <-. unfold stop_process. cbn.
    repeat split; intros; try discriminate.
    destruct (exits_in_grace run); [|reflexivity].
    cbn in *. intuition discriminate.
  - discriminate.
Qed.

Lemma analysis_handles_process_witness :
  spawned {| outcome := Raise (RuntimeError "ffmpeg loudnorm pass 1 timeout after 300s");
             spawned := pass1_command Samples.input Samples.targets_16;
             actions := [Terminate; WaitAtMost 5; Kill; Wait];
             recorded := None |}
  = pass1_command Samples.input Samples.targets_16
  /\ exits_in_grace Samples.slow_run = false.
Proof.
  split;
    apply (analysis_handles_process Reference.builtins Samples.slow_run Samples.input
             Samples.targets_16 300 false None
             {| outcome := Raise (RuntimeError "ffmpeg loudnorm pass 1 timeout after 300s");
                spawned := pass1_command Samples.input Samples.targets_16;
                actions := [Terminate; WaitAtMost 5; Kill; Wait];
                recorded := None |});
    vm_compute; auto.
Defined.

(** ** The diagnostic tail of a failure *)

Lemma substring_whole (s : string) (n : nat) :
  (String.length s <= n)%nat -> String.substring 0 n s = s.
Proof.
  revert n. induction s as [|c s IH]; intros n Hn.
  - now destruct n.
  - destruct n as [|n]; cbn in Hn; [lia|].
    cbn [String.substring]. rewrite IH by lia. reflexivity.
Qed.

Lemma substring_suffix (s : string) (k : nat) :
  (k <= String.length s)%nat ->
  exists front,
    s = (front ++ String.substring k (String.length s - k) s)%string
    /\ String.length front = k.
Proof.
  revert k. induction s as [|c s IH]; intros k Hk.
  - exists ""%string. cbn in Hk. assert (k = 0%nat) as -> by lia. now split.
  - destruct k as [|k].
    + exists ""%string. rewrite Nat.sub_0_r, substring_whole by lia. now split.
    + cbn in Hk. destruct (IH k ltac:(lia)) as (front & Hs & Hlen).
      exists (String c front). cbn [String.length String.substring Nat.sub append].
      split; [now rewrite <- Hs|now rewrite Hlen].
Qed.

Lemma length_append (a b : string) :
  String.length (a ++ b) = (String.length a + String.length b)%nat.
Proof.
  induction a as [|c a IH]; [reflexivity|]. cbn. now rewrite IH.
Qed.

(** X16. The failure raised for a non-zero exit code carries the end of
    the captured diagnostic text, stripped of surrounding white space: at
    most 1000 characters, the whole text when it is no longer than that,
    and its last 1000 characters otherwise. *)
Theorem failure_carries_bounded_tail (returncode : Z) (stderr_lines : list string) :
  let text := strip (String.concat "" stderr_lines) in
  exists front tail,
    failure_message returncode stderr_lines
    = ("ffmpeg loudnorm pass 1 failed (code " ++ str_int returncode ++ "): " ++ tail)%string
    /\ text = (front ++ tail)%string
    /\ (String.length tail <= 1000)%nat
    /\ String.length tail = Nat.min 1000 (String.length text).
Proof.
  cbv zeta. unfold failure_message. cbv zeta.
  set (text := strip (String.concat "" stderr_lines)).
  unfold last_chars.
  destruct (Nat.le_gt_cases (String.length text) 1000) as [Hshort|Hlong].
  - exists ""%string, text.
    replace (String.length text - 1000)%nat with 0%nat by lia.
    rewrite substring_whole by lia.
    split; [reflexivity|].
    split; [reflexivity|]. split; lia.
  - destruct (substring_suffix text (String.length text - 1000) ltac:(lia))
      as (front & Htext & Hfront).
    replace (String.length text - (String.length text - 1000))%nat with 1000%nat
      in Htext by lia.
    exists front, (String.substring (String.length text - 1000) 1000 text).
    assert (Hlen : String.length (String.substring (String.length text - 1000) 1000 text)
                   = 1000%nat).
    { apply (f_equal String.length) in Htext. rewrite length_append in Htext. lia. }
    split; [reflexivity|].
    split; [exact Htext|]. split; lia.
Qed.

(** ** Further properties of the orchestration *)

Lemma inject_last (cmd : list string) (filter_str d : string) :
  cmd <> [] -> last (inject_audio_filter cmd filter_str) d = last cmd d.
Proof.
  intros Hne. unfold inject_audio_filter.
  destruct (Nat.ltb_spec (List.length cmd) 2) as [_|Hge]; [reflexivity|].
  cbv zeta.
  destruct (exists_last Hne) as (front & out & ->).
  rewrite length_app. cbn [List.length].
  replace (List.length front + 1 - 1)%nat with (List.length front + 0)%nat by lia.
  rewrite skipn_app, skipn_all2 by lia.
  replace (List.length front + 0 - List.length front)%nat with 0%nat by lia.
  cbn [skipn app].
  rewrite last_last.
  change (["-af"; filter_str; out]) with (["-af"; filter_str] ++ [out]).
  now rewrite app_assoc, last_last.
Qed.

(** X17. The analysis is run only when normalisation is enabled, no
    stream copy was requested, the method is loudnorm and no measurements
    were supplied: in every other case the orchestrator returns a command,
    the same whatever the analysis would do. *)
Theorem analysis_runs_only_when_needed
    (analyze analyze' : Path -> LoudnormTargets -> Z -> bool -> option float ->
                        option (result LoudnormMeasurements))
    (base_cmd : list string) (input_path : Path) (cfg : TranscoderConfig)
    (stream_copy : bool) (precomputed_meas : option LoudnormMeasurements)
    (cache : bool) (duration_seconds : option float) :
  audio_normalization_enabled (audio cfg) = false \/ stream_copy = true
  \/ audio_normalization_method (audio cfg) <> "loudnorm" \/ precomputed_meas <> None ->
  maybe_apply_audio_normalization analyze base_cmd input_path cfg stream_copy
    precomputed_meas cache duration_seconds
  = maybe_apply_audio_normalization analyze' base_cmd input_path cfg stream_copy
      precomputed_meas cache duration_seconds
  /\ exists cmd,
       maybe_apply_audio_normalization analyze base_cmd input_path cfg stream_copy
         precomputed_meas cache duration_seconds = Some (Ok cmd).
Proof.
  intros Hcase.
  unfold maybe_apply_audio_normalization, normalization_attempt. cbv zeta.
  destruct (audio_normalization_enabled (audio cfg)); cbn [negb];
    [|split; [reflexivity|eexists; reflexivity]].
  destruct stream_copy; [split; [reflexivity|eexists; reflexivity]|].
  destruct (String.eqb_spec (audio_normalization_method (audio cfg)) "loudnorm") as [Hm|Hm].
  - destruct precomputed_meas as [meas|].
    + split; [reflexivity|eexists; reflexivity].
    + exfalso. destruct Hcase as [H|[H|[H|H]]]; try discriminate; contradiction.
  - destruct (String.eqb (audio_normalization_method (audio cfg)) "replaygain");
      split; try reflexivity; eexists; reflexivity.
Qed.

Lemma analysis_runs_only_when_needed_witness :
  exists cmd,
    maybe_apply_audio_normalization
      (analysis_of_run (B := Reference.builtins) Samples.slow_run)
      Samples.base_cmd Samples.input Samples.cfg false
      (Some Samples.meas_of_second_block) false None = Some (Ok cmd).
Proof.
  apply (analysis_runs_only_when_needed
           (analysis_of_run (B := Reference.builtins) Samples.slow_run)
           (analysis_of_run (B := Reference.builtins) Samples.good_run)).
  right. right. right. discriminate.
Defined.

(** X18. Normalisation keeps the output path last: a command the
    orchestrator returns ends with the token the original command ends
    with, so behind an audio builder it still ends with the output path;
    and it is the original command or two tokens longer. *)
Theorem normalization_keeps_output_last
    (analyze : Path -> LoudnormTargets -> Z -> bool -> option float ->
               option (result LoudnormMeasurements))
    (base_cmd : list string) (input_path : Path) (cfg : TranscoderConfig)
    (stream_copy : bool) (precomputed_meas : option LoudnormMeasurements)
    (cache : bool) (duration_seconds : option float) (cmd : list string) :
  maybe_apply_audio_normalization analyze base_cmd input_path cfg stream_copy
    precomputed_meas cache duration_seconds = Some (Ok cmd) ->
  (forall d, base_cmd <> [] -> last cmd d = last base_cmd d)
  /\ (cmd = base_cmd \/ List.length cmd = (List.length base_cmd + 2)%nat)
  /\ (forall (B : Builtins) c a d,
        audio_build_encode_command c a = Ok base_cmd ->
        last cmd d = path_str (a_output_path a)).
Proof.
  intros Hret.
  assert (Hshape : cmd = base_cmd \/ exists f, cmd = inject_audio_filter base_cmd f).
  { unfold maybe_apply_audio_normalization in Hret.
    destruct (audio_normalization_enabled (audio cfg)); cbn [negb] in Hret;
      [|injection Hret as <-; now left].
    destruct stream_copy; [injection Hret as <-; now left|].
    destruct (normalization_attempt analyze base_cmd input_path cfg precomputed_meas
                cache duration_seconds) as [[cmd'|e]|] eqn:Hat; try discriminate.
    - injection Hret as <-.
      destruct (attempt_returns_cmd _ _ _ _ _ _ _ _ Hat)
        as [Hsame|[(_ & meas & _ & Hcmd)|(_ & Hcmd)]].
      + now left.
      + right. eexists. exact Hcmd.
      + right. eexists. exact Hcmd.
    - injection Hret as <-. now left. }
  assert (Hlast : forall d, base_cmd <> [] -> last cmd d = last base_cmd d).
  { intros d Hne. destruct Hshape as [->|(f & ->)]; [reflexivity|now apply inject_last]. }
  repeat split.
  - exact Hlast.
  - destruct Hshape as [->|(f & ->)]; [now left|].
    unfold inject_audio_filter.
    destruct (Nat.ltb_spec (List.length base_cmd) 2) as [_|Hge]; [now left|].
    right. cbv zeta. rewrite !length_app, length_firstn, length_skipn.
    cbn [List.length]. lia.
  - intros B c a d Hbuild.
    destruct (audio_command_shape c a base_cmd Hbuild) as (_ & _ & front & Hbase).
    rewrite Hlast.
    + rewrite Hbase. apply last_last.
    + rewrite Hbase. now destruct front.
Qed.

Lemma normalization_keeps_output_last_witness :
  last ["ffmpeg"; "-y"; "-hide_banner"; "-i"; "in/song.flac"; "-map"; "0:a:0?";
        "-vn"; "-sn"; "-dn"; "-c:a"; "libopus"; "-b:a"; "160k"; "-af";
        "loudnorm=I=-16:measured_I=-20.2:measured_TP=-3.1:measured_LRA=7.4:measured_thresh=-30.2:offset=3.8";
        "out/song.opus"] ""
  = path_str (a_output_path (Samples.opus_args 160)).
Proof.
  apply (proj2 (proj2 (normalization_keeps_output_last
           (analysis_of_run (B := Reference.builtins) Samples.good_run)
           Samples.base_cmd Samples.input Samples.cfg false None false None _
           normalization_injects_on_success))
           Reference.builtins Opus (Samples.opus_args 160)).
  reflexivity.
Defined.

(* ===================================================================== *)
(** * Properties of the audio analyzer *)
(* ===================================================================== *)

Section Probe.

Context {B : Builtins} {I : AudioAnalyzer.IntBuiltins}.

Lemma dict_has_get (d : pydict) (key : string) :
  dict_has d key = true -> dict_get d key = Some (obj_get d key).
Proof.
  unfold dict_has, obj_get. destruct (dict_get d key); [reflexivity | discriminate].
Qed.

Lemma dict_lacks_get (d : pydict) (key : string) :
  dict_has d key = false -> dict_get d key = None.
Proof.
  unfold dict_has. destruct (dict_get d key); [discriminate | reflexivity].
Qed.

(** The loop over a list of objects: the first audio stream is kept, a video
    stream anywhere sets the flag. *)
Lemma scan_streams_dicts (streams : list pyobj) :
  forallb is_dict streams = true ->
  forall audio_stream has_video,
  AudioAnalyzer.scan_streams streams audio_stream has_video =
  AudioAnalyzer.Done
    (match audio_stream with Some d => Some d | None => first_audio streams end,
     has_video || existsb is_video_stream streams).
Proof.
  induction streams as [|stream rest IH]; intros Hdicts audio_stream has_video.
  - cbn. destruct audio_stream; rewrite orb_false_r; reflexivity.
  - cbn [forallb] in Hdicts. apply andb_true_iff in Hdicts as [Hd Hrest].
    destruct stream; try discriminate Hd.
    cbn [AudioAnalyzer.scan_streams]. rewrite (IH Hrest).
    unfold first_audio. cbn [find existsb is_audio_stream is_video_stream].
    destruct (AudioAnalyzer.is_str (obj_get d "codec_type") "video");
      destruct (AudioAnalyzer.is_str (obj_get d "codec_type") "audio");
      destruct audio_stream; cbn [andb orb];
      rewrite ?orb_true_r; reflexivity.
Qed.

(** The loop raises nothing but [AttributeError]. *)
Lemma scan_streams_failure (streams : list pyobj) :
  forall audio_stream has_video e,
  AudioAnalyzer.scan_streams streams audio_stream has_video = AudioAnalyzer.Failed e ->
  e = AudioAnalyzer.AttributeError.
Proof.
  induction streams as [|stream rest IH]; intros audio_stream has_video e Hscan.
  - discriminate Hscan.
  - cbn [AudioAnalyzer.scan_streams] in Hscan.
    destruct stream; try (injection Hscan as <-; reflexivity).
    exact (IH _ _ _ Hscan).
Qed.

(** What a successful parse went through. *)
Lemma parse_done_some (data : pydict) (path : Path) (info : AudioAnalyzer.AudioInfo) :
  AudioAnalyzer._parse_ffprobe_output data path = AudioAnalyzer.Done (Some info) ->
  let format_info := AudioAnalyzer.dict_get_default data "format" (PyDict []) in
  exists streams audio_stream,
    AudioAnalyzer.py_iter (AudioAnalyzer.dict_get_default data "streams" (PyList []))
      = AudioAnalyzer.Done streams /\
    AudioAnalyzer.scan_streams streams None false
      = AudioAnalyzer.Done (Some audio_stream, AudioAnalyzer.has_video info) /\
    AudioAnalyzer.read_duration format_info
      = AudioAnalyzer.Done (AudioAnalyzer.duration_seconds info) /\
    AudioAnalyzer.read_bitrate audio_stream format_info
      = AudioAnalyzer.Done (AudioAnalyzer.bitrate_kbps info) /\
    AudioAnalyzer.read_int_field audio_stream "channels"
      = AudioAnalyzer.Done (AudioAnalyzer.channels info) /\
    AudioAnalyzer.read_int_field audio_stream "sample_rate"
      = AudioAnalyzer.Done (AudioAnalyzer.sample_rate_hz info) /\
    AudioAnalyzer.codec_name info
      = AudioAnalyzer.dict_get_default audio_stream "codec_name" (PyStr "unknown") /\
    AudioAnalyzer.codec_long_name info
      = AudioAnalyzer.dict_get_default audio_stream "codec_long_name" (PyStr "Unknown") /\
    AudioAnalyzer.container info = lower (lstrip "."%char (suffix path)) /\
    AudioAnalyzer.has_audio info = true.
Proof.
  intros Hparse format_info.
  unfold AudioAnalyzer._parse_ffprobe_output in Hparse. fold format_info in Hparse.
  destruct (AudioAnalyzer.py_iter _) as [streams|] eqn:Hiter; [|discriminate Hparse].
  cbn [AudioAnalyzer.and_then] in Hparse.
  destruct (AudioAnalyzer.scan_streams streams None false) as [[found hv]|] eqn:Hscan;
    [|discriminate Hparse].
  cbn [AudioAnalyzer.and_then fst snd] in Hparse.
  destruct found as [audio_stream|]; [|discriminate Hparse].
  destruct (AudioAnalyzer.read_duration format_info) as [duration|] eqn:Hduration;
    [|discriminate Hparse].
  cbn [AudioAnalyzer.and_then] in Hparse.
  destruct (AudioAnalyzer.read_bitrate audio_stream format_info) as [bitrate|] eqn:Hbitrate;
    [|discriminate Hparse].
  cbn [AudioAnalyzer.and_then] in Hparse.
  destruct (AudioAnalyzer.read_int_field audio_stream "channels") as [chans|] eqn:Hchans;
    [|discriminate Hparse].
  cbn [AudioAnalyzer.and_then] in Hparse.
  destruct (AudioAnalyzer.read_int_field audio_stream "sample_rate") as [rate|] eqn:Hrate;
    [|discriminate Hparse].
  cbn [AudioAnalyzer.and_then] in Hparse.
  injection Hparse as <-. cbn.
  exists streams, audio_stream. repeat split; first [assumption | reflexivity].
Qed.

(** A value read under the [try] of the parser: what is caught leaves the
    default, what is not caught is an [OverflowError]. *)
Lemma read_kbps_present (d : pydict) (r : option Z) :
  dict_has d "bit_rate" = true ->
  AudioAnalyzer.read_kbps (PyDict d) = AudioAnalyzer.Done r ->
  r = kbps_of (obj_get d "bit_rate").
Proof.
  intros Hhas. unfold AudioAnalyzer.read_kbps, kbps_of.
  cbn [AudioAnalyzer.py_getitem]. rewrite (dict_has_get _ _ Hhas).
  cbn [AudioAnalyzer.and_then].
  destruct (AudioAnalyzer.py_int (obj_get d "bit_rate")) as [n|e];
    cbn [AudioAnalyzer.and_then AudioAnalyzer.keep_on_value_or_type_error].
  - intros [= <-]. reflexivity.
  - destruct e as [| |[]]; intros Hkept; first [discriminate Hkept | injection Hkept as <-; reflexivity].
Qed.

Lemma read_int_field_value (d : pydict) (key : string) (r : option Z) :
  AudioAnalyzer.read_int_field d key = AudioAnalyzer.Done r ->
  r = match dict_get d key with
      | Some value => int_of value
      | None => None
      end.
Proof.
  unfold AudioAnalyzer.read_int_field, int_of.
  destruct (dict_has d key) eqn:Hhas.
  - cbn [AudioAnalyzer.py_getitem]. rewrite (dict_has_get _ _ Hhas).
    cbn [AudioAnalyzer.and_then].
    destruct (AudioAnalyzer.py_int (obj_get d key)) as [n|e];
      cbn [AudioAnalyzer.and_then AudioAnalyzer.keep_on_value_or_type_error].
    + intros [= <-]. reflexivity.
    + destruct e as [| |[]]; intros Hkept; first [discriminate Hkept | injection Hkept as <-; reflexivity].
  - rewrite (dict_lacks_get _ _ Hhas). intros [= <-]. reflexivity.
Qed.

Lemma py_float_raises (value : pyobj) (e : exn) :
  py_float value = Raise e ->
  e = TypeError \/ e = OverflowError \/ exists msg, e = ValueError msg.
Proof.
  destruct value; cbn.
  - intros [= <-]. now left.
  - discriminate.
  - unfold float_of_int.
    repeat match goal with
           | |- context [match ?x with _ => _ end] => destruct x
           | |- context [if ?x then _ else _] => destruct x
           end;
      try discriminate; intros [= <-]; right; now left.
  - discriminate.
  - destruct (float_of_str s); [discriminate|]. intros [= <-]. right. right. now eexists.
  - intros [= <-]. now left.
  - intros [= <-]. now left.
Qed.

Lemma py_int_raises (value : pyobj) (e : AudioAnalyzer.probe_error) :
  AudioAnalyzer.py_int value = AudioAnalyzer.Failed e ->
  e = AudioAnalyzer.BuiltinError TypeError \/
  e = AudioAnalyzer.BuiltinError OverflowError \/
  exists msg, e = AudioAnalyzer.BuiltinError (ValueError msg).
Proof.
  destruct value as [| | |x| | |]; cbn; try discriminate;
    try (intros [= <-]; now left).
  - destruct x; try discriminate; intros [= <-]; right;
      [now left | right; now eexists].
  - destruct (AudioAnalyzer.int_of_str s); [discriminate|].
    intros [= <-]. right. right. now eexists.
Qed.

End Probe.

(** X19 ([_parse_ffprobe_output], stream selection).  For a [streams] list
    of objects (an absent [streams] key counts as the empty list) the parser
    returns [None] exactly when no stream has the codec type [audio].  An
    info it returns describes the first audio stream of the list: its codec
    names with the defaults [unknown] and [Unknown], [has_audio] set,
    [has_video] set exactly when some stream of the list, before or after
    the audio stream, is a video stream, and the container taken from the
    lower-cased suffix of the path without its leading dots. *)
Theorem first_audio_stream_is_reported {B : Builtins} {I : AudioAnalyzer.IntBuiltins}
    (data : pydict) (path : Path) (streams : list pyobj) :
  AudioAnalyzer.dict_get_default data "streams" (PyList []) = PyList streams ->
  forallb is_dict streams = true ->
  (AudioAnalyzer._parse_ffprobe_output data path = AudioAnalyzer.Done None
   <-> first_audio streams = None) /\
  (forall info,
     AudioAnalyzer._parse_ffprobe_output data path = AudioAnalyzer.Done (Some info) ->
     exists audio_stream,
       first_audio streams = Some audio_stream /\
       AudioAnalyzer.codec_name info
         = AudioAnalyzer.dict_get_default audio_stream "codec_name" (PyStr "unknown") /\
       AudioAnalyzer.codec_long_name info
         = AudioAnalyzer.dict_get_default audio_stream "codec_long_name" (PyStr "Unknown") /\
       AudioAnalyzer.has_audio info = true /\
       AudioAnalyzer.has_video info = existsb is_video_stream streams /\
       AudioAnalyzer.container info = lower (lstrip "."%char (suffix path))).
Proof.
  intros Hstreams Hdicts. split; [split|].
  - unfold AudioAnalyzer._parse_ffprobe_output. rewrite Hstreams.
    cbn [AudioAnalyzer.py_iter AudioAnalyzer.and_then].
    rewrite (scan_streams_dicts streams Hdicts).
    cbn [AudioAnalyzer.and_then fst snd].
    destruct (first_audio streams) as [audio_stream|]; [|reflexivity].
    intros Hnone. exfalso.
    repeat match type of Hnone with
           | AudioAnalyzer.and_then ?r _ = _ =>
               destruct r; cbn [AudioAnalyzer.and_then] in Hnone;
               [|discriminate Hnone]
           end.
    discriminate Hnone.
  - intros Hnone. unfold AudioAnalyzer._parse_ffprobe_output. rewrite Hstreams.
    cbn [AudioAnalyzer.py_iter AudioAnalyzer.and_then].
    rewrite (scan_streams_dicts streams Hdicts).
    cbn [AudioAnalyzer.and_then fst snd]. rewrite Hnone. reflexivity.
  - intros info Hparse.
    destruct (parse_done_some data path info Hparse)
      as (found & audio_stream & Hiter & Hscan & _ & _ & _ & _ & Hname & Hlong & Hcont & Haudio).
    rewrite Hstreams in Hiter. cbn in Hiter. injection Hiter as <-.
    rewrite (scan_streams_dicts streams Hdicts) in Hscan.
    injection Hscan as Hfirst Hvideo.
    exists audio_stream. repeat split; try assumption. symmetry. exact Hvideo.
Qed.

Lemma first_audio_stream_is_reported_witness :
  exists audio_stream,
    first_audio [PyDict MoreSamples.video_stream; PyDict MoreSamples.audio_stream]
      = Some audio_stream /\
    AudioAnalyzer.codec_name MoreSamples.probe_info
      = AudioAnalyzer.dict_get_default audio_stream "codec_name" (PyStr "unknown") /\
    AudioAnalyzer.codec_long_name MoreSamples.probe_info
      = AudioAnalyzer.dict_get_default audio_stream "codec_long_name" (PyStr "Unknown") /\
    AudioAnalyzer.has_audio MoreSamples.probe_info = true /\
    AudioAnalyzer.has_video MoreSamples.probe_info
      = existsb is_video_stream
          [PyDict MoreSamples.video_stream; PyDict MoreSamples.audio_stream] /\
    AudioAnalyzer.container MoreSamples.probe_info
      = lower (lstrip "."%char (suffix MoreSamples.probe_path)).
Proof.
  apply (proj2 (first_audio_stream_is_reported
                  (B := Reference.builtins) (I := AudioAnalyzer.int_builtins)
                  MoreSamples.probe_data MoreSamples.probe_path
                  [PyDict MoreSamples.video_stream; PyDict MoreSamples.audio_stream]
                  eq_refl eq_refl)).
  vm_compute. reflexivity.
Defined.

(** X20 ([_parse_ffprobe_output], bit rate).  With a [streams] list of
    objects and a [format] object, the bit rate of a returned info is decided
    by the audio stream whenever that stream has a [bit_rate] key: the
    integer value floor-divided by 1000, or none when the value does not
    read as an integer, in which case the bit rate of the format is not
    consulted.  Only a stream without the key falls back to the [bit_rate]
    of the format, and without either key there is no bit rate. *)
Theorem stream_bitrate_takes_precedence {B : Builtins} {I : AudioAnalyzer.IntBuiltins}
    (data : pydict) (path : Path) (streams : list pyobj)
    (audio_stream format_info : pydict) (info : AudioAnalyzer.AudioInfo) :
  AudioAnalyzer.dict_get_default data "streams" (PyList []) = PyList streams ->
  forallb is_dict streams = true ->
  first_audio streams = Some audio_stream ->
  AudioAnalyzer.dict_get_default data "format" (PyDict []) = PyDict format_info ->
  AudioAnalyzer._parse_ffprobe_output data path = AudioAnalyzer.Done (Some info) ->
  AudioAnalyzer.bitrate_kbps info =
    match dict_get audio_stream "bit_rate" with
    | Some value => kbps_of value
    | None =>
        match dict_get format_info "bit_rate" with
        | Some value => kbps_of value
        | None => None
        end
    end.
Proof.
  intros Hstreams Hdicts Hfirst Hformat Hparse.
  destruct (parse_done_some data path info Hparse)
    as (found & chosen & Hiter & Hscan & _ & Hbitrate & _).
  rewrite Hstreams in Hiter. cbn in Hiter. injection Hiter as <-.
  rewrite (scan_streams_dicts streams Hdicts), Hfirst in Hscan.
  injection Hscan as <- _.
  rewrite Hformat in Hbitrate. unfold AudioAnalyzer.read_bitrate in Hbitrate.
  destruct (dict_has audio_stream "bit_rate") eqn:Hhas.
  - rewrite (dict_has_get _ _ Hhas). exact (read_kbps_present _ _ Hhas Hbitrate).
  - rewrite (dict_lacks_get _ _ Hhas).
    cbn [AudioAnalyzer.py_contains AudioAnalyzer.and_then] in Hbitrate.
    destruct (dict_has format_info "bit_rate") eqn:Hformat_has.
    + rewrite (dict_has_get _ _ Hformat_has).
      exact (read_kbps_present _ _ Hformat_has Hbitrate).
    + rewrite (dict_lacks_get _ _ Hformat_has). now injection Hbitrate as <-.
Qed.

Lemma stream_bitrate_takes_precedence_witness :
  AudioAnalyzer.bitrate_kbps MoreSamples.probe_info =
    match dict_get MoreSamples.audio_stream "bit_rate" with
    | Some value => kbps_of (I := AudioAnalyzer.int_builtins) value
    | None =>
        match dict_get [("duration", PyStr "183.4"); ("bit_rate", PyStr "1411200")]
                "bit_rate" with
        | Some value => kbps_of (I := AudioAnalyzer.int_builtins) value
        | None => None
        end
    end.
Proof.
  apply (stream_bitrate_takes_precedence
           (B := Reference.builtins) (I := AudioAnalyzer.int_builtins)
           MoreSamples.probe_data MoreSamples.probe_path
           [PyDict MoreSamples.video_stream; PyDict MoreSamples.audio_stream]
           MoreSamples.audio_stream
           [("duration", PyStr "183.4"); ("bit_rate", PyStr "1411200")]
           MoreSamples.probe_info eq_refl eq_refl eq_refl eq_refl).
  vm_compute. reflexivity.
Defined.

(** A stream whose bit rate is unreadable hides the bit rate of the format;
    without the key in the stream the format decides. *)
Example unreadable_stream_bitrate_hides_format :
  let without_key :=
    [("streams", PyList [PyDict [("codec_type", PyStr "audio")]]);
     ("format", PyDict [("bit_rate", PyStr "1411200")])] in
  option_map AudioAnalyzer.bitrate_kbps
    (AudioAnalyzer.analyze_audio (B := MoreSamples.probe_builtins)
       (I := AudioAnalyzer.int_builtins)
       (AudioAnalyzer.ProbeCompleted 0 MoreSamples.probe_text) MoreSamples.probe_path)
    = Some None /\
  match AudioAnalyzer._parse_ffprobe_output (B := Reference.builtins)
          (I := AudioAnalyzer.int_builtins) without_key MoreSamples.probe_path with
  | AudioAnalyzer.Done (Some info) => AudioAnalyzer.bitrate_kbps info = Some 1411
  | _ => False
  end.
Proof. vm_compute. split; reflexivity. Qed.

(** X21 ([_parse_ffprobe_output], duration, channels and sample rate).
    With a [streams] list of objects and a [format] object, a returned info
    has the duration the [duration] of the format reads as, and [0.0] when
    the key is absent or its value is not a number; its channels and sample
    rate are the integers the keys [channels] and [sample_rate] of the audio
    stream read as, and none when the key is absent or the value does not
    read as an integer. *)
Theorem unreadable_fields_keep_defaults {B : Builtins} {I : AudioAnalyzer.IntBuiltins}
    (data : pydict) (path : Path) (streams : list pyobj)
    (audio_stream format_info : pydict) (info : AudioAnalyzer.AudioInfo) :
  AudioAnalyzer.dict_get_default data "streams" (PyList []) = PyList streams ->
  forallb is_dict streams = true ->
  first_audio streams = Some audio_stream ->
  AudioAnalyzer.dict_get_default data "format" (PyDict []) = PyDict format_info ->
  AudioAnalyzer._parse_ffprobe_output data path = AudioAnalyzer.Done (Some info) ->
  AudioAnalyzer.duration_seconds info =
    match dict_get format_info "duration" with
    | Some value => duration_of value
    | None => S754_zero false
    end /\
  AudioAnalyzer.channels info =
    match dict_get audio_stream "channels" with
    | Some value => int_of value
    | None => None
    end /\
  AudioAnalyzer.sample_rate_hz info =
    match dict_get audio_stream "sample_rate" with
    | Some value => int_of value
    | None => None
    end.
Proof.
  intros Hstreams Hdicts Hfirst Hformat Hparse.
  destruct (parse_done_some data path info Hparse)
    as (found & chosen & Hiter & Hscan & Hduration & _ & Hchans & Hrate & _).
  rewrite Hstreams in Hiter. cbn in Hiter. injection Hiter as <-.
  rewrite (scan_streams_dicts streams Hdicts), Hfirst in Hscan.
  injection Hscan as <- _.
  split; [|split; apply read_int_field_value; assumption].
  rewrite Hformat in Hduration. unfold AudioAnalyzer.read_duration in Hduration.
  cbn [AudioAnalyzer.py_contains AudioAnalyzer.and_then] in Hduration.
  destruct (dict_has format_info "duration") eqn:Hhas.
  - cbn [AudioAnalyzer.py_getitem] in Hduration.
    rewrite (dict_has_get _ _ Hhas) in *.
    cbn [AudioAnalyzer.and_then] in Hduration.
    unfold AudioAnalyzer.float_attempt, duration_of in *.
    destruct (py_float (obj_get format_info "duration")) as [x|e].
    + now injection Hduration as <-.
    + destruct e; cbn in Hduration; first [discriminate Hduration | now injection Hduration as <-].
  - rewrite (dict_lacks_get _ _ Hhas). now injection Hduration as <-.
Qed.

Lemma unreadable_fields_keep_defaults_witness :
  AudioAnalyzer.duration_seconds MoreSamples.probe_info =
    match dict_get [("duration", PyStr "183.4"); ("bit_rate", PyStr "1411200")]
            "duration" with
    | Some value => duration_of (B := Reference.builtins) value
    | None => S754_zero false
    end /\
  AudioAnalyzer.channels MoreSamples.probe_info =
    match dict_get MoreSamples.audio_stream "channels" with
    | Some value => int_of (I := AudioAnalyzer.int_builtins) value
    | None => None
    end /\
  AudioAnalyzer.sample_rate_hz MoreSamples.probe_info =
    match dict_get MoreSamples.audio_stream "sample_rate" with
    | Some value => int_of (I := AudioAnalyzer.int_builtins) value
    | None => None
    end.
Proof.
  apply (unreadable_fields_keep_defaults
           (B := Reference.builtins) (I := AudioAnalyzer.int_builtins)
           MoreSamples.probe_data MoreSamples.probe_path
           [PyDict MoreSamples.video_stream; PyDict MoreSamples.audio_stream]
           MoreSamples.audio_stream
           [("duration", PyStr "183.4"); ("bit_rate", PyStr "1411200")]
           MoreSamples.probe_info eq_refl eq_refl eq_refl eq_refl).
  vm_compute. reflexivity.
Defined.

Section ProbeFailures.

Context {B : Builtins} {I : AudioAnalyzer.IntBuiltins}.

(** A subscript guarded by [in] under a [try] that catches [ValueError] and
    [TypeError]: it raises nothing but [OverflowError]. *)
Lemma guarded_read_failure {A} (container : pyobj) (key : string)
    (convert : pyobj -> AudioAnalyzer.attempt A) (kept : A) (e : AudioAnalyzer.probe_error) :
  AudioAnalyzer.py_contains container key = AudioAnalyzer.Done true ->
  (forall value e', convert value = AudioAnalyzer.Failed e' ->
     e' = AudioAnalyzer.BuiltinError TypeError \/
     e' = AudioAnalyzer.BuiltinError OverflowError \/
     exists msg, e' = AudioAnalyzer.BuiltinError (ValueError msg)) ->
  AudioAnalyzer.keep_on_value_or_type_error
    (AudioAnalyzer.and_then (AudioAnalyzer.py_getitem container key) convert) kept
    = AudioAnalyzer.Failed e ->
  e = AudioAnalyzer.BuiltinError OverflowError.
Proof.
  intros Hin Hconvert Hread.
  destruct container as [| | | | | |items]; cbn in Hin; try discriminate Hin;
    try (cbn in Hread; discriminate Hread).
  injection Hin as Hhas. cbn [AudioAnalyzer.py_getitem] in Hread.
  rewrite (dict_has_get _ _ Hhas) in Hread. cbn [AudioAnalyzer.and_then] in Hread.
  destruct (convert (obj_get items key)) as [a|e'] eqn:Hvalue.
  - discriminate Hread.
  - destruct (Hconvert _ _ Hvalue) as [-> | [-> | [msg ->]]]; cbn in Hread.
    + discriminate Hread.
    + now injection Hread as <-.
    + discriminate Hread.
Qed.

Lemma float_attempt_failure (value : pyobj) (e : AudioAnalyzer.probe_error) :
  AudioAnalyzer.float_attempt value = AudioAnalyzer.Failed e ->
  e = AudioAnalyzer.BuiltinError TypeError \/
  e = AudioAnalyzer.BuiltinError OverflowError \/
  exists msg, e = AudioAnalyzer.BuiltinError (ValueError msg).
Proof.
  unfold AudioAnalyzer.float_attempt.
  destruct (py_float value) as [x|raised] eqn:Hfloat; [discriminate|].
  intros [= <-].
  destruct (py_float_raises _ _ Hfloat) as [-> | [-> | [msg ->]]];
    [now left | right; now left | right; right; now eexists].
Qed.

Lemma int_then_failure {A} (f : Z -> A) (value : pyobj) (e : AudioAnalyzer.probe_error) :
  AudioAnalyzer.and_then (AudioAnalyzer.py_int value) (fun n => AudioAnalyzer.Done (f n))
    = AudioAnalyzer.Failed e ->
  e = AudioAnalyzer.BuiltinError TypeError \/
  e = AudioAnalyzer.BuiltinError OverflowError \/
  exists msg, e = AudioAnalyzer.BuiltinError (ValueError msg).
Proof.
  destruct (AudioAnalyzer.py_int value) as [n|e'] eqn:Hint; cbn; [discriminate|].
  intros [= <-]. exact (py_int_raises _ _ Hint).
Qed.

Lemma py_contains_failure (container : pyobj) (key : string) (e : AudioAnalyzer.probe_error) :
  AudioAnalyzer.py_contains container key = AudioAnalyzer.Failed e ->
  e = AudioAnalyzer.BuiltinError TypeError.
Proof.
  destruct container; cbn; try discriminate; now intros [= <-].
Qed.

Lemma read_duration_failure (format_info : pyobj) (e : AudioAnalyzer.probe_error) :
  AudioAnalyzer.read_duration format_info = AudioAnalyzer.Failed e ->
  e = AudioAnalyzer.BuiltinError TypeError \/ e = AudioAnalyzer.BuiltinError OverflowError.
Proof.
  unfold AudioAnalyzer.read_duration.
  destruct (AudioAnalyzer.py_contains format_info "duration") as [[|]|e'] eqn:Hin;
    cbn [AudioAnalyzer.and_then].
  - intros Hread. right.
    exact (guarded_read_failure _ _ _ _ _ Hin float_attempt_failure Hread).
  - discriminate.
  - intros [= <-]. left. exact (py_contains_failure _ _ _ Hin).
Qed.

Lemma read_kbps_failure (container : pyobj) (e : AudioAnalyzer.probe_error) :
  AudioAnalyzer.py_contains container "bit_rate" = AudioAnalyzer.Done true ->
  AudioAnalyzer.read_kbps container = AudioAnalyzer.Failed e ->
  e = AudioAnalyzer.BuiltinError OverflowError.
Proof.
  intros Hin Hread.
  exact (guarded_read_failure _ _ _ _ _ Hin (int_then_failure _) Hread).
Qed.

Lemma read_bitrate_failure (audio_stream : pydict) (format_info : pyobj)
    (e : AudioAnalyzer.probe_error) :
  AudioAnalyzer.read_bitrate audio_stream format_info = AudioAnalyzer.Failed e ->
  e = AudioAnalyzer.BuiltinError TypeError \/ e = AudioAnalyzer.BuiltinError OverflowError.
Proof.
  unfold AudioAnalyzer.read_bitrate.
  destruct (dict_has audio_stream "bit_rate") eqn:Hhas.
  - intros Hread. right. apply (read_kbps_failure (PyDict audio_stream)); [|exact Hread].
    cbn. now rewrite Hhas.
  - destruct (AudioAnalyzer.py_contains format_info "bit_rate") as [[|]|e'] eqn:Hin;
      cbn [AudioAnalyzer.and_then].
    + intros Hread. right. exact (read_kbps_failure _ _ Hin Hread).
    + discriminate.
    + intros [= <-]. left. exact (py_contains_failure _ _ _ Hin).
Qed.

Lemma read_int_field_failure (audio_stream : pydict) (key : string)
    (e : AudioAnalyzer.probe_error) :
  AudioAnalyzer.read_int_field audio_stream key = AudioAnalyzer.Failed e ->
  e = AudioAnalyzer.BuiltinError OverflowError.
Proof.
  unfold AudioAnalyzer.read_int_field.
  destruct (dict_has audio_stream key) eqn:Hhas; [|discriminate].
  intros Hread.
  apply (guarded_read_failure (PyDict audio_stream) key _ _ _) with (3 := Hread).
  - cbn. now rewrite Hhas.
  - exact (int_then_failure _).
Qed.

End ProbeFailures.

(** X22 ([_parse_ffprobe_output], exceptions).  Whatever the decoded
    document holds, the parser raises neither [KeyError] nor [ValueError]:
    an exception that leaves it is the [AttributeError] of a stream that is
    not an object, the [TypeError] of a [streams] or [format] value that
    cannot be iterated or searched, or the [OverflowError] of a number too
    large to convert. *)
Theorem parser_raises_no_key_or_value_error {B : Builtins} {I : AudioAnalyzer.IntBuiltins}
    (data : pydict) (path : Path) (e : AudioAnalyzer.probe_error) :
  AudioAnalyzer._parse_ffprobe_output data path = AudioAnalyzer.Failed e ->
  e = AudioAnalyzer.AttributeError \/
  e = AudioAnalyzer.BuiltinError TypeError \/
  e = AudioAnalyzer.BuiltinError OverflowError.
Proof.
  unfold AudioAnalyzer._parse_ffprobe_output.
  destruct (AudioAnalyzer.py_iter _) as [streams|e'] eqn:Hiter;
    cbn [AudioAnalyzer.and_then].
  2:{ intros [= <-]. right. left.
      destruct (AudioAnalyzer.dict_get_default data "streams" (PyList []));
        cbn in Hiter; try discriminate Hiter; now injection Hiter as <-. }
  destruct (AudioAnalyzer.scan_streams streams None false) as [[found hv]|e'] eqn:Hscan;
    cbn [AudioAnalyzer.and_then fst snd].
  2:{ intros [= <-]. left. exact (scan_streams_failure _ _ _ _ Hscan). }
  destruct found as [audio_stream|]; [|discriminate].
  destruct (AudioAnalyzer.read_duration _) as [duration|e'] eqn:Hduration;
    cbn [AudioAnalyzer.and_then].
  2:{ intros [= <-]. right. exact (read_duration_failure _ _ Hduration). }
  destruct (AudioAnalyzer.read_bitrate audio_stream _) as [bitrate|e'] eqn:Hbitrate;
    cbn [AudioAnalyzer.and_then].
  2:{ intros [= <-]. right. exact (read_bitrate_failure _ _ _ Hbitrate). }
  destruct (AudioAnalyzer.read_int_field audio_stream "channels") as [chans|e'] eqn:Hchans;
    cbn [AudioAnalyzer.and_then].
  2:{ intros [= <-]. right. right. exact (read_int_field_failure _ _ _ Hchans). }
  destruct (AudioAnalyzer.read_int_field audio_stream "sample_rate") as [rate|e'] eqn:Hrate;
    cbn [AudioAnalyzer.and_then].
  2:{ intros [= <-]. right. right. exact (read_int_field_failure _ _ _ Hrate). }
  discriminate.
Qed.

Lemma parser_raises_no_key_or_value_error_witness :
  AudioAnalyzer.BuiltinError OverflowError = AudioAnalyzer.AttributeError \/
  AudioAnalyzer.BuiltinError OverflowError = AudioAnalyzer.BuiltinError TypeError \/
  AudioAnalyzer.BuiltinError OverflowError = AudioAnalyzer.BuiltinError OverflowError.
Proof.
  apply (parser_raises_no_key_or_value_error
           (B := Reference.builtins) (I := AudioAnalyzer.int_builtins)
           [("streams",
             PyList [PyDict [("codec_type", PyStr "audio");
                             ("channels", PyFloat (S754_infinity false))]])]
           MoreSamples.probe_path).
  vm_compute. reflexivity.
Defined.

(** Each of the three exceptions does leave the parser. *)
Example parser_exceptions_reached :
  let parse := AudioAnalyzer._parse_ffprobe_output (B := Reference.builtins)
                 (I := AudioAnalyzer.int_builtins) in
  parse [("streams", PyList [PyStr "audio"])] MoreSamples.probe_path
    = AudioAnalyzer.Failed AudioAnalyzer.AttributeError /\
  parse [("streams", PyNone)] MoreSamples.probe_path
    = AudioAnalyzer.Failed (AudioAnalyzer.BuiltinError TypeError) /\
  parse [("streams", PyList [PyDict [("codec_type", PyStr "audio")]]); ("format", PyNone)]
        MoreSamples.probe_path
    = AudioAnalyzer.Failed (AudioAnalyzer.BuiltinError TypeError) /\
  parse [("streams", PyList [PyDict [("codec_type", PyStr "audio");
                                     ("bit_rate", PyFloat (S754_infinity false))]])]
        MoreSamples.probe_path
    = AudioAnalyzer.Failed (AudioAnalyzer.BuiltinError OverflowError).
Proof. vm_compute. repeat split. Qed.

(** X23 ([analyze_audio], [is_audio_only], [is_video_with_audio]).  An info
    is returned only for a probe that completed with exit code 0 and printed
    a JSON object from which the parser returned that info; a probe that
    raised, exited with another code, printed something else, or made the
    parser raise gives no info.  A returned info has [has_audio] set, so it
    is audio-only exactly when it has no video and video-with-audio exactly
    when it has video: one of the two classifications, never both. *)
Theorem analyzed_file_is_classified {B : Builtins} {I : AudioAnalyzer.IntBuiltins}
    (run : AudioAnalyzer.probe_run) (path : Path) (info : AudioAnalyzer.AudioInfo) :
  AudioAnalyzer.analyze_audio run path = Some info ->
  (exists stdout data,
     run = AudioAnalyzer.ProbeCompleted 0 stdout /\
     json_loads stdout = Loaded (PyDict data) /\
     AudioAnalyzer._parse_ffprobe_output data path = AudioAnalyzer.Done (Some info)) /\
  AudioAnalyzer.has_audio info = true /\
  AudioAnalyzer.is_audio_only info = negb (AudioAnalyzer.has_video info) /\
  AudioAnalyzer.is_video_with_audio info = AudioAnalyzer.has_video info /\
  AudioAnalyzer.is_audio_only info = negb (AudioAnalyzer.is_video_with_audio info).
Proof.
  unfold AudioAnalyzer.analyze_audio. intros Hrun.
  destruct run as [|returncode stdout]; [discriminate Hrun|].
  destruct (returncode =? 0) eqn:Hcode; [|discriminate Hrun].
  apply Z.eqb_eq in Hcode. subst returncode. cbn [negb] in Hrun.
  destruct (json_loads stdout) as [[| | | | | |data]| |e] eqn:Hjson; try discriminate Hrun.
  destruct (AudioAnalyzer._parse_ffprobe_output data path) as [[parsed|]|] eqn:Hparse;
    try discriminate Hrun.
  injection Hrun as ->.
  destruct (parse_done_some data path info Hparse) as (_ & _ & _ & _ & _ & _ & _ & _ & _ & _ & _ & Haudio).
  unfold AudioAnalyzer.is_audio_only, AudioAnalyzer.is_video_with_audio.
  rewrite Haudio. cbn [andb].
  split; [exists stdout, data; repeat split; assumption|].
  repeat split; reflexivity.
Qed.

Lemma analyzed_file_is_classified_witness :
  (exists stdout data,
     AudioAnalyzer.ProbeCompleted 0 MoreSamples.probe_text
       = AudioAnalyzer.ProbeCompleted 0 stdout /\
     json_loads (Builtins := MoreSamples.probe_builtins) stdout = Loaded (PyDict data) /\
     AudioAnalyzer._parse_ffprobe_output (B := MoreSamples.probe_builtins)
       (I := AudioAnalyzer.int_builtins) data MoreSamples.probe_path
       = AudioAnalyzer.Done (Some MoreSamples.probe_info)) /\
  AudioAnalyzer.has_audio MoreSamples.probe_info = true /\
  AudioAnalyzer.is_audio_only MoreSamples.probe_info
    = negb (AudioAnalyzer.has_video MoreSamples.probe_info) /\
  AudioAnalyzer.is_video_with_audio MoreSamples.probe_info
    = AudioAnalyzer.has_video MoreSamples.probe_info /\
  AudioAnalyzer.is_audio_only MoreSamples.probe_info
    = negb (AudioAnalyzer.is_video_with_audio MoreSamples.probe_info).
Proof.
  apply (analyzed_file_is_classified
           (B := MoreSamples.probe_builtins) (I := AudioAnalyzer.int_builtins)
           (AudioAnalyzer.ProbeCompleted 0 MoreSamples.probe_text)
           MoreSamples.probe_path MoreSamples.probe_info).
  vm_compute. reflexivity.
Defined.
